(** * RadeonProRender Maya plugin: viewport render loop, MASH instancer, toon material

    A shallow embedding of [FireRenderViewport.cpp], [InstancerMASH.cpp] and
    [FireRenderToonMaterial.cpp].

    The three classes are glue between Maya and the RPR SDK.  Every call
    that leaves the class (Maya API, RPR context, render thread helper) is
    recorded, in order, in a call history; what such a call answers is read
    from a [Host] record whose fields are functions of the history so far.
    Member variables are record fields, a null pointer is [None], an
    exception is the [Throw] outcome of a small state-and-exception monad. *)

From Stdlib Require Import ZArith Lia List Bool.
From stdpp Require Import base option list strings gmap pretty.

Local Open Scope Z_scope.

(** ** Machine integers *)

(** [unsigned int] arithmetic wraps modulo 2^32. *)
Definition u32 (x : Z) : Z := x mod 2 ^ 32.

(** [static_cast<size_t>] of a 64-bit value. *)
Definition u64 (x : Z) : Z := x mod 2 ^ 64.

Definition is_u32 (x : Z) : Prop := 0 <= x < 2 ^ 32.

Module Viewport.

(** ** Host and SDK vocabulary *)

Inductive MStatus :=
| kSuccess | kFailure | kInsufficientMemory | kInvalidParameter
| kLicenseFailure | kUnknownParameter | kNotImplemented | kNotFound | kEndOfFile.

Global Instance MStatus_eq_dec : EqDecision MStatus.
Proof. solve_decision. Defined.

(** [status != MStatus::kSuccess] *)
Definition failed (s : MStatus) : bool := negb (bool_decide (s = kSuccess)).

(** [FireRenderContext::state].  The source names four states and has a
    [default] label for any other value of the enumeration. *)
Inductive StateEnum :=
| StateExiting | StateRendering | StatePaused | StateUpdating
| StateOther (code : Z).

Global Instance StateEnum_eq_dec : EqDecision StateEnum.
Proof. solve_decision. Defined.

(** [RV_PIXEL]: four 32-bit floats.  The code only stores and copies them,
    so a channel is kept as its IEEE-754 bit pattern. *)
Record RV_PIXEL := mkPixel { pix_r : Z; pix_g : Z; pix_b : Z; pix_a : Z }.

Global Instance RV_PIXEL_eq_dec : EqDecision RV_PIXEL.
Proof. solve_decision. Defined.

Definition float_0 : Z := 0.
Definition float_1 : Z := 0x3F800000.

(** A value-initialised [RV_PIXEL] (what [vector::resize] appends). *)
Definition pixel_default : RV_PIXEL := mkPixel float_0 float_0 float_0 float_0.

(** [RenderRegion]: the four [unsigned int] arguments of its constructor,
    in order: the first and last column, the first and last row. *)
Record RenderRegion := mkRegion
  { rg_x0 : Z; rg_x1 : Z; rg_y0 : Z; rg_y1 : Z }.

Inductive MRasterFormat := kR32G32B32A32_FLOAT | kOtherFormat.

Record MTextureDescription := mkDesc
  { fWidth : Z; fHeight : Z; fDepth : Z;
    fBytesPerRow : Z; fBytesPerSlice : Z; fFormat : MRasterFormat }.

(** An [MTexture*] that is not null. *)
Definition MTexture := positive.

Inductive Exn := Exception (what : string).

(** Where [FireRenderContext::readFrameBuffer] is told to write: the
    viewport's own [m_pixels], or the cached frame the [StoredFrame*]
    points at, named by its key in the texture cache. *)
Inductive ReadTarget := ToPixels | ToStoredFrame (key : string).

(** Calls that leave the class. *)
Inductive Event :=
| CtxUpdateLimits (animating : bool)
| CtxRender (arg : option bool)
| CtxResolveAOV
| CtxReadFrameBuffer (dst : ReadTarget) (w h : Z) (region : RenderRegion) (flip : bool)
| CtxResize (w h : Z) (glTexture : option MTexture)
| CtxSetCamera
| CtxSetDirty
| CtxFreshen (lock : bool)
| CtxCleanScene
| TexAcquire (desc : MTextureDescription) (data : list RV_PIXEL)
| TexUpdate (tex : MTexture) (data : list RV_PIXEL)
| TexRelease (tex : MTexture)
| ViewScheduleRefresh
| SleepFor (ms : Z)
| RunItemsQueuedForTheMainThread
| KeepRunning
| DialogClose
| DialogShow
| DebugPrint (errors : Z).

Definition is_render (e : Event) : bool :=
  match e with CtxRender _ => true | _ => false end.

Definition is_frame_read (e : Event) : bool :=
  match e with CtxReadFrameBuffer _ _ _ _ _ | CtxResolveAOV => true | _ => false end.

Definition is_texture_write (e : Event) : bool :=
  match e with TexAcquire _ _ | TexUpdate _ _ => true | _ => false end.

Definition is_texture_release (e : Event) : bool :=
  match e with TexRelease _ => true | _ => false end.

Definition is_keep_running (e : Event) : bool :=
  match e with KeepRunning => true | _ => false end.

(** What the host answers, as a function of the calls made so far. *)
Definition oracle (A : Type) := list Event -> A.

Record Host := mkHost
  { (* MAnimControl *)
    isPlaying : oracle bool;
    isScrubbing : oracle bool;
    (* the global set while Maya shuts down *)
    gExitingMaya : oracle bool;
    (* rcWarningDialog.shown *)
    dialogShown : oracle bool;
    (* MRenderer::outputTargetSize: status and the two values written *)
    outputTargetSize : oracle (MStatus * (Z * Z));
    (* MTextureManager::acquireTexture, MTexture::textureDescription, MTexture::update *)
    acquireTexture : oracle (option MTexture);
    textureDescription : oracle MTextureDescription;
    textureUpdate : oracle MStatus;
    (* FireRenderContext queries *)
    cameraAttributeChanged : oracle bool;
    needsRedraw : oracle bool;
    keepRenderRunning : oracle bool;
    isFirstIterationAndShadersNOTCached : oracle bool;
    isDirty : oracle bool;
    GetStateHash : oracle N;
    (* the exception, if any, raised by the SDK call logged last *)
    sdkThrows : oracle (option Exn);
    (* the pixels the SDK delivers for the frame-buffer read logged last *)
    frameBufferPixels : oracle (list RV_PIXEL);
    (* M3dView *)
    getM3dViewFromModelPanel : oracle MStatus;
    getCamera : oracle MStatus;
    cameraPathIsValid : oracle bool;
    (* the render thread, seen from the main thread *)
    IsThreadRunning : oracle bool;
    waitSpins : oracle nat;
    isRunningAfterWait : oracle bool;
    (* the allocator: what [m_pixels.resize] throws, if it cannot grow *)
    pixelsResizeThrows : oracle (option Exn) }.

(** ** The texture cache *)

Record StoredFrame := mkFrame
  { sf_width : Z; sf_height : Z; sf_data : list RV_PIXEL }.

Definition empty_frame : StoredFrame := mkFrame 0 0 [].

(** Modelled from the spec: [StoredFrame::Resize] is declared in
    FireRenderTextureCache.h, which is not part of the sources at hand.
    It answers whether the frame "required resizing to the requested width
    and height": a frame that already has that size is left alone and the
    answer is [false]; otherwise the frame takes the new size, its buffer
    is resized like a [std::vector], and the answer is [true]. *)
Definition Resize (f : StoredFrame) (w h : Z) : bool * StoredFrame :=
  if bool_decide (sf_width f = w) && bool_decide (sf_height f = h)
  then (false, f)
  else (true, mkFrame w h (resize (Z.to_nat (w * h)) pixel_default (sf_data f))).

(** Modelled from the spec: [TextureCache::operator[]] (same header) hands
    out "the cached frame keyed by" the string, creating an empty frame
    the first time a key is seen, as a [std::map] would. *)
Definition cache_get (c : gmap string StoredFrame) (k : string)
  : StoredFrame * gmap string StoredFrame :=
  match c !! k with
  | Some f => (f, c)
  | None => (empty_frame, <[k := empty_frame]> c)
  end.

(** ** The viewport object *)

(** The slice of [FireRenderContext] the viewport reads and writes: the
    public [state] member, the frame-buffer size that [resize] sets, and
    whether the context shares its frame buffer with OpenGL. *)
Record Context := mkContext
  { state : StateEnum;
    width : Z;
    height : Z;
    isGLInteropActive : bool }.

Record Viewport := mkViewport
  { m_isRunning : bool;
    m_useAnimationCache : bool;
    m_pixelsUpdated : bool;
    m_panelName : string;
    m_textureChanged : bool;
    m_showDialogNeeded : bool;
    m_closeDialogNeeded : bool;
    m_error : option Exn;
    m_renderingErrors : Z;
    m_texture : option MTexture;
    m_textureDesc : MTextureDescription;
    m_pixels : list RV_PIXEL;
    m_textureCache : gmap string StoredFrame;
    m_context : Context;
    (* ghost: the calls made so far, oldest first *)
    calls : list Event }.

Definition set_state (x : StateEnum) (c : Context) : Context :=
  mkContext x (width c) (height c) (isGLInteropActive c).
Definition set_size (w h : Z) (c : Context) : Context :=
  mkContext (state c) w h (isGLInteropActive c).

Definition set_m_isRunning (x : bool) (v : Viewport) : Viewport :=
  mkViewport x (m_useAnimationCache v) (m_pixelsUpdated v) (m_panelName v) (m_textureChanged v)
             (m_showDialogNeeded v) (m_closeDialogNeeded v) (m_error v) (m_renderingErrors v) (m_texture v)
             (m_textureDesc v) (m_pixels v) (m_textureCache v) (m_context v) (calls v).
Definition set_m_pixelsUpdated (x : bool) (v : Viewport) : Viewport :=
  mkViewport (m_isRunning v) (m_useAnimationCache v) x (m_panelName v) (m_textureChanged v)
             (m_showDialogNeeded v) (m_closeDialogNeeded v) (m_error v) (m_renderingErrors v) (m_texture v)
             (m_textureDesc v) (m_pixels v) (m_textureCache v) (m_context v) (calls v).
Definition set_m_textureChanged (x : bool) (v : Viewport) : Viewport :=
  mkViewport (m_isRunning v) (m_useAnimationCache v) (m_pixelsUpdated v) (m_panelName v) x
             (m_showDialogNeeded v) (m_closeDialogNeeded v) (m_error v) (m_renderingErrors v) (m_texture v)
             (m_textureDesc v) (m_pixels v) (m_textureCache v) (m_context v) (calls v).
Definition set_m_showDialogNeeded (x : bool) (v : Viewport) : Viewport :=
  mkViewport (m_isRunning v) (m_useAnimationCache v) (m_pixelsUpdated v) (m_panelName v) (m_textureChanged v)
             x (m_closeDialogNeeded v) (m_error v) (m_renderingErrors v) (m_texture v)
             (m_textureDesc v) (m_pixels v) (m_textureCache v) (m_context v) (calls v).
Definition set_m_closeDialogNeeded (x : bool) (v : Viewport) : Viewport :=
  mkViewport (m_isRunning v) (m_useAnimationCache v) (m_pixelsUpdated v) (m_panelName v) (m_textureChanged v)
             (m_showDialogNeeded v) x (m_error v) (m_renderingErrors v) (m_texture v)
             (m_textureDesc v) (m_pixels v) (m_textureCache v) (m_context v) (calls v).
Definition set_m_error (x : option Exn) (v : Viewport) : Viewport :=
  mkViewport (m_isRunning v) (m_useAnimationCache v) (m_pixelsUpdated v) (m_panelName v) (m_textureChanged v)
             (m_showDialogNeeded v) (m_closeDialogNeeded v) x (m_renderingErrors v) (m_texture v)
             (m_textureDesc v) (m_pixels v) (m_textureCache v) (m_context v) (calls v).
Definition set_m_renderingErrors (x : Z) (v : Viewport) : Viewport :=
  mkViewport (m_isRunning v) (m_useAnimationCache v) (m_pixelsUpdated v) (m_panelName v) (m_textureChanged v)
             (m_showDialogNeeded v) (m_closeDialogNeeded v) (m_error v) x (m_texture v)
             (m_textureDesc v) (m_pixels v) (m_textureCache v) (m_context v) (calls v).
Definition set_m_texture (x : option MTexture) (v : Viewport) : Viewport :=
  mkViewport (m_isRunning v) (m_useAnimationCache v) (m_pixelsUpdated v) (m_panelName v) (m_textureChanged v)
             (m_showDialogNeeded v) (m_closeDialogNeeded v) (m_error v) (m_renderingErrors v) x
             (m_textureDesc v) (m_pixels v) (m_textureCache v) (m_context v) (calls v).
Definition set_m_textureDesc (x : MTextureDescription) (v : Viewport) : Viewport :=
  mkViewport (m_isRunning v) (m_useAnimationCache v) (m_pixelsUpdated v) (m_panelName v) (m_textureChanged v)
             (m_showDialogNeeded v) (m_closeDialogNeeded v) (m_error v) (m_renderingErrors v) (m_texture v)
             x (m_pixels v) (m_textureCache v) (m_context v) (calls v).
Definition set_m_pixels (x : list RV_PIXEL) (v : Viewport) : Viewport :=
  mkViewport (m_isRunning v) (m_useAnimationCache v) (m_pixelsUpdated v) (m_panelName v) (m_textureChanged v)
             (m_showDialogNeeded v) (m_closeDialogNeeded v) (m_error v) (m_renderingErrors v) (m_texture v)
             (m_textureDesc v) x (m_textureCache v) (m_context v) (calls v).
Definition set_m_textureCache (x : gmap string StoredFrame) (v : Viewport) : Viewport :=
  mkViewport (m_isRunning v) (m_useAnimationCache v) (m_pixelsUpdated v) (m_panelName v) (m_textureChanged v)
             (m_showDialogNeeded v) (m_closeDialogNeeded v) (m_error v) (m_renderingErrors v) (m_texture v)
             (m_textureDesc v) (m_pixels v) x (m_context v) (calls v).
Definition set_m_context (x : Context) (v : Viewport) : Viewport :=
  mkViewport (m_isRunning v) (m_useAnimationCache v) (m_pixelsUpdated v) (m_panelName v) (m_textureChanged v)
             (m_showDialogNeeded v) (m_closeDialogNeeded v) (m_error v) (m_renderingErrors v) (m_texture v)
             (m_textureDesc v) (m_pixels v) (m_textureCache v) x (calls v).
Definition set_calls (x : list Event) (v : Viewport) : Viewport :=
  mkViewport (m_isRunning v) (m_useAnimationCache v) (m_pixelsUpdated v) (m_panelName v) (m_textureChanged v)
             (m_showDialogNeeded v) (m_closeDialogNeeded v) (m_error v) (m_renderingErrors v) (m_texture v)
             (m_textureDesc v) (m_pixels v) (m_textureCache v) (m_context v) x.

(** Record one outgoing call. *)
Definition log (e : Event) (v : Viewport) : Viewport :=
  set_calls (calls v ++ [e]) v.

(** The calls made after a history of length [n]. *)
Definition calls_since (n : nat) (v : Viewport) : list Event := drop n (calls v).

(** ** State and exceptions *)

Inductive outcome (A : Type) :=
| Ret (a : A)
| Throw (e : Exn).
Arguments Ret {A} a.
Arguments Throw {A} e.

Definition M (A : Type) : Type := Viewport -> outcome A * Viewport.

Definition ret {A} (a : A) : M A := fun v => (Ret a, v).
Definition throw {A} (e : Exn) : M A := fun v => (Throw e, v).
Definition bind {A B} (c : M A) (k : A -> M B) : M B :=
  fun v => match c v with
           | (Ret a, v') => k a v'
           | (Throw e, v') => (Throw e, v')
           end.
(** [try { c } catch (...) { handler }] *)
Definition try_catch {A} (c : M A) (handler : Exn -> M A) : M A :=
  fun v => match c v with
           | (Ret a, v') => (Ret a, v')
           | (Throw e, v') => handler e v'
           end.
(** A step that cannot throw. *)
Definition lift (f : Viewport -> Viewport) : M unit := fun v => (Ret tt, f v).
Definition get {A} (f : Viewport -> A) : M A := fun v => (Ret (f v), v).

Notation "'do' x <- c ; k" := (bind c (fun x => k))
  (at level 10, x name, c at level 100, k at level 200).

Section WithHost.

(** The texture size limit is a macro of FireRenderViewport.h. *)
Variable FRMAYA_GL_MAX_TEXTURE_SIZE : Z.
Variable host : Host.

(** Ask the host, given the calls made so far. *)
Definition ask {A} (q : Host -> oracle A) (v : Viewport) : A := q host (calls v).

(** An SDK call that may throw: log it, then see whether it did. *)
Definition sdk_call (e : Event) : M unit :=
  fun v => let v' := log e v in
           match ask sdkThrows v' with
           | Some ex => (Throw ex, v')
           | None => (Ret tt, v')
           end.

(** Modelled from the spec: the class of [m_error] (FireRenderError) is
    declared outside the sources at hand.  [m_error.check()] is taken to
    answer whether an error has been set, and
    [m_error.set(current_exception())] to record the exception. *)
Definition error_check (v : Viewport) : bool := bool_decide (is_Some (m_error v)).
Definition error_set (e : Exn) (v : Viewport) : Viewport := set_m_error (Some e) v.

(** *** updateTexture *)

Definition updateTexture (data : list RV_PIXEL) (w h : Z) (v : Viewport)
  : MStatus * Viewport :=
  match m_texture v with
  | None =>
      let bytesPerRow := u32 (4 * 4 * w) in
      let desc := mkDesc w h 1 bytesPerRow (u32 (bytesPerRow * h)) kR32G32B32A32_FLOAT in
      let v1 := set_m_textureDesc desc v in
      let v2 := log (TexAcquire desc data) v1 in
      let tex := ask acquireTexture v2 in
      let v3 := set_m_texture tex v2 in
      let v4 := match tex with
                | Some _ => set_m_textureDesc (ask textureDescription v3) v3
                | None => v3
                end in
      (kSuccess, set_m_textureChanged true v4)
  | Some tex =>
      let v1 := log (TexUpdate tex data) v in
      (ask textureUpdate v1, v1)
  end.

(** *** hasTextureChanged *)

Definition hasTextureChanged (v : Viewport) : bool * Viewport :=
  let changed := m_textureChanged v in
  (changed, set_m_textureChanged false v).

(** *** cleanUp *)

Definition cleanUp (v : Viewport) : Viewport :=
  let v1 := log CtxCleanScene v in
  match m_texture v1 with
  | Some tex =>
      if negb (ask gExitingMaya v1)
      then set_m_texture None (log (TexRelease tex) v1)
      else v1
  | None => v1
  end.

(** *** getSize *)

(** The clamp applied to the size the renderer reports. *)
Definition clampSize (w h : Z) : Z * Z :=
  if (h <? w) && (FRMAYA_GL_MAX_TEXTURE_SIZE <? w) then
    (FRMAYA_GL_MAX_TEXTURE_SIZE, u32 (h * FRMAYA_GL_MAX_TEXTURE_SIZE) / w)
  else if FRMAYA_GL_MAX_TEXTURE_SIZE <? h then
    (u32 (w * FRMAYA_GL_MAX_TEXTURE_SIZE) / h, FRMAYA_GL_MAX_TEXTURE_SIZE)
  else (w, h).

Definition getSize (v : Viewport) : MStatus * (Z * Z) :=
  let '(status, (w, h)) := ask outputTargetSize v in
  if failed status then (status, (w, h))
  else (kSuccess, clampSize w h).

(** *** readFrameBuffer *)

(** Modelled from the spec: [FireRenderContext::readFrameBuffer] is
    declared outside the sources at hand.  It is taken to copy the pixels
    the SDK delivers into the buffer it is handed, from its start and
    within its bounds. *)
Definition fill (buf src : list RV_PIXEL) : list RV_PIXEL :=
  take (length buf) src ++ drop (length src) buf.

Definition fill_frame (src : list RV_PIXEL) (f : StoredFrame) : StoredFrame :=
  mkFrame (sf_width f) (sf_height f) (fill (sf_data f) src).

Definition readFrameBuffer (storedFrame : option string) : M unit := fun v =>
  if isGLInteropActive (m_context v) then sdk_call CtxResolveAOV v
  else
    let w := width (m_context v) in
    let h := height (m_context v) in
    let region := mkRegion 0 (u32 (w - 1)) 0 (u32 (h - 1)) in
    match storedFrame with
    | Some key =>
        (do _ <- sdk_call (CtxReadFrameBuffer (ToStoredFrame key) w h region false);
         lift (fun v' => set_m_textureCache
                 (alter (fill_frame (ask frameBufferPixels v')) key (m_textureCache v')) v')) v
    | None =>
        (do _ <- sdk_call (CtxReadFrameBuffer ToPixels w h region false);
         do _ <- lift (fun v' => set_m_pixels (fill (m_pixels v') (ask frameBufferPixels v')) v');
         lift (set_m_pixelsUpdated true)) v
    end.

(** *** RunOnViewportThread *)

(** The body of the [try] block. *)
Definition renderIteration : M unit :=
  do _ <- sdk_call (CtxRender (Some false));
  do _ <- lift (set_m_closeDialogNeeded true);
  do _ <- readFrameBuffer None;
  lift (fun v => if 0 <? m_renderingErrors v
                 then set_m_renderingErrors (m_renderingErrors v - 1) v else v).

(** The [catch (...)] block. *)
Definition renderFailed (e : Exn) : M unit :=
  do _ <- lift (log ViewScheduleRefresh);
  do _ <- lift (fun v => set_m_renderingErrors (m_renderingErrors v + 1) v);
  do _ <- lift (fun v => log (DebugPrint (m_renderingErrors v)) v);
  do n <- get m_renderingErrors;
  if 3 <? n then throw e else ret tt.

(** Whether a render is required. *)
Definition renderRequired (v : Viewport) : bool :=
  ask cameraAttributeChanged v || ask needsRedraw v || ask keepRenderRunning v.

Definition RunOnViewportThread : M bool := fun v =>
  match state (m_context v) with
  | StateExiting => ret false v
  | StateRendering =>
      if renderRequired v then
        (do _ <- try_catch renderIteration renderFailed;
         do _ <- lift (log ViewScheduleRefresh);
         ret true) v
      else
        (do _ <- lift (log (SleepFor 2)); ret true) v
  | _ => (do _ <- lift (log (SleepFor 5)); ret true) v
  end.

(** *** stop *)

(** One turn of the wait loop. *)
Definition stop_spin (v : Viewport) : Viewport :=
  let v1 := log RunItemsQueuedForTheMainThread v in
  let v2 := set_m_context (set_state StateExiting (m_context v1)) v1 in
  log (SleepFor 10) v2.

(** The loop of [stop] waits for the render thread, which clears
    [m_isRunning] once it has seen [StateExiting].  Seen from the main
    thread alone, the loop is entered when its condition holds, turns a
    number of times that the other thread decides ([waitSpins]; the wait
    is taken to end), and leaves [m_isRunning] as that thread last wrote
    it.  What the render thread does to the other members meanwhile is
    outside this sequential model. *)
Definition stop (v : Viewport) : bool * Viewport :=
  let v1 :=
    if m_isRunning v && ask IsThreadRunning v then
      let v' := Nat.iter (S (ask waitSpins v)) stop_spin v in
      set_m_isRunning (ask isRunningAfterWait v') v'
    else v in
  let v2 :=
    if ask dialogShown v1 && m_closeDialogNeeded v1 then log DialogClose v1 else v1 in
  (true, v2).

(** *** start *)

Definition start (v : Viewport) : bool * Viewport :=
  let v1 := if m_isRunning v then snd (stop v) else v in
  if bool_decide (width (m_context v1) = 0) || bool_decide (height (m_context v1) = 0)
  then (false, v1)
  else
    let v2 := set_m_context (set_state StateRendering (m_context v1)) v1 in
    let v3 := set_m_isRunning false v2 in
    let v4 := set_m_renderingErrors 0 v3 in
    (true, log KeepRunning v4).

(** *** resize *)

Definition clearPixels (v : Viewport) : Viewport :=
  set_m_pixels (replicate (length (m_pixels v)) (mkPixel float_0 float_0 float_0 float_1)) v.

(** [m_pixels.resize(width * height)]: the vector takes the new length,
    or the allocation fails and it throws, the vector staying as it is. *)
Definition resizePixels (w h : Z) : M unit := fun v =>
  match ask pixelsResizeThrows v with
  | Some e => (Throw e, v)
  | None => (Ret tt, set_m_pixels (resize (Z.to_nat (u32 (w * h))) pixel_default (m_pixels v)) v)
  end.

(** Modelled from the spec: [FireRenderContext::resize] is declared
    outside the sources at hand.  Once it has returned, [width()] and
    [height()] are taken to answer the new size. *)
Definition contextResized (w h : Z) (v : Viewport) : Viewport :=
  set_m_context (set_size w h (m_context v)) v.

Definition resizeFrameBufferStandard (w h : Z) : M unit :=
  do _ <- sdk_call (CtxResize w h None);
  do _ <- lift (contextResized w h);
  do _ <- resizePixels w h;
  do _ <- readFrameBuffer None;
  lift (fun v => snd (updateTexture (m_pixels v) w h v)).

Definition resizeFrameBufferGLInterop (w h : Z) : M unit :=
  do _ <- resizePixels w h;
  do _ <- lift clearPixels;
  do _ <- lift (fun v => snd (updateTexture (m_pixels v) w h v));
  fun v => match m_texture v with
           | Some tex =>
               (do _ <- sdk_call (CtxResize w h (Some tex));
                lift (contextResized w h)) v
           | None => ret tt v
           end.

Definition releaseTexture (v : Viewport) : Viewport :=
  match m_texture v with
  | Some tex => set_m_texture None (log (TexRelease tex) v)
  | None => v
  end.

Definition resize_try (w h : Z) : M MStatus :=
  do _ <- lift (set_m_textureCache ∅);
  do _ <- lift releaseTexture;
  do _ <- lift (fun v => if ask isFirstIterationAndShadersNOTCached v
                         then set_m_showDialogNeeded true (set_m_closeDialogNeeded false v)
                         else v);
  do _ <- (fun v => if isGLInteropActive (m_context v)
                    then resizeFrameBufferGLInterop w h v
                    else resizeFrameBufferStandard w h v);
  do status <- get (ask getM3dViewFromModelPanel);
  if failed status then ret status else
  do status <- get (ask getCamera);
  if failed status then ret status else
  do valid <- get (ask cameraPathIsValid);
  do _ <- (if valid then sdk_call CtxSetCamera else ret tt);
  do _ <- lift (log CtxSetDirty);
  ret kSuccess.

(** [catch (...) { m_error.set(current_exception()); return MStatus::kFailure; }] *)
Definition catch_to_error (e : Exn) : M MStatus :=
  do _ <- lift (error_set e); ret kFailure.

Definition resize (w h : Z) : M MStatus :=
  try_catch (resize_try w h) catch_to_error.

(** *** refreshContext *)

Definition refreshContext : M MStatus := fun v =>
  if negb (ask isDirty v) then ret kSuccess v
  else try_catch (do _ <- sdk_call (CtxFreshen true); ret kSuccess) catch_to_error v.

(** *** renderCached *)

(** [m_panelName ; size_t(hash)] in decimal. *)
Definition frameKey (v : Viewport) : string :=
  m_panelName v +:+ ";" +:+ pretty (ask GetStateHash v).

(** [frame.data()] of the cached frame under [key]. *)
Definition frameData (key : string) (v : Viewport) : list RV_PIXEL :=
  match m_textureCache v !! key with
  | Some f => sf_data f
  | None => []
  end.

Definition updateFromFrame (key : string) (w h : Z) : M MStatus := fun v =>
  let '(status, v') := updateTexture (frameData key v) w h v in (Ret status, v').

Definition renderCached_try (w h : Z) : M MStatus := fun v =>
  let key := frameKey v in
  let '(frame, cache) := cache_get (m_textureCache v) key in
  let '(resized, frame') := Resize frame w h in
  let v1 := set_m_textureCache (<[key := frame']> cache) v in
  if resized then
    (do _ <- sdk_call (CtxRender None);
     do _ <- readFrameBuffer (Some key);
     updateFromFrame key w h) v1
  else updateFromFrame key w h v1.

Definition renderCached (w h : Z) : M MStatus :=
  do _ <- lift (set_m_pixelsUpdated false);
  try_catch (renderCached_try w h) catch_to_error.

(** *** doSetup and setup *)

Definition animating (v : Viewport) : bool := ask isPlaying v || ask isScrubbing v.

Definition doSetup : M MStatus := fun v =>
  if error_check v then ret kFailure v else
  let '(status, (w, h)) := getSize v in
  if failed status then ret status v else
  let anim := animating v in
  let v1 := log (CtxUpdateLimits anim) v in
  let useAnimationCache :=
    anim && m_useAnimationCache v1 && negb (isGLInteropActive (m_context v1)) in
  let v2 := if m_isRunning v1 && useAnimationCache then snd (stop v1) else v1 in
  (do status <- (fun v' =>
        if negb (bool_decide (w = width (m_context v')))
           || negb (bool_decide (h = height (m_context v')))
        then resize w h v' else ret kSuccess v');
   if failed status then ret status else
   do status <- refreshContext;
   if failed status then ret status else
   do err <- get error_check;
   if err then ret kFailure else
   if useAnimationCache then
     do status <- renderCached w h;
     if failed status then ret status else ret kSuccess
   else
     do _ <- (fun v' => if negb (m_isRunning v') then lift (fun x => snd (start x)) v'
                        else ret tt v');
     ret kSuccess) v2.

Definition setup : M MStatus := fun v =>
  let v1 :=
    if negb (isGLInteropActive (m_context v)) && m_pixelsUpdated v
    then snd (updateTexture (m_pixels v) (width (m_context v)) (height (m_context v)) v)
    else v in
  doSetup v1.

End WithHost.

(** ** Sample hosts and states

    Concrete inputs on which the definitions above are run. *)

(** A host that answers the same at every point of the history. *)
Definition scripted_host (playing exiting pending threadRunning : bool)
    (size : MStatus * (Z * Z)) (hash : N) (tex : option MTexture)
    (throws : oracle (option Exn)) : Host :=
  {| isPlaying := fun _ => playing;
     isScrubbing := fun _ => false;
     gExitingMaya := fun _ => exiting;
     dialogShown := fun _ => false;
     outputTargetSize := fun _ => size;
     acquireTexture := fun _ => tex;
     textureDescription := fun _ => mkDesc 4 2 1 64 128 kR32G32B32A32_FLOAT;
     textureUpdate := fun _ => kSuccess;
     cameraAttributeChanged := fun _ => false;
     needsRedraw := fun _ => pending;
     keepRenderRunning := fun _ => false;
     isFirstIterationAndShadersNOTCached := fun _ => false;
     isDirty := fun _ => false;
     GetStateHash := fun _ => hash;
     sdkThrows := throws;
     frameBufferPixels := fun _ => replicate 8 (mkPixel float_1 float_0 float_0 float_1);
     getM3dViewFromModelPanel := fun _ => kSuccess;
     getCamera := fun _ => kSuccess;
     cameraPathIsValid := fun _ => true;
     IsThreadRunning := fun _ => threadRunning;
     waitSpins := fun _ => 0%nat;
     isRunningAfterWait := fun _ => false;
     pixelsResizeThrows := fun _ => None |}.

Definition never_throws : oracle (option Exn) := fun _ => None.
Definition always_throws : oracle (option Exn) := fun _ => Some (Exception "rpr").

(** A viewport of the given size, in the given state, with no texture,
    an empty cache and an empty history. *)
Definition sample_viewport (running gl : bool) (st : StateEnum) (w h : Z) : Viewport :=
  {| m_isRunning := running;
     m_useAnimationCache := true;
     m_pixelsUpdated := false;
     m_panelName := "modelPanel4";
     m_textureChanged := false;
     m_showDialogNeeded := false;
     m_closeDialogNeeded := false;
     m_error := None;
     m_renderingErrors := 0;
     m_texture := None;
     m_textureDesc := mkDesc 0 0 1 0 0 kR32G32B32A32_FLOAT;
     m_pixels := replicate (Z.to_nat (w * h)) pixel_default;
     m_textureCache := ∅;
     m_context := mkContext st w h gl;
     calls := [] |}.

(** ** Vocabulary of the statements *)

(** The calls made by [n] turns of the wait loop of [stop]. *)
Definition spin_calls (n : nat) : list Event :=
  concat (replicate n [RunItemsQueuedForTheMainThread; SleepFor 10]).



(** A run of cached requests at one size, each against the host as it is
    then: for every request, the key of its frame and whether the request
    made the context render. *)
Fixpoint serveCached (w h : Z) (hosts : list Host) (v : Viewport)
  : list (string * bool) * Viewport :=
  match hosts with
  | [] => ([], v)
  | host :: rest =>
      let v' := snd (renderCached host w h v) in
      let rendered := existsb is_render (calls_since (length (calls v)) v') in
      let '(served, v'') := serveCached w h rest v' in
      ((frameKey host v, rendered) :: served, v'')
  end.

(** The frame cached under [k], or the empty frame that [operator[]] would
    create, and whether [Resize] would have to change it. *)
Definition cachedFrame (k : string) (v : Viewport) : StoredFrame :=
  default empty_frame (m_textureCache v !! k).

Definition requiresResize (w h : Z) (k : string) (v : Viewport) : bool :=
  fst (Resize (cachedFrame k v) w h).


(** The pixel data handed to the texture by a texture write. *)
Definition written_data (e : Event) : option (list RV_PIXEL) :=
  match e with
  | TexAcquire _ data | TexUpdate _ data => Some data
  | _ => None
  end.

(** [v'] continues the history of [v] with calls that all satisfy [P]. *)
Definition continues (P : Event -> bool) (v v' : Viewport) : Prop :=
  exists evs, calls v' = calls v ++ evs /\ forallb P evs = true.

(** A computation that only makes calls satisfying [P]. *)
Definition only_calls {A} (P : Event -> bool) (c : M A) : Prop :=
  forall v, continues P v (snd (c v)).

(** Calls that touch neither the texture nor the frame buffer. *)
Definition housekeeping (e : Event) : bool :=
  match e with
  | CtxUpdateLimits _ | CtxFreshen _ | ViewScheduleRefresh | SleepFor _
  | RunItemsQueuedForTheMainThread | KeepRunning | DialogClose | DialogShow
  | DebugPrint _ => true
  | _ => false
  end.

(** The calls of [stop]. *)
Definition waiting (e : Event) : bool :=
  match e with
  | RunItemsQueuedForTheMainThread | SleepFor _ | DialogClose => true
  | _ => false
  end.

(** A computation that keeps a property of the viewport. *)
Definition preserves {A} (I : Viewport -> Prop) (c : M A) : Prop :=
  forall v, I v -> I (snd (c v)).

(** A computation that does not throw. *)
Definition returns {A} (c : M A) : Prop :=
  forall v, exists a, fst (c v) = Ret a.

(** Any call but the launch of the render loop. *)
Definition not_launch (e : Event) : bool := negb (is_keep_running e).


End Viewport.

(** * InstancerMASH *)

Module InstancerMASH.

Inductive RotationOrder := kXYZ | kYZX | kZXY | kXZY | kYXZ | kZYX.

Inductive Exn := out_of_range.

Section WithMaya.

(** [double] values and [MMatrix] are computed by Maya alone: the code
    hands them from one API call to the next.  They stay abstract, with
    the operations the code invokes on them. *)
Variable double : Type.
Variable d_zero d_one : double.
Variable deg2rad : double -> double.
Variable MMatrix : Type.
(** [a *= b] *)
Variable mmul : MMatrix -> MMatrix -> MMatrix.

Record MVector := mkVector { vx : double; vy : double; vz : double }.

(** [MTransformationMatrix]: a transform kept as its components. *)
Record MTransformationMatrix := mkTransform
  { tm_scale : MVector;
    tm_shear : MVector;
    tm_rotation : MVector;
    tm_order : RotationOrder;
    tm_translation : MVector }.

(** [MTransformationMatrix::asMatrix] *)
Variable asMatrix : MTransformationMatrix -> MMatrix.

(** A default-constructed [MTransformationMatrix]. *)
Definition identity : MTransformationMatrix :=
  mkTransform (mkVector d_one d_one d_one) (mkVector d_zero d_zero d_zero)
              (mkVector d_zero d_zero d_zero) kXYZ (mkVector d_zero d_zero d_zero).

Definition setScale (s : MVector) (t : MTransformationMatrix) :=
  mkTransform s (tm_shear t) (tm_rotation t) (tm_order t) (tm_translation t).
Definition setRotation (r : MVector) (o : RotationOrder) (t : MTransformationMatrix) :=
  mkTransform (tm_scale t) (tm_shear t) r o (tm_translation t).
Definition setTranslation (p : MVector) (t : MTransformationMatrix) :=
  mkTransform (tm_scale t) (tm_shear t) (tm_rotation t) (tm_order t) p.

Definition MObject := positive.

(** A connection of the instancer node: the plug's partial name, and for
    every plug it is the destination of, [child(0)] of the source node. *)
Record Connection := mkConnection
  { partialName : string; connectedTo : list MObject }.

(** What the dependency graph holds while one method runs. *)
Record Scene := mkScene
  { (* the instanceCount plug, an MInt64 *)
    instanceCount : Z;
    dagConnections : list Connection;
    (* transformation of parent(0) of the render mesh of a target object *)
    parentTransformation : MObject -> MTransformationMatrix;
    (* transformation of the instancer node itself *)
    instancerTransformation : MTransformationMatrix;
    (* the MASH arrays of the inp plug *)
    positionData : nat -> MVector;
    rotationData : nat -> MVector;
    scaleData : nat -> MVector }.

(** A [FireRenderMeshMASH] instance, as far as the instancer drives it. *)
Record Instance := mkInstance
  { source : MObject;
    selfTransform : option MMatrix;
    rebuilds : nat;
    dirty : bool;
    visible : bool }.

Record Instancer := mkInstancer
  { m_instancedObjects : gmap nat Instance;
    m_instancedObjectsCachedSize : Z }.

Variable scene : Scene.

Definition GetInstanceCount : Z := u64 (instanceCount scene).

(** [name.find("inh[") != std::string::npos] *)
Definition is_input_hierarchy (name : string) : bool :=
  match String.index 0 "inh[" name with Some _ => true | None => false end.

(** [reserve] asks for capacity and leaves the vector empty: it shows in
    no result.  Memory is taken to be there for it. *)
Definition GetTargetObjects : list MObject :=
  flat_map (fun c => if is_input_hierarchy (partialName c) then connectedTo c else [])
           (dagConnections scene).

(** The transform MASH prescribes for instance [i]. *)
Definition transformFromMASH (i : nat) : MTransformationMatrix :=
  let position := positionData scene i in
  let rotation := rotationData scene i in
  let scale := scaleData scene i in
  let rotationRadians :=
    mkVector (deg2rad (vx rotation)) (deg2rad (vy rotation)) (deg2rad (vz rotation)) in
  setTranslation position (setRotation rotationRadians kXYZ (setScale scale identity)).

(** The loop counter is an [unsigned]: the count is cut to 32 bits.  As
    in [GetTargetObjects], memory is taken to be there for [reserve]. *)
Definition GetTransformMatrices : list MMatrix :=
  map (fun i => asMatrix (transformFromMASH i)) (seq 0 (Z.to_nat (u32 GetInstanceCount))).

(** A fresh instance copied from the render mesh of the first target. *)
Definition newInstance (mesh : MObject) : Instance := mkInstance mesh None 0 false true.

Definition GenerateInstances (st : Instancer) : Instancer * option Exn :=
  match GetTargetObjects with
  | [] => (st, Some out_of_range)
  | first :: _ =>
      (mkInstancer
         (foldl (fun m i => <[i := newInstance first]> m) (m_instancedObjects st)
                (seq 0 (Z.to_nat GetInstanceCount)))
         (m_instancedObjectsCachedSize st), None)
  end.

(** [SetSelfTransform; Rebuild; setDirty] on one instance. *)
Definition place (t : MMatrix) (o : Instance) : Instance :=
  mkInstance (source o) (Some t) (S (rebuilds o)) true (visible o).

(** The [for] loop of [Freshen], over the indices still to visit; both
    [at(i)] calls throw when the index is missing. *)
Fixpoint freshenLoop (target instancer : MMatrix) (matricesFromMASH : list MMatrix)
    (todo : list nat) (objs : gmap nat Instance) : gmap nat Instance * option Exn :=
  match todo with
  | [] => (objs, None)
  | i :: rest =>
      match matricesFromMASH !! i with
      | None => (objs, Some out_of_range)
      | Some mash =>
          let newTransform := mmul (mmul target mash) instancer in
          match objs !! i with
          | None => (objs, Some out_of_range)
          | Some o =>
              freshenLoop target instancer matricesFromMASH rest (<[i := place newTransform o]> objs)
          end
      end
  end.

Definition targetNodeMatrix (first : MObject) : MTransformationMatrix :=
  setTranslation (mkVector d_zero d_zero d_zero) (parentTransformation scene first).

Definition Freshen (st : Instancer) : Instancer * option Exn :=
  match GetTargetObjects with
  | [] => (st, None)
  | first :: _ =>
      let '(st1, thrown) :=
        if bool_decide (m_instancedObjects st = ∅) then GenerateInstances st else (st, None) in
      match thrown with
      | Some e => (st1, Some e)
      | None =>
          let '(objs, thrown') :=
            freshenLoop (asMatrix (targetNodeMatrix first))
                        (asMatrix (instancerTransformation scene))
                        GetTransformMatrices
                        (seq 0 (Z.to_nat GetInstanceCount))
                        (m_instancedObjects st1) in
          match thrown' with
          | Some e => (mkInstancer objs (m_instancedObjectsCachedSize st1), Some e)
          | None => (mkInstancer objs GetInstanceCount, None)
          end
      end
  end.

(** The same scene with the parents of the target meshes moved. *)
Definition translateParents (by_ : MObject -> MVector) : Scene :=
  mkScene (instanceCount scene) (dagConnections scene)
          (fun o => setTranslation (by_ o) (parentTransformation scene o))
          (instancerTransformation scene)
          (positionData scene) (rotationData scene) (scaleData scene).

(** The transform [Freshen] gives instance [i] when [first] is the first
    target object. *)
Definition placement (first : MObject) (i : nat) : MMatrix :=
  mmul (mmul (asMatrix (targetNodeMatrix first)) (asMatrix (transformFromMASH i)))
       (asMatrix (instancerTransformation scene)).

End WithMaya.

(** ** A symbolic Maya

    Numbers and matrices as the terms that build them, to run the
    definitions on a concrete scene. *)

Inductive Number := Lit (n : Z) | Deg2Rad (x : Number).

Inductive Matrix :=
| AsMatrix (t : MTransformationMatrix Number)
| Times (a b : Matrix).

Definition vec (x y z : Z) : MVector Number := mkVector Number (Lit x) (Lit y) (Lit z).

(** Two instances of one mesh, whose parent sits at (5, 0, 0). *)
Definition sample_scene : Scene Number :=
  mkScene Number 2
    [mkConnection "inh[0]" [7%positive]; mkConnection "msg" [9%positive]]
    (fun _ => mkTransform Number (vec 1 1 1) (vec 0 0 0) (vec 0 90 0) kXYZ (vec 5 0 0))
    (mkTransform Number (vec 2 2 2) (vec 0 0 0) (vec 0 0 0) kXYZ (vec 0 1 0))
    (fun i => vec (Z.of_nat i) 0 0)
    (fun i => vec 0 (45 * Z.of_nat i) 0)
    (fun _ => vec 1 1 1).

(** The sample scene while its count was still 1. *)
Definition single_scene : Scene Number :=
  mkScene Number 1 (dagConnections Number sample_scene)
    (parentTransformation Number sample_scene) (instancerTransformation Number sample_scene)
    (positionData Number sample_scene) (rotationData Number sample_scene)
    (scaleData Number sample_scene).

Definition sample_instancer : Instancer Matrix := mkInstancer Matrix ∅ 0.

End InstancerMASH.

(** * ToonMaterial *)

Module ToonMaterial.

(** The node's attributes whose plugs are read as shader values. *)
Inductive Attribute :=
| color | normal | roughness | transparencyLevel
| highlightColor | highlightColor2 | midColor | shadowColor | shadowColor2
| rampPositionShadow | rampPosition1 | rampPosition2 | rampPositionHighlight
| rampRangeShadow | rampRange1 | rampRange2 | rampRangeHighlight.

Inductive MaterialInput :=
| RPR_MATERIAL_INPUT_COLOR | RPR_MATERIAL_INPUT_ROUGHNESS | RPR_MATERIAL_INPUT_NORMAL
| RPR_MATERIAL_INPUT_DIFFUSE_RAMP | RPR_MATERIAL_INPUT_TOON_5_COLORS
| RPR_MATERIAL_INPUT_HIGHLIGHT2 | RPR_MATERIAL_INPUT_HIGHLIGHT | RPR_MATERIAL_INPUT_MID
| RPR_MATERIAL_INPUT_SHADOW | RPR_MATERIAL_INPUT_SHADOW2
| RPR_MATERIAL_INPUT_POSITION_SHADOW | RPR_MATERIAL_INPUT_POSITION1
| RPR_MATERIAL_INPUT_POSITION2 | RPR_MATERIAL_INPUT_POSITION_HIGHLIGHT
| RPR_MATERIAL_INPUT_INTERPOLATION
| RPR_MATERIAL_INPUT_RANGE_SHADOW | RPR_MATERIAL_INPUT_RANGE1
| RPR_MATERIAL_INPUT_RANGE2 | RPR_MATERIAL_INPUT_RANGE_HIGHLIGHT
| RPR_MATERIAL_INPUT_LIGHT.

Global Instance MaterialInput_eq_dec : EqDecision MaterialInput.
Proof. solve_decision. Defined.

Inductive InterpolationMode := RPR_INTERPOLATION_MODE_NONE | RPR_INTERPOLATION_MODE_LINEAR.

Definition rpr_light := positive.
Definition MObject := positive.

(** What is bound to a material input. *)
#[local] Unset Elimination Schemes.
Inductive Value :=
| FromPlug (attr : Attribute)              (* scope.GetValue(plug) *)
| IntValue (n : Z)
| Interpolation (mode : InterpolationMode)
| ToonRampNode (inputs : list (MaterialInput * Value))
| Light (light : rpr_light).
#[local] Set Elimination Schemes.

Inductive ShaderType := ShaderTypeToon | ShaderTypeTransparent.

Inductive Shader :=
| ShaderNode (type : ShaderType) (inputs : list (MaterialInput * Value))
| ShaderBlend (a b : Shader) (weight : Value).

Inductive ValueType := ValueTypeNormalMap | ValueTypeBumpMap | ValueTypeOther.

Inductive RenderType := Thumbnail | Undefined | ProductionRender | IPR | ViewportRender.

(** Calls with an effect outside the shader graph. *)
Inductive Event :=
| GetLinkedLightAttr            (* the MEL command that reads .linkedLight *)
| DisplayError.

(** The plugs of the node and what the scope answers. *)
Record Node := mkNode
  { showAdvanced : bool;
    showMixLevels : bool;
    enable5Colors : bool;
    transparencyEnable : bool;
    enableLightLinking : bool;
    normalNodeType : ValueType;
    renderType : RenderType;
    linkedLightNode : option MObject;
    GetRprLightFromNode : MObject -> option rpr_light }.

Definition SetValue (i : MaterialInput) (x : Value) (s : Shader) : Shader :=
  match s with
  | ShaderNode t inputs => ShaderNode t (inputs ++ [(i, x)])
  | ShaderBlend a b w => ShaderBlend a b w
  end.

Section WithNode.

Variable node : Node.

Definition toonRamp : Value :=
  ToonRampNode
    ([ (RPR_MATERIAL_INPUT_TOON_5_COLORS, IntValue (if enable5Colors node then 1 else 0));
       (RPR_MATERIAL_INPUT_HIGHLIGHT2, FromPlug highlightColor2);
       (RPR_MATERIAL_INPUT_HIGHLIGHT, FromPlug highlightColor);
       (RPR_MATERIAL_INPUT_MID, FromPlug midColor);
       (RPR_MATERIAL_INPUT_SHADOW, FromPlug shadowColor);
       (RPR_MATERIAL_INPUT_SHADOW2, FromPlug shadowColor2);
       (RPR_MATERIAL_INPUT_POSITION_SHADOW, FromPlug rampPositionShadow);
       (RPR_MATERIAL_INPUT_POSITION1, FromPlug rampPosition1);
       (RPR_MATERIAL_INPUT_POSITION2, FromPlug rampPosition2);
       (RPR_MATERIAL_INPUT_POSITION_HIGHLIGHT, FromPlug rampPositionHighlight) ]
     ++ (if showMixLevels node then
           [ (RPR_MATERIAL_INPUT_INTERPOLATION, Interpolation RPR_INTERPOLATION_MODE_LINEAR);
             (RPR_MATERIAL_INPUT_RANGE_SHADOW, FromPlug rampRangeShadow);
             (RPR_MATERIAL_INPUT_RANGE1, FromPlug rampRange1);
             (RPR_MATERIAL_INPUT_RANGE2, FromPlug rampRange2);
             (RPR_MATERIAL_INPUT_RANGE_HIGHLIGHT, FromPlug rampRangeHighlight) ]
         else
           [ (RPR_MATERIAL_INPUT_INTERPOLATION, Interpolation RPR_INTERPOLATION_MODE_NONE) ])).

Definition linkLight (shader : Shader) : Shader * list Event :=
  match renderType node with
  | Thumbnail | Undefined => (shader, [])
  | _ =>
      match linkedLightNode node with
      | None => (shader, [GetLinkedLightAttr; DisplayError])
      | Some light =>
          match GetRprLightFromNode node light with
          | None => (shader, [GetLinkedLightAttr; DisplayError])
          | Some rprLight =>
              (SetValue RPR_MATERIAL_INPUT_LIGHT (Light rprLight) shader, [GetLinkedLightAttr])
          end
      end
  end.

(** The toon shader as it stands when the transparency plug is tested. *)
Definition toonShader : Shader :=
  let shader := ShaderNode ShaderTypeToon [] in
  let shader := SetValue RPR_MATERIAL_INPUT_COLOR (FromPlug color) shader in
  let shader :=
    if showAdvanced node then SetValue RPR_MATERIAL_INPUT_DIFFUSE_RAMP toonRamp shader
    else shader in
  let shader := SetValue RPR_MATERIAL_INPUT_ROUGHNESS (FromPlug roughness) shader in
  match normalNodeType node with
  | ValueTypeNormalMap | ValueTypeBumpMap =>
      SetValue RPR_MATERIAL_INPUT_NORMAL (FromPlug normal) shader
  | ValueTypeOther => shader
  end.

Definition GetShader : Shader * list Event :=
  let shader := toonShader in
  if transparencyEnable node then
    let transparentShader := ShaderNode ShaderTypeTransparent [] in
    let transparancyLevel := FromPlug transparencyLevel in
    (ShaderBlend shader transparentShader transparancyLevel, [])
  else if enableLightLinking node then linkLight shader
  else (shader, []).

End WithNode.

(** Whether a material input is bound anywhere in a shader. *)
Fixpoint binds (i : MaterialInput) (s : Shader) : bool :=
  match s with
  | ShaderNode _ inputs => existsb (fun p => bool_decide (fst p = i)) inputs
  | ShaderBlend a b _ => binds i a || binds i b
  end.

Definition is_blend (s : Shader) : bool :=
  match s with ShaderBlend _ _ _ => true | ShaderNode _ _ => false end.

(** A toon node with transparency and light linking both switched on, in
    a viewport render where the linked light resolves. *)
Definition sample_node (transparent linking : bool) : Node :=
  mkNode true false false transparent linking ValueTypeNormalMap ViewportRender
         (Some 3%positive) (fun _ => Some 11%positive).

End ToonMaterial.

(** * The other methods of the viewport *)

Module ViewportMore.

Import Viewport.

Definition set_m_useAnimationCache (x : bool) (v : Viewport) : Viewport :=
  mkViewport (m_isRunning v) x (m_pixelsUpdated v) (m_panelName v) (m_textureChanged v)
             (m_showDialogNeeded v) (m_closeDialogNeeded v) (m_error v) (m_renderingErrors v)
             (m_texture v) (m_textureDesc v) (m_pixels v) (m_textureCache v) (m_context v)
             (calls v).

Section WithHost.

Variable host : Host.

(** The function [start] hands to [FireRenderThread::KeepRunning]: one
    turn of the render loop, whose result says whether to go on. *)
Definition threadStep (v : Viewport) : bool * Viewport :=
  match RunOnViewportThread host v with
  | (Ret running, v') => (running, set_m_isRunning running v')
  | (Throw e, v') => (false, error_set e (set_m_isRunning false v'))
  end.

(** *** refresh *)

Definition refresh (v : Viewport) : MStatus * Viewport :=
  let v1 :=
    if ask host dialogShown v && m_closeDialogNeeded v then log DialogClose v
    else if m_showDialogNeeded v then log DialogShow (set_m_showDialogNeeded false v)
    else v in
  (if error_check v1 then kFailure else kSuccess, v1).

(** *** cameraChanged *)

Definition cameraChanged : M MStatus :=
  try_catch
    (do _ <- sdk_call host CtxSetCamera;
     do _ <- lift (log CtxSetDirty);
     ret kSuccess)
    catch_to_error.

(** *** The animation cache switches *)

Definition setUseAnimationCache (value : bool) (v : Viewport) : Viewport :=
  log ViewScheduleRefresh (set_m_useAnimationCache value v).

Definition useAnimationCache (v : Viewport) : bool := m_useAnimationCache v.

Definition clearTextureCache (v : Viewport) : Viewport :=
  log ViewScheduleRefresh (set_m_textureCache ∅ v).

(** *** The destructor: [stop], then [cleanUp] *)

Definition destructor (v : Viewport) : Viewport :=
  cleanUp host (snd (stop host v)).

End WithHost.

(** ** Vocabulary of the statements *)

(** What decides how many pixels the buffer must hold. *)
Definition shape (v : Viewport) : nat * Z * Z * bool :=
  (length (m_pixels v), width (m_context v), height (m_context v),
   isGLInteropActive (m_context v)).


(** No error has been recorded. *)
Definition sound (v : Viewport) : Prop := m_error v = None.

(** A result that is a status, and [kFailure] if an error is recorded. *)
Definition fails_on_error (r : outcome MStatus) (v : Viewport) : Prop :=
  exists status, r = Ret status /\ (m_error v = None \/ status = kFailure).

(** A method that, run with no error recorded, leaves it so or fails. *)
Definition recovers (c : M MStatus) : Prop :=
  forall v, sound v -> fails_on_error (fst (c v)) (snd (c v)).

Definition opaque_black : RV_PIXEL := mkPixel float_0 float_0 float_0 float_1.

(** The shape a standard (non-GL) resize to [w] by [h] gives. *)
Definition resized_shape (w h : Z) : nat * Z * Z * bool :=
  (Z.to_nat (u32 (w * h)), w, h, false).

(** A Hoare triple of the monad: from a state satisfying [pre], [c]
    either returns [a] in a state satisfying [post a], or throws [e] in a
    state satisfying [thrown e]. *)
Definition triple {A} (pre : Viewport -> Prop) (c : M A)
    (post : A -> Viewport -> Prop) (thrown : Exn -> Viewport -> Prop) : Prop :=
  forall v, pre v ->
    match c v with
    | (Ret a, v') => post a v'
    | (Throw e, v') => thrown e v'
    end.

(** The size of the context's frame. *)
Definition frame_size (v : Viewport) : Z * Z :=
  (width (m_context v), height (m_context v)).

(** The texture held after the calls [evs], made after the history
    [past] with [owner] held.  The answer is [None] if a call is out of
    order: a texture is acquired only while none is held, and it is the
    held texture that is updated or released. *)
Fixpoint replay (host : Host) (past evs : list Event) (owner : option MTexture)
  : option (option MTexture) :=
  match evs with
  | [] => Some owner
  | e :: rest =>
      match e with
      | TexAcquire _ _ =>
          match owner with
          | None => replay host (past ++ [e]) rest (acquireTexture host (past ++ [e]))
          | Some _ => None
          end
      | TexUpdate tex _ =>
          if bool_decide (owner = Some tex) then replay host (past ++ [e]) rest owner
          else None
      | TexRelease tex =>
          if bool_decide (owner = Some tex) then replay host (past ++ [e]) rest None
          else None
      | _ => replay host (past ++ [e]) rest owner
      end
  end.

(** The history of the viewport, which starts with no texture, is in
    order, and the texture member is the texture held at its end. *)
Definition disciplined (host : Host) (v : Viewport) : Prop :=
  replay host [] (calls v) None = Some (m_texture v).



End ViewportMore.

(** * The other methods of the instancer *)

Module InstancerMASHMore.

Import InstancerMASH.

Section WithMaya.

Variable double : Type.
Variable MMatrix : Type.
Variable scene : Scene double.

Definition ShouldBeRecreated (st : Instancer MMatrix) : bool :=
  negb (bool_decide (GetInstanceCount double scene = m_instancedObjectsCachedSize MMatrix st))
  || bool_decide (GetTargetObjects double scene = []).

(** [setVisibility(false)] *)
Definition hide (o : Instance MMatrix) : Instance MMatrix :=
  mkInstance MMatrix (source MMatrix o) (selfTransform MMatrix o) (rebuilds MMatrix o)
             (dirty MMatrix o) false.

(** [OnPlugDirty]: the instancer afterwards, the instances that were
    hidden and dropped, and the node's dirty flag. *)
Definition OnPlugDirty (st : Instancer MMatrix)
  : Instancer MMatrix * gmap nat (Instance MMatrix) * bool :=
  if ShouldBeRecreated st then
    (mkInstancer MMatrix ∅ (m_instancedObjectsCachedSize MMatrix st),
     hide <$> m_instancedObjects MMatrix st, true)
  else (st, ∅, true).

(** The constructor: no instance, a cached size of zero, then
    [GenerateInstances]. *)
Definition constructor : Instancer MMatrix * option Exn :=
  GenerateInstances double MMatrix scene (mkInstancer MMatrix ∅ 0).

(** Every index below [n] has its instance. *)
Definition filled (n : Z) (st : Instancer MMatrix) : Prop :=
  forall i, (i < Z.to_nat n)%nat -> is_Some (m_instancedObjects MMatrix st !! i).

(** The instances are either all gone or all there for the size the
    instancer remembers. *)
Definition consistent (st : Instancer MMatrix) : Prop :=
  m_instancedObjects MMatrix st = ∅
  \/ filled (m_instancedObjectsCachedSize MMatrix st) st.

End WithMaya.

End InstancerMASHMore.

(** * Reading a toon shader *)

Module ToonMaterialMore.

Import ToonMaterial.

(** The inputs bound on a shader node, in the order they were set. *)
Definition inputs_of (s : Shader) : list MaterialInput :=
  match s with
  | ShaderNode _ inputs => map fst inputs
  | ShaderBlend _ _ _ => []
  end.

(** The inputs bound on a ramp node. *)
Definition ramp_inputs_of (x : Value) : list MaterialInput :=
  match x with
  | ToonRampNode inputs => map fst inputs
  | _ => []
  end.

(** The light the node would link, if it resolves in this render. *)
Definition resolved_light (node : Node) : option rpr_light :=
  match renderType node with
  | Thumbnail | Undefined => None
  | _ => match linkedLightNode node with
         | Some light => GetRprLightFromNode node light
         | None => None
         end
  end.

End ToonMaterialMore.

(** * Properties *)

Import Viewport.

(** ** Arithmetic of the size clamp *)

Lemma u32_le (x : Z) : 0 <= x -> u32 x <= x.
Proof. intros Hx. unfold u32. apply Z.mod_le; lia. Qed.

Lemma u32_nonneg (x : Z) : 0 <= u32 x.
Proof. unfold u32. apply Z.mod_pos_bound. lia. Qed.

Lemma u32_small (x : Z) : 0 <= x < 2 ^ 32 -> u32 x = x.
Proof. intros Hx. unfold u32. apply Z.mod_small. exact Hx. Qed.

(** A scaled side never exceeds the limit: [a * limit / b <= limit] when
    [a <= b], also when the product wraps. *)
Lemma scaled_side_le (a b limit : Z) :
  0 <= a -> a <= b -> 0 < b -> 0 <= limit -> u32 (a * limit) / b <= limit.
Proof.
  intros Ha Hab Hb Hl.
  assert (u32 (a * limit) <= a * limit) by (apply u32_le; nia).
  assert (0 <= u32 (a * limit)) by apply u32_nonneg.
  apply Z.div_le_upper_bound; nia.
Qed.

Section GetSize.

Variable limit : Z.
Variable host : Host.

(** C8. Whatever size the renderer reports, [getSize] hands back a pair
    whose two sides are at most FRMAYA_GL_MAX_TEXTURE_SIZE.  A width that
    is the larger side and over the limit becomes the limit and the height
    becomes [height * limit / width]; otherwise a height over the limit
    becomes the limit and the width becomes [width * limit / height]; a
    pair within the limit comes back as it is.  The products are those of
    [unsigned int]; they are the exact ones whenever they fit 32 bits. *)
Theorem getSize_clamps (v : Viewport) (w h : Z) :
  is_u32 limit -> is_u32 w -> is_u32 h ->
  ask host outputTargetSize v = (kSuccess, (w, h)) ->
  exists w' h',
    getSize limit host v = (kSuccess, (w', h'))
    /\ 0 <= w' <= limit /\ 0 <= h' <= limit
    /\ (w', h') =
       (if (h <? w) && (limit <? w) then (limit, u32 (h * limit) / w)
        else if limit <? h then (u32 (w * limit) / h, limit)
        else (w, h))
    /\ (if (w <=? limit) && (h <=? limit) then (w', h') = (w, h) else True)
    /\ (if h * limit <? 2 ^ 32 then u32 (h * limit) / w = h * limit / w else True)
    /\ (if w * limit <? 2 ^ 32 then u32 (w * limit) / h = w * limit / h else True).
Proof.
  unfold is_u32. intros Hl Hw Hh Hsize.
  unfold getSize. rewrite Hsize. change (failed kSuccess) with false. cbv iota.
  exists (fst (clampSize limit w h)), (snd (clampSize limit w h)).
  rewrite <- surjective_pairing. split; [reflexivity|].
  assert (Hprod1 : if h * limit <? 2 ^ 32
                   then u32 (h * limit) / w = h * limit / w else True).
  { destruct (Z.ltb_spec (h * limit) (2 ^ 32)); [|exact I].
    rewrite u32_small by nia. reflexivity. }
  assert (Hprod2 : if w * limit <? 2 ^ 32
                   then u32 (w * limit) / h = w * limit / h else True).
  { destruct (Z.ltb_spec (w * limit) (2 ^ 32)); [|exact I].
    rewrite u32_small by nia. reflexivity. }
  assert (Hq1 : h < w -> 0 <= u32 (h * limit) / w <= limit).
  { intros. split; [apply Z.div_pos; [apply u32_nonneg | lia]
                   | apply scaled_side_le; lia]. }
  assert (Hq2 : w <= h -> 0 < h -> 0 <= u32 (w * limit) / h <= limit).
  { intros. split; [apply Z.div_pos; [apply u32_nonneg | lia]
                   | apply scaled_side_le; lia]. }
  repeat match goal with |- _ /\ _ => split end;
    try exact Hprod1; try exact Hprod2;
    unfold clampSize;
    destruct (Z.ltb_spec h w) as [Hhw|Hhw];
    destruct (Z.ltb_spec limit w) as [Hlw|Hlw];
    destruct (Z.ltb_spec limit h) as [Hlh|Hlh];
    destruct (Z.leb_spec w limit); destruct (Z.leb_spec h limit);
    cbn [andb fst snd]; try reflexivity; try exact I; try lia;
    try (apply Hq1; lia); try (apply Hq2; lia).
Qed.

End GetSize.

(** A 4096 x 1024 target under a limit of 2048 comes back as 2048 x 512. *)
Lemma getSize_clamps_witness :
  exists w' h',
    getSize 2048 (scripted_host false false false false (kSuccess, (4096, 1024)) 0 None never_throws)
            (sample_viewport false false StateRendering 0 0) = (kSuccess, (w', h'))
    /\ 0 <= w' <= 2048 /\ 0 <= h' <= 2048
    /\ (w', h') = (2048, 512).
Proof.
  destruct (getSize_clamps 2048
              (scripted_host false false false false (kSuccess, (4096, 1024)) 0 None never_throws)
              (sample_viewport false false StateRendering 0 0) 4096 1024
              ltac:(unfold is_u32; lia) ltac:(unfold is_u32; lia) ltac:(unfold is_u32; lia)
              eq_refl)
    as (w' & h' & Hget & Hw & Hh & Hshape & _).
  exists w', h'. split; [exact Hget|]. split; [exact Hw|]. split; [exact Hh|]. exact Hshape.
Defined.

(** ** The texture-changed flag *)

(** C9. [hasTextureChanged] returns the flag and clears it, so a second
    call right after returns [false]; [updateTexture] raises the flag
    exactly on the branch that creates a texture ([m_texture] null) and
    leaves it alone on the branch that updates the existing one, so an
    update of an existing texture between two calls does not make the
    second call return [true]. *)
Theorem hasTextureChanged_reads_and_resets
    (host : Host) (v : Viewport) (data : list RV_PIXEL) (w h : Z) :
  fst (hasTextureChanged v) = m_textureChanged v
  /\ m_textureChanged (snd (hasTextureChanged v)) = false
  /\ fst (hasTextureChanged (snd (hasTextureChanged v))) = false
  /\ m_textureChanged (snd (updateTexture host data w h v)) =
       match m_texture v with
       | None => true
       | Some _ => m_textureChanged v
       end
  /\ fst (hasTextureChanged (snd (updateTexture host data w h (snd (hasTextureChanged v))))) =
       match m_texture v with
       | None => true
       | Some _ => false
       end.
Proof.
  repeat split; try reflexivity.
  - unfold updateTexture. destruct (m_texture v); reflexivity.
  - unfold updateTexture, hasTextureChanged. cbn [snd set_m_textureChanged m_texture].
    destruct (m_texture v); reflexivity.
Qed.

(** ** cleanUp *)

Section CleanUp.

Variable host : Host.

(** C7. [cleanUp] always cleans the RPR scene first.  It then releases the
    texture through the texture manager and nulls the pointer exactly when
    a texture exists and Maya is not exiting; while Maya is exiting nothing
    is released and the texture member keeps its value. *)
Theorem cleanUp_releases_unless_exiting (v : Viewport) :
  let exiting := gExitingMaya host (calls v ++ [CtxCleanScene]) in
  let v' := cleanUp host v in
  match m_texture v with
  | Some tex =>
      if exiting
      then calls v' = calls v ++ [CtxCleanScene] /\ m_texture v' = Some tex
      else calls v' = calls v ++ [CtxCleanScene; TexRelease tex] /\ m_texture v' = None
  | None => calls v' = calls v ++ [CtxCleanScene] /\ m_texture v' = None
  end
  /\ (existsb is_texture_release (calls_since (length (calls v)) v')
      = bool_decide (is_Some (m_texture v)) && negb exiting)
  /\ (if exiting then m_texture v' = m_texture v else m_texture v' = None).
Proof.
  cbv zeta. unfold cleanUp, calls_since, ask.
  cbn [log set_calls calls m_texture].
  destruct (m_texture v) as [tex|] eqn:Htex;
    [destruct (gExitingMaya host (calls v ++ [CtxCleanScene])) eqn:Hexit|];
    cbn [negb set_m_texture log set_calls calls m_texture];
    rewrite ?Htex, <- ?app_assoc, ?drop_app_length; cbn;
    repeat split; try reflexivity.
  destruct (gExitingMaya host _); reflexivity.
Qed.

End CleanUp.

(** ** Frame-buffer read-back *)

Section ReadFrameBuffer.

Variable host : Host.

(** With GL interop the whole of [readFrameBuffer] is the resolve call. *)
Lemma readFrameBuffer_gl (storedFrame : option string) (v : Viewport) :
  isGLInteropActive (m_context v) = true ->
  readFrameBuffer host storedFrame v = sdk_call host CtxResolveAOV v.
Proof. intros Hgl. unfold readFrameBuffer. rewrite Hgl. reflexivity. Qed.

(** The state an SDK call leaves is the state with the call logged. *)
Lemma sdk_call_state (e : Event) (v : Viewport) :
  snd (sdk_call host e v) = log e v.
Proof. unfold sdk_call. destruct (ask host sdkThrows (log e v)); reflexivity. Qed.

(** C4. Without GL interop [readFrameBuffer] asks the context for the
    colour AOV over the region (0, width-1, 0, height-1) of the context's
    size.  With no stored frame the pixels go to [m_pixels] and, the read
    done, [m_pixelsUpdated] is set; with a stored frame they go to that
    frame's data and neither [m_pixels] nor [m_pixelsUpdated] changes. *)
Theorem readFrameBuffer_standard (storedFrame : option string) (v : Viewport) :
  isGLInteropActive (m_context v) = false ->
  is_u32 (width (m_context v)) -> is_u32 (height (m_context v)) ->
  let w := width (m_context v) in
  let h := height (m_context v) in
  let region := mkRegion 0 (u32 (w - 1)) 0 (u32 (h - 1)) in
  let '(result, v') := readFrameBuffer host storedFrame v in
  (if (0 <? w) && (0 <? h) then region = mkRegion 0 (w - 1) 0 (h - 1) else True)
  /\ match storedFrame with
     | None =>
         let read := CtxReadFrameBuffer ToPixels w h region false in
         calls v' = calls v ++ [read]
         /\ m_textureCache v' = m_textureCache v
         /\ match sdkThrows host (calls v ++ [read]) with
            | None =>
                result = Ret tt
                /\ m_pixels v' = fill (m_pixels v) (frameBufferPixels host (calls v ++ [read]))
                /\ m_pixelsUpdated v' = true
            | Some ex => result = Throw ex
            end
     | Some key =>
         let read := CtxReadFrameBuffer (ToStoredFrame key) w h region false in
         calls v' = calls v ++ [read]
         /\ m_pixels v' = m_pixels v
         /\ m_pixelsUpdated v' = m_pixelsUpdated v
         /\ match sdkThrows host (calls v ++ [read]) with
            | None =>
                result = Ret tt
                /\ m_textureCache v' =
                   alter (fill_frame (frameBufferPixels host (calls v ++ [read]))) key
                         (m_textureCache v)
            | Some ex => result = Throw ex /\ m_textureCache v' = m_textureCache v
            end
     end.
Proof.
  intros Hgl Hw Hh. cbv zeta.
  destruct (readFrameBuffer host storedFrame v) as [result v'] eqn:Hrun.
  split.
  { unfold is_u32 in *.
    destruct (Z.ltb_spec 0 (width (m_context v)));
      destruct (Z.ltb_spec 0 (height (m_context v))); cbn [andb]; try exact I.
    rewrite !u32_small by lia. reflexivity. }
  unfold readFrameBuffer in Hrun. rewrite Hgl in Hrun.
  destruct storedFrame as [key|]; unfold bind, sdk_call, ask, lift in Hrun;
    cbn [log set_calls calls] in Hrun;
    destruct (sdkThrows host _) as [ex|]; inversion Hrun; subst; clear Hrun;
    cbn; repeat split; reflexivity.
Qed.

End ReadFrameBuffer.

(** A 4 x 2 context, no stored frame, the read succeeds. *)
Lemma readFrameBuffer_standard_witness :
  let host := scripted_host false false false false (kSuccess, (4, 2)) 0 None never_throws in
  let v := sample_viewport false false StateRendering 4 2 in
  let read := CtxReadFrameBuffer ToPixels 4 2 (mkRegion 0 3 0 1) false in
  calls (snd (readFrameBuffer host None v)) = [read]
  /\ m_pixelsUpdated (snd (readFrameBuffer host None v)) = true
  /\ m_pixels (snd (readFrameBuffer host None v))
     = replicate 8 (mkPixel float_1 float_0 float_0 float_1).
Proof.
  cbv zeta.
  pose proof (readFrameBuffer_standard
                (scripted_host false false false false (kSuccess, (4, 2)) 0 None never_throws)
                None (sample_viewport false false StateRendering 4 2)
                eq_refl ltac:(unfold is_u32; cbn; lia) ltac:(unfold is_u32; cbn; lia)) as H.
  cbv zeta in H.
  destruct (readFrameBuffer _ None _) as [result v'].
  cbv beta iota in H.
  destruct H as (_ & Hcalls & _ & Hrest).
  cbn in Hrest. destruct Hrest as (_ & Hpix & Hflag).
  split; [exact Hcalls|]. split; [exact Hflag|]. exact Hpix.
Defined.


(** ** Footprints *)

Lemma calls_since_app (v v' : Viewport) (evs : list Event) :
  calls v' = calls v ++ evs -> calls_since (length (calls v)) v' = evs.
Proof. intros H. unfold calls_since. rewrite H. apply drop_app_length. Qed.

Section Footprint.

Variable P : Event -> bool.

Lemma continues_refl (v : Viewport) : continues P v v.
Proof. exists []. rewrite app_nil_r. split; reflexivity. Qed.

Lemma continues_same (v v' : Viewport) : calls v' = calls v -> continues P v v'.
Proof. intros H. exists []. rewrite app_nil_r. split; [exact H|reflexivity]. Qed.

Lemma continues_trans (v1 v2 v3 : Viewport) :
  continues P v1 v2 -> continues P v2 v3 -> continues P v1 v3.
Proof.
  intros (e1 & H1 & P1) (e2 & H2 & P2). exists (e1 ++ e2).
  rewrite H2, H1, <- app_assoc. split; [reflexivity|].
  rewrite forallb_app, P1, P2. reflexivity.
Qed.

Lemma continues_weaken (Q : Event -> bool) (v v' : Viewport) :
  (forall e, Q e = true -> P e = true) -> continues Q v v' -> continues P v v'.
Proof.
  intros HQP (evs & Hcalls & Hall). exists evs. split; [exact Hcalls|].
  clear Hcalls. induction evs as [|e evs IH]; [reflexivity|].
  cbn in *. apply andb_prop in Hall as [He Hevs].
  rewrite (HQP e He), IH by exact Hevs. reflexivity.
Qed.

Lemma continues_log (e : Event) (v : Viewport) : P e = true -> continues P v (log e v).
Proof. intros He. exists [e]. split; [reflexivity|]. cbn. rewrite He. reflexivity. Qed.

(** What the new calls are, once it is known how the history continues. *)
Lemma continues_new (Q : Event -> bool) (v v' : Viewport) :
  continues P v v' -> (forall e, P e = true -> Q e = false) ->
  existsb Q (calls_since (length (calls v)) v') = false.
Proof.
  intros (evs & Hcalls & Hall) HPQ. rewrite (calls_since_app _ _ _ Hcalls). clear Hcalls.
  induction evs as [|e evs IH]; [reflexivity|].
  cbn in Hall. apply andb_prop in Hall as [He Hevs].
  cbn. rewrite (HPQ e He), IH by exact Hevs. reflexivity.
Qed.

Lemma only_calls_ret {A} (a : A) : only_calls P (ret a).
Proof. intros v. apply continues_refl. Qed.

Lemma only_calls_get {A} (f : Viewport -> A) : only_calls P (get f).
Proof. intros v. apply continues_refl. Qed.

Lemma only_calls_lift (f : Viewport -> Viewport) :
  (forall v, continues P v (f v)) -> only_calls P (lift f).
Proof. intros Hf v. apply Hf. Qed.

Lemma only_calls_bind {A B} (c : M A) (k : A -> M B) :
  only_calls P c -> (forall a, only_calls P (k a)) -> only_calls P (bind c k).
Proof.
  intros Hc Hk v. unfold bind. specialize (Hc v).
  destruct (c v) as [[a|e] v1]; cbn [snd] in *; [|exact Hc].
  eapply continues_trans; [exact Hc|apply Hk].
Qed.

Lemma only_calls_try_catch {A} (c : M A) (handler : Exn -> M A) :
  only_calls P c -> (forall e, only_calls P (handler e)) -> only_calls P (try_catch c handler).
Proof.
  intros Hc Hk v. unfold try_catch. specialize (Hc v).
  destruct (c v) as [[a|e] v1]; cbn [snd] in *; [exact Hc|].
  eapply continues_trans; [exact Hc|apply Hk].
Qed.

Lemma only_calls_sdk_call (host : Host) (e : Event) :
  P e = true -> only_calls P (sdk_call host e).
Proof.
  intros He v. unfold sdk_call. destruct (ask host sdkThrows (log e v)); cbn [snd];
    apply continues_log; exact He.
Qed.

Lemma only_calls_resizePixels (host : Host) (w h : Z) : only_calls P (resizePixels host w h).
Proof.
  intros v. unfold resizePixels. destruct (ask host pixelsResizeThrows v);
    apply continues_same; reflexivity.
Qed.

Lemma only_calls_catch_to_error (e : Exn) : only_calls P (catch_to_error e).
Proof.
  unfold catch_to_error. apply only_calls_bind; [|intros; apply only_calls_ret].
  apply only_calls_lift. intros v. apply continues_same. reflexivity.
Qed.

End Footprint.


(** ** start and stop *)

Section StartStop.

Variable host : Host.

Lemma spin_calls_S (n : nat) :
  spin_calls (S n) = spin_calls n ++ [RunItemsQueuedForTheMainThread; SleepFor 10].
Proof.
  unfold spin_calls. induction n as [|n IH]; [reflexivity|].
  change (replicate (S (S n)) ?x) with (x :: replicate (S n) x).
  cbn [concat]. rewrite IH at 1. cbn [replicate concat]. rewrite <- app_assoc. reflexivity.
Qed.

(** The wait loop touches the context state and the history only. *)
Lemma stop_spins (n : nat) (v : Viewport) :
  Nat.iter n stop_spin v =
  match n with
  | O => v
  | S _ => set_calls (calls v ++ spin_calls n)
             (set_m_context (set_state StateExiting (m_context v)) v)
  end.
Proof.
  induction n as [|n IH]; [reflexivity|].
  rewrite Nat.iter_succ, IH, spin_calls_S.
  destruct v as [run cache upd name chg show close err nerr tex desc pix tc [st w h gl] cs].
  destruct n as [|n];
    [change (spin_calls 0) with (@nil Event) | generalize (spin_calls (S n)); intros spun];
    cbv [stop_spin log set_calls set_m_context set_state
         m_isRunning m_useAnimationCache m_pixelsUpdated m_panelName m_textureChanged
         m_showDialogNeeded m_closeDialogNeeded m_error m_renderingErrors m_texture
         m_textureDesc m_pixels m_textureCache m_context calls
         state width height isGLInteropActive];
    rewrite <- ?List.app_assoc; reflexivity.
Qed.

Lemma spin_calls_waiting (n : nat) : forallb waiting (spin_calls n) = true.
Proof.
  induction n as [|n IH]; [reflexivity|].
  rewrite spin_calls_S, forallb_app, IH. reflexivity.
Qed.

(** What [stop] leaves behind: only [m_isRunning], the context state and
    the history can differ; the state is [StateExiting] once the loop has
    turned; the calls are those of the wait. *)
Lemma stop_effect (v : Viewport) :
  let v' := snd (stop host v) in
  let looped := m_isRunning v && IsThreadRunning host (calls v) in
  fst (stop host v) = true
  /\ width (m_context v') = width (m_context v)
  /\ height (m_context v') = height (m_context v)
  /\ isGLInteropActive (m_context v') = isGLInteropActive (m_context v)
  /\ state (m_context v') = (if looped then StateExiting else state (m_context v))
  /\ continues waiting v v'
  /\ (if looped then True
      else if dialogShown host (calls v) && m_closeDialogNeeded v
           then v' = log DialogClose v else v' = v).
Proof.
  cbv zeta. unfold stop, ask. cbv zeta.
  destruct (m_isRunning v && IsThreadRunning host (calls v)) eqn:Hloop.
  - rewrite stop_spins. set (n := waitSpins host (calls v)).
    match goal with
    | |- context [if ?c then _ else _] => destruct c
    end; cbn [fst snd]; (split; [reflexivity|]); cbn;
      repeat (split; [reflexivity|]); (split; [|exact I]).
    + exists (spin_calls (S n) ++ [DialogClose]). rewrite app_assoc. split; [reflexivity|].
      rewrite forallb_app, spin_calls_waiting. reflexivity.
    + exists (spin_calls (S n)). split; [reflexivity|]. apply spin_calls_waiting.
  - destruct (dialogShown host (calls v) && m_closeDialogNeeded v);
      cbn [fst snd]; (split; [reflexivity|]); cbn;
      repeat (split; [reflexivity|]); (split; [|reflexivity]).
    + apply continues_log. reflexivity.
    + apply continues_refl.
Qed.

Lemma stop_calls (v : Viewport) : continues housekeeping v (snd (stop host v)).
Proof.
  apply (continues_weaken housekeeping waiting); [intros []; cbn; congruence|].
  apply stop_effect.
Qed.

(** [start] makes housekeeping calls only, and is the identity on the
    buffers, the texture and the cache. *)
Lemma start_calls (v : Viewport) : continues housekeeping v (snd (start host v)).
Proof.
  unfold start.
  assert (H1 : continues housekeeping v (if m_isRunning v then snd (stop host v) else v)).
  { destruct (m_isRunning v); [apply stop_calls|apply continues_refl]. }
  destruct (bool_decide _ || bool_decide _); cbn [snd]; [exact H1|].
  eapply continues_trans; [exact H1|]. exists [KeepRunning]. split; reflexivity.
Qed.

Lemma refreshContext_only (P : Event -> bool) :
  P (CtxFreshen true) = true -> only_calls P (refreshContext host).
Proof.
  intros HP v. unfold refreshContext. destruct (negb (ask host isDirty v)).
  - apply only_calls_ret.
  - apply only_calls_try_catch; [|apply only_calls_catch_to_error].
    apply only_calls_bind; [apply only_calls_sdk_call; exact HP|].
    intros; apply only_calls_ret.
Qed.

End StartStop.

(** ** GL interop *)

Section GLInterop.

Variable limit : Z.
Variable host : Host.

(** [doSetup] when the animation cache is not used and the size is the
    one the context already has: refresh, then make sure the loop runs. *)
Lemma doSetup_live (v : Viewport) :
  error_check v = false ->
  getSize limit host v = (kSuccess, (width (m_context v), height (m_context v))) ->
  animating host v && m_useAnimationCache v && negb (isGLInteropActive (m_context v)) = false ->
  doSetup limit host v =
  (do status <- refreshContext host;
   if failed status then ret status else
   do err <- get error_check;
   if err then ret kFailure else
   do _ <- (fun v' => if negb (m_isRunning v') then lift (fun x => snd (start host x)) v'
                      else ret tt v');
   ret kSuccess) (log (CtxUpdateLimits (animating host v)) v).
Proof.
  intros Herr Hsize Hcache. unfold doSetup. rewrite Herr, Hsize.
  change (failed kSuccess) with false. cbv iota zeta.
  change (m_useAnimationCache (log ?e v)) with (m_useAnimationCache v).
  change (m_context (log ?e v)) with (m_context v).
  rewrite Hcache, andb_false_r.
  unfold bind at 1. change (m_context (log ?e v)) with (m_context v).
  rewrite !bool_decide_eq_true_2 by reflexivity. cbn [negb orb]. unfold ret at 1.
  change (failed kSuccess) with false. cbv iota. reflexivity.
Qed.

(** C3, amended. With GL interop active, [setup] goes straight to
    [doSetup]: its own copy of [m_pixels] into the Maya texture is skipped
    whatever [m_pixelsUpdated] says, and with the viewport size unchanged
    the whole of [setup] writes nothing to the texture; [readFrameBuffer]
    makes the resolve call for the colour AOV and nothing else, so
    [m_pixels] and [m_pixelsUpdated] stay as they were, with or without a
    stored frame. *)
Theorem gl_interop_skips_pixel_copy (storedFrame : option string) (v : Viewport) :
  isGLInteropActive (m_context v) = true ->
  setup limit host v = doSetup limit host v
  /\ (getSize limit host v = (kSuccess, (width (m_context v), height (m_context v))) ->
      existsb is_texture_write
        (calls_since (length (calls v)) (snd (setup limit host v))) = false)
  /\ snd (readFrameBuffer host storedFrame v) = log CtxResolveAOV v
  /\ calls (snd (readFrameBuffer host storedFrame v)) = calls v ++ [CtxResolveAOV]
  /\ m_pixels (snd (readFrameBuffer host storedFrame v)) = m_pixels v
  /\ m_pixelsUpdated (snd (readFrameBuffer host storedFrame v)) = m_pixelsUpdated v.
Proof.
  intros Hgl.
  assert (Hsetup : setup limit host v = doSetup limit host v).
  { unfold setup. rewrite Hgl. reflexivity. }
  split; [exact Hsetup|]. split.
  - intros Hsize. rewrite Hsetup.
    apply (continues_new housekeeping); [|intros []; cbn; congruence].
    destruct (error_check v) eqn:Herr.
    { unfold doSetup. rewrite Herr. apply continues_refl. }
    rewrite doSetup_live; [|exact Herr|exact Hsize|rewrite Hgl; apply andb_false_r].
    apply (continues_trans _ _ (log (CtxUpdateLimits (animating host v)) v));
      [apply continues_log; reflexivity|].
    apply only_calls_bind; [apply refreshContext_only; reflexivity|].
    intros status. destruct (failed status); [apply only_calls_ret|].
    apply only_calls_bind; [apply only_calls_get|].
    intros []; [apply only_calls_ret|].
    apply only_calls_bind; [|intros; apply only_calls_ret].
    intros v'. destruct (negb (m_isRunning v')); [apply start_calls|apply continues_refl].
  - rewrite readFrameBuffer_gl by exact Hgl. rewrite sdk_call_state.
    repeat split; reflexivity.
Qed.

End GLInterop.

(** C3 does not hold as stated: with GL interop active and a new size,
    [setup] runs [resize], which clears the pixel buffer and creates the
    texture from it: the CPU pixels do reach the Maya texture. *)
Lemma gl_interop_resize_writes_pixels :
  let host := scripted_host false false false false (kSuccess, (2, 2)) 0 (Some 1%positive)
                            never_throws in
  let v := set_m_pixelsUpdated true (sample_viewport false true StateRendering 4 2) in
  isGLInteropActive (m_context v) = true
  /\ fst (setup 2048 host v) = Ret kSuccess
  /\ m_pixels (snd (setup 2048 host v)) = replicate 4 ViewportMore.opaque_black
  /\ List.filter is_texture_write (calls (snd (setup 2048 host v)))
     = [TexAcquire (mkDesc 2 2 1 32 64 kR32G32B32A32_FLOAT)
                   (replicate 4 ViewportMore.opaque_black)]
  /\ existsb is_texture_write (calls (snd (setup 2048 host v))) = true.
Proof. cbv zeta. vm_compute. repeat split; reflexivity. Qed.

(** A GL viewport whose pixels are flagged as updated: [setup] writes
    nothing to the texture, and the read-back is the resolve call alone. *)
Lemma gl_interop_skips_pixel_copy_witness :
  let host := scripted_host false false false false (kSuccess, (4, 2)) 0 None never_throws in
  let v := set_m_pixelsUpdated true (sample_viewport false true StateRendering 4 2) in
  setup 2048 host v = doSetup 2048 host v
  /\ existsb is_texture_write (calls (snd (setup 2048 host v))) = false
  /\ calls (snd (readFrameBuffer host None v)) = [CtxResolveAOV]
  /\ m_pixelsUpdated (snd (readFrameBuffer host None v)) = true.
Proof.
  cbv zeta.
  destruct (gl_interop_skips_pixel_copy 2048
              (scripted_host false false false false (kSuccess, (4, 2)) 0 None never_throws)
              None
              (set_m_pixelsUpdated true (sample_viewport false true StateRendering 4 2))
              eq_refl) as (Hsetup & Hquiet & _ & Hcalls & _ & Hflag).
  split; [exact Hsetup|]. split; [exact (Hquiet eq_refl)|].
  split; [exact Hcalls|exact Hflag].
Defined.
(** ** The render loop body *)

(** Unfold the monad and the members of a viewport given field by field. *)
Ltac unfold_monad :=
  cbv [bind ret throw get lift try_catch sdk_call ask catch_to_error error_set error_check
       log set_calls set_m_error set_m_context set_m_isRunning set_m_renderingErrors
       set_m_pixels set_m_pixelsUpdated set_m_closeDialogNeeded set_m_showDialogNeeded
       set_m_texture set_m_textureDesc set_m_textureChanged set_m_textureCache
       set_state set_size
       m_isRunning m_useAnimationCache m_pixelsUpdated m_panelName m_textureChanged
       m_showDialogNeeded m_closeDialogNeeded m_error m_renderingErrors m_texture
       m_textureDesc m_pixels m_textureCache m_context calls
       state width height isGLInteropActive].

Ltac new_calls :=
  unfold calls_since; cbn [calls snd fst];
  rewrite <- ?app_assoc, ?drop_app_length, ?drop_all; cbn [app].

(** C2 does not hold as stated: the fourth render failure in a row is
    rethrown, so in [StateRendering] the step may end without returning
    [true]. *)
Lemma RunOnViewportThread_rethrows :
  let host := scripted_host false false true true (kSuccess, (4, 2)) 0 None always_throws in
  let v := set_m_renderingErrors 3 (sample_viewport true false StateRendering 4 2) in
  state (m_context v) = StateRendering
  /\ fst (RunOnViewportThread host v) = Throw (Exception "rpr")
  /\ fst (RunOnViewportThread host v) <> Ret true
  /\ calls (snd (RunOnViewportThread host v))
     = [CtxRender (Some false); ViewScheduleRefresh; DebugPrint 4].
Proof. cbv zeta. repeat split; try reflexivity. discriminate. Qed.

Section RenderLoop.

Variable host : Host.

(** C2, amended. One step of the loop body returns [false] exactly in
    [StateExiting], where it does nothing else.  In every state other than
    [StateRendering] it sleeps 5 ms and returns [true]; in [StateRendering]
    with nothing pending it sleeps 2 ms and returns [true].  Only in
    [StateRendering] with a pending change is a render iteration made, and
    it is followed by the frame-buffer read when the render call returns.
    If either call throws, the error count goes up by one and the step
    still returns [true] unless the count now exceeds 3, in which case the
    exception is thrown on; with no failure the step returns [true]. *)
Theorem RunOnViewportThread_step (v : Viewport) :
  let n := m_renderingErrors v in
  let render := CtxRender (Some false) in
  let '(result, v') := RunOnViewportThread host v in
  let new := calls_since (length (calls v)) v' in
  let failure (done : list Event) (e : Exn) :=
    m_renderingErrors v' = n + 1
    /\ if 3 <? n + 1
       then result = Throw e
            /\ new = done ++ [ViewScheduleRefresh; DebugPrint (n + 1)]
       else result = Ret true
            /\ new = done ++ [ViewScheduleRefresh; DebugPrint (n + 1); ViewScheduleRefresh] in
  (result = Ret false <-> state (m_context v) = StateExiting)
  /\ existsb is_render new
     = bool_decide (state (m_context v) = StateRendering) && renderRequired host v
  /\ match state (m_context v) with
     | StateExiting => result = Ret false /\ v' = v
     | StateRendering =>
         if renderRequired host v then
           match sdkThrows host (calls v ++ [render]) with
           | Some e => failure [render] e
           | None =>
               exists read, is_frame_read read = true
               /\ match sdkThrows host (calls v ++ [render; read]) with
                  | Some e => failure [render; read] e
                  | None =>
                      result = Ret true
                      /\ new = [render; read; ViewScheduleRefresh]
                      /\ m_renderingErrors v' = (if 0 <? n then n - 1 else n)
                  end
           end
         else result = Ret true /\ new = [SleepFor 2]
     | _ => result = Ret true /\ new = [SleepFor 5]
     end.
Proof.
  cbv zeta.
  destruct (RunOnViewportThread host v) as [result v'] eqn:Hrun.
  unfold RunOnViewportThread in Hrun.
  destruct v as [run cache upd name chg show close err nerr tex desc pix tc [st w h gl] cs].
  cbn [m_context state m_renderingErrors calls] in *.
  destruct st; cbn [bool_decide] in *.
  - (* StateExiting *)
    inversion Hrun; subst. new_calls. rewrite bool_decide_eq_false_2 by discriminate.
    repeat split; auto.
  - (* StateRendering *)
    rewrite bool_decide_eq_true_2 by reflexivity. cbn [andb].
    destruct (renderRequired host _) eqn:Hreq.
    + unfold renderIteration, renderFailed, readFrameBuffer in Hrun.
      revert Hrun. unfold_monad.
      destruct (sdkThrows host (cs ++ [CtxRender (Some false)])) as [e|] eqn:Hrender.
      * destruct (Z.ltb_spec 3 (nerr + 1)); intros Hrun; inversion Hrun; subst; clear Hrun;
          new_calls; (split; [split; intros; discriminate|]); repeat split; reflexivity.
      * destruct gl.
        -- destruct (sdkThrows host ((cs ++ [CtxRender (Some false)]) ++ [CtxResolveAOV]))
             as [e|] eqn:Hread;
             [destruct (Z.ltb_spec 3 (nerr + 1))|destruct (Z.ltb_spec 0 nerr)];
             intros Hrun; inversion Hrun; subst; clear Hrun; new_calls;
             (split; [split; intros; discriminate|]); (split; [reflexivity|]);
             exists CtxResolveAOV; (split; [reflexivity|]);
             rewrite <- app_assoc in Hread; cbn [app] in Hread; rewrite Hread;
             repeat split; try reflexivity.
        -- match goal with
           | |- context [sdkThrows host ((cs ++ [CtxRender (Some false)]) ++ [?r])] =>
               destruct (sdkThrows host ((cs ++ [CtxRender (Some false)]) ++ [r]))
                 as [e|] eqn:Hread;
               [destruct (Z.ltb_spec 3 (nerr + 1))|destruct (Z.ltb_spec 0 nerr)];
               intros Hrun; inversion Hrun; subst; clear Hrun; new_calls;
               (split; [split; intros; discriminate|]); (split; [reflexivity|]);
               exists r; (split; [reflexivity|]);
               rewrite <- app_assoc in Hread; cbn [app] in Hread; rewrite Hread;
               repeat split; try reflexivity
           end.
    + revert Hrun. unfold_monad. intros Hrun; inversion Hrun; subst; clear Hrun. new_calls.
      (split; [split; intros; discriminate|]); repeat split; reflexivity.
  - revert Hrun. unfold_monad. intros Hrun; inversion Hrun; subst; clear Hrun. new_calls.
    rewrite bool_decide_eq_false_2 by discriminate.
    (split; [split; intros; discriminate|]); repeat split; reflexivity.
  - revert Hrun. unfold_monad. intros Hrun; inversion Hrun; subst; clear Hrun. new_calls.
    rewrite bool_decide_eq_false_2 by discriminate.
    (split; [split; intros; discriminate|]); repeat split; reflexivity.
  - revert Hrun. unfold_monad. intros Hrun; inversion Hrun; subst; clear Hrun. new_calls.
    rewrite bool_decide_eq_false_2 by discriminate.
    (split; [split; intros; discriminate|]); repeat split; reflexivity.
Qed.

End RenderLoop.


(** C10 does not hold as stated: a running loop is stopped before the
    size is looked at, and stopping drives the context to [StateExiting]. *)
Lemma start_zero_width_changes_state :
  let host := scripted_host false false false true (kSuccess, (0, 2)) 0 None never_throws in
  let v := sample_viewport true false StateRendering 0 2 in
  width (m_context v) = 0
  /\ fst (start host v) = false
  /\ state (m_context v) = StateRendering
  /\ state (m_context (snd (start host v))) = StateExiting
  /\ state (m_context (snd (start host v))) <> state (m_context v).
Proof. cbv zeta. repeat split; try reflexivity. discriminate. Qed.

Section Start.

Variable host : Host.

(** C10, amended. [start] first stops a loop that is running.  With a zero
    width or height it then returns [false] and launches nothing; the
    context state is as [stop] left it, which is unchanged when no loop was
    running.  Otherwise it sets the state to [StateRendering], clears
    [m_isRunning], resets the error count to zero, launches the render
    loop as its last call, and returns [true]. *)
Theorem start_launches_unless_empty (v : Viewport) :
  let v1 := if m_isRunning v then snd (stop host v) else v in
  let '(ok, v') := start host v in
  let new := calls_since (length (calls v)) v' in
  if bool_decide (width (m_context v) = 0) || bool_decide (height (m_context v) = 0)
  then ok = false
       /\ v' = v1
       /\ existsb is_keep_running new = false
       /\ state (m_context v') =
          (if m_isRunning v && IsThreadRunning host (calls v) then StateExiting
           else state (m_context v))
       /\ (if m_isRunning v then True else v' = v)
  else ok = true
       /\ state (m_context v') = StateRendering
       /\ m_renderingErrors v' = 0
       /\ m_isRunning v' = false
       /\ calls v' = calls v1 ++ [KeepRunning]
       /\ existsb is_keep_running (calls_since (length (calls v)) v1) = false
       /\ width (m_context v') = width (m_context v)
       /\ height (m_context v') = height (m_context v).
Proof.
  cbv zeta.
  destruct (start host v) as [ok v'] eqn:Hstart. unfold start in Hstart.
  destruct (stop_effect host v) as (_ & Hw & Hh & _ & Hst & Hcalls & _).
  cbv zeta in Hw, Hh, Hst, Hcalls.
  set (v1 := if m_isRunning v then snd (stop host v) else v) in *.
  assert (Hw1 : width (m_context v1) = width (m_context v))
    by (subst v1; destruct (m_isRunning v); [exact Hw|reflexivity]).
  assert (Hh1 : height (m_context v1) = height (m_context v))
    by (subst v1; destruct (m_isRunning v); [exact Hh|reflexivity]).
  assert (Hquiet : existsb is_keep_running (calls_since (length (calls v)) v1) = false).
  { apply (continues_new waiting); [|intros []; cbn; congruence].
    subst v1. destruct (m_isRunning v); [exact Hcalls|apply continues_refl]. }
  assert (Hst1 : state (m_context v1) =
                 (if m_isRunning v && IsThreadRunning host (calls v) then StateExiting
                  else state (m_context v)))
    by (subst v1; destruct (m_isRunning v); [exact Hst|reflexivity]).
  rewrite Hw1, Hh1 in Hstart.
  destruct (bool_decide (width (m_context v) = 0) || bool_decide (height (m_context v) = 0));
    inversion Hstart; subst ok v'; clear Hstart.
  - split; [reflexivity|]. split; [reflexivity|]. split; [exact Hquiet|].
    split; [exact Hst1|]. subst v1. destruct (m_isRunning v); [exact I|reflexivity].
  - repeat split; try reflexivity; try assumption.
Qed.

End Start.

(** ** The animation cache *)

(** Read the members through the updates. *)
Ltac fields :=
  cbn [log set_calls set_m_error set_m_context set_m_isRunning set_m_renderingErrors
       set_m_pixels set_m_pixelsUpdated set_m_closeDialogNeeded set_m_showDialogNeeded
       set_m_texture set_m_textureDesc set_m_textureChanged set_m_textureCache
       m_isRunning m_useAnimationCache m_pixelsUpdated m_panelName m_textureChanged
       m_showDialogNeeded m_closeDialogNeeded m_error m_renderingErrors m_texture
       m_textureDesc m_pixels m_textureCache m_context calls].

Section Invariants.

Variable I : Viewport -> Prop.

Lemma preserves_ret {A} (a : A) : preserves I (ret a).
Proof. intros v Hv. exact Hv. Qed.

Lemma preserves_lift (f : Viewport -> Viewport) :
  (forall v, I v -> I (f v)) -> preserves I (lift f).
Proof. intros Hf v Hv. apply Hf, Hv. Qed.

Lemma preserves_bind {A B} (c : M A) (k : A -> M B) :
  preserves I c -> (forall a, preserves I (k a)) -> preserves I (bind c k).
Proof.
  intros Hc Hk v Hv. unfold bind. specialize (Hc v Hv).
  destruct (c v) as [[a|e] v1]; cbn [snd] in *; [apply Hk, Hc|exact Hc].
Qed.

Lemma preserves_try_catch {A} (c : M A) (handler : Exn -> M A) :
  preserves I c -> (forall e, preserves I (handler e)) -> preserves I (try_catch c handler).
Proof.
  intros Hc Hk v Hv. unfold try_catch. specialize (Hc v Hv).
  destruct (c v) as [[a|e] v1]; cbn [snd] in *; [exact Hc|apply Hk, Hc].
Qed.

Lemma preserves_resizePixels (host : Host) (w h : Z) :
  (forall x v, I v -> I (set_m_pixels x v)) -> preserves I (resizePixels host w h).
Proof.
  intros Hpixels v Hv. unfold resizePixels.
  destruct (ask host pixelsResizeThrows v); cbn [snd]; [exact Hv|apply Hpixels, Hv].
Qed.

(** Properties that do not look at the history, the error, or the texture. *)
Hypothesis I_log : forall e v, I v -> I (log e v).
Hypothesis I_error : forall e v, I v -> I (set_m_error e v).
Hypothesis I_texture : forall x v, I v -> I (set_m_texture x v).
Hypothesis I_textureDesc : forall x v, I v -> I (set_m_textureDesc x v).
Hypothesis I_textureChanged : forall x v, I v -> I (set_m_textureChanged x v).

Lemma preserves_sdk_call (host : Host) (e : Event) : preserves I (sdk_call host e).
Proof.
  intros v Hv. unfold sdk_call. destruct (ask host sdkThrows (log e v)); cbn [snd];
    apply I_log, Hv.
Qed.

Lemma preserves_catch_to_error (e : Exn) : preserves I (catch_to_error e).
Proof.
  unfold catch_to_error. apply preserves_bind; [|intros; apply preserves_ret].
  apply preserves_lift. intros v. apply I_error.
Qed.

Lemma preserves_updateTexture (host : Host) (data : list RV_PIXEL) (w h : Z) (v : Viewport) :
  I v -> I (snd (updateTexture host data w h v)).
Proof.
  intros Hv. unfold updateTexture. destruct (m_texture v); cbn [snd].
  - apply I_log, Hv.
  - apply I_textureChanged.
    match goal with |- I (match ?t with _ => _ end) => destruct t end;
      repeat first [apply I_textureDesc | apply I_texture | apply I_log]; exact Hv.
Qed.

Lemma preserves_updateFromFrame (host : Host) (key : string) (w h : Z) :
  preserves I (updateFromFrame host key w h).
Proof.
  intros v Hv. unfold updateFromFrame.
  pose proof (preserves_updateTexture host (frameData key v) w h v Hv) as H.
  destruct (updateTexture host (frameData key v) w h v). exact H.
Qed.

(** ... nor at the data of the cached frames. *)
Hypothesis I_fill : forall px key v,
  I v -> I (set_m_textureCache (alter (fill_frame px) key (m_textureCache v)) v).

Lemma preserves_readFrameBuffer_stored (host : Host) (key : string) :
  preserves I (readFrameBuffer host (Some key)).
Proof.
  intros v Hv. unfold readFrameBuffer. destruct (isGLInteropActive (m_context v)).
  - apply preserves_sdk_call, Hv.
  - set (read := CtxReadFrameBuffer _ _ _ _ _).
    refine (preserves_bind (sdk_call host read) _ _ _ v Hv); [apply preserves_sdk_call|].
    intros _. apply preserves_lift. intros v' Hv'. apply I_fill, Hv'.
Qed.

End Invariants.

Lemma returns_try_catch (c : M MStatus) : returns (try_catch c catch_to_error).
Proof.
  intros v. unfold try_catch. destruct (c v) as [[a|e] v1]; [eauto|].
  exists kFailure. reflexivity.
Qed.

Section RenderCached.

Variable host : Host.
Variables w h : Z.


(** The body of the [try] block, with the cache lookup spelled out. *)
Lemma renderCached_try_eq (v : Viewport) :
  let key := frameKey host v in
  let frame' := snd (Resize (cachedFrame key v) w h) in
  let v1 := set_m_textureCache (<[key := frame']> (m_textureCache v)) v in
  renderCached_try host w h v =
  if requiresResize w h key v then
    (do _ <- sdk_call host (CtxRender None);
     do _ <- readFrameBuffer host (Some key);
     updateFromFrame host key w h) v1
  else updateFromFrame host key w h v1.
Proof.
  cbv zeta. unfold renderCached_try, requiresResize, cachedFrame, cache_get.
  destruct (m_textureCache v !! frameKey host v) as [f|]; cbn [default];
    destruct (Resize _ w h) as [resized frame']; cbn [fst snd];
    rewrite ?insert_insert_eq; reflexivity.
Qed.

Lemma renderCached_eq (v : Viewport) :
  renderCached host w h v =
  try_catch (renderCached_try host w h) catch_to_error (set_m_pixelsUpdated false v).
Proof. reflexivity. Qed.



Lemma Resize_hit (f : StoredFrame) : fst (Resize f w h) = false -> snd (Resize f w h) = f.
Proof.
  unfold Resize. destruct (bool_decide _ && bool_decide _); cbn; [reflexivity|discriminate].
Qed.

(** A request whose frame needs no resizing makes one call, a texture
    write whose data is the stored frame's; the frame stays as it is. *)
Lemma renderCached_hit (v : Viewport) :
  requiresResize w h (frameKey host v) v = false ->
  exists write,
    calls (snd (renderCached host w h v)) = calls v ++ [write]
    /\ is_texture_write write = true
    /\ written_data write = Some (sf_data (cachedFrame (frameKey host v) v))
    /\ cachedFrame (frameKey host v) (snd (renderCached host w h v))
       = cachedFrame (frameKey host v) v
    /\ fst (renderCached host w h v) =
       Ret (match m_texture v with
            | None => kSuccess
            | Some _ => textureUpdate host (calls v ++ [write])
            end).
Proof.
  intros Hres. rewrite renderCached_eq.
  set (v0 := set_m_pixelsUpdated false v).
  unfold try_catch. rewrite renderCached_try_eq. cbv zeta.
  change (frameKey host v0) with (frameKey host v).
  change (requiresResize w h (frameKey host v) v0) with (requiresResize w h (frameKey host v) v).
  change (cachedFrame (frameKey host v) v0) with (cachedFrame (frameKey host v) v).
  rewrite Hres, (Resize_hit _ Hres).
  set (key := frameKey host v) in *.
  unfold updateFromFrame, updateTexture, frameData, cachedFrame.
  cbn [m_textureCache set_m_textureCache m_texture set_m_pixelsUpdated v0].
  rewrite lookup_insert_eq.
  destruct (m_texture v) as [tex|]; cbn [fst snd].
  - eexists. fields. rewrite lookup_insert_eq. cbn [default written_data is_texture_write].
    repeat split; reflexivity.
  - match goal with
    | |- context [ask host acquireTexture ?x] => destruct (ask host acquireTexture x)
    end; eexists; fields; rewrite lookup_insert_eq; cbn [default written_data is_texture_write];
      repeat split; reflexivity.
Qed.

Lemma readFrameBuffer_calls (storedFrame : option string) :
  only_calls is_frame_read (readFrameBuffer host storedFrame).
Proof.
  intros v. unfold readFrameBuffer. destruct (isGLInteropActive (m_context v)).
  - apply only_calls_sdk_call. reflexivity.
  - destruct storedFrame as [key|];
      set (read := CtxReadFrameBuffer _ _ _ _ _);
      refine (only_calls_bind _ (sdk_call host read) _ _ _ v);
      try (apply only_calls_sdk_call; reflexivity); intros _.
    + apply only_calls_lift. intros v'. apply continues_same. reflexivity.
    + apply only_calls_bind; [|intros _]; apply only_calls_lift;
        intros v'; apply continues_same; reflexivity.
Qed.

Lemma updateTexture_calls (data : list RV_PIXEL) (v : Viewport) :
  continues is_texture_write v (snd (updateTexture host data w h v)).
Proof.
  unfold updateTexture. destruct (m_texture v); cbn [snd].
  - apply continues_log. reflexivity.
  - match goal with
    | |- context [TexAcquire ?d ?x] => exists [TexAcquire d x]
    end.
    split; [|reflexivity].
    match goal with
    | |- context [ask host acquireTexture ?x] => destruct (ask host acquireTexture x)
    end; reflexivity.
Qed.

Lemma updateFromFrame_calls (key : string) :
  only_calls is_texture_write (updateFromFrame host key w h).
Proof.
  intros v. unfold updateFromFrame.
  pose proof (updateTexture_calls (frameData key v) v) as H.
  destruct (updateTexture host (frameData key v) w h v). exact H.
Qed.

(** The request renders exactly when the frame had to be resized, and then
    the render is its first call; it never throws, it clears
    [m_pixelsUpdated] and it leaves [m_pixels] alone. *)
Lemma renderCached_renders (v : Viewport) :
  let v' := snd (renderCached host w h v) in
  let new := calls_since (length (calls v)) v' in
  existsb is_render new = requiresResize w h (frameKey host v) v
  /\ (if requiresResize w h (frameKey host v) v
      then exists rest, new = CtxRender None :: rest
      else exists write, new = [write] /\ is_texture_write write = true)
  /\ (exists status, fst (renderCached host w h v) = Ret status)
  /\ m_pixelsUpdated v' = false
  /\ m_pixels v' = m_pixels v.
Proof.
  cbv zeta.
  assert (Hnew : if requiresResize w h (frameKey host v) v
                 then exists rest, calls_since (length (calls v)) (snd (renderCached host w h v))
                                   = CtxRender None :: rest
                 else exists write, calls_since (length (calls v)) (snd (renderCached host w h v))
                                    = [write] /\ is_texture_write write = true).
  { destruct (requiresResize w h (frameKey host v) v) eqn:Hres.
    - rewrite renderCached_eq. set (v0 := set_m_pixelsUpdated false v).
      unfold try_catch. rewrite renderCached_try_eq. cbv zeta.
      change (requiresResize w h (frameKey host v0) v0)
        with (requiresResize w h (frameKey host v) v).
      rewrite Hres. set (v1 := set_m_textureCache _ v0).
      assert (Hrest : continues (fun _ => true) (log (CtxRender None) v1)
                (snd (match (do _ <- sdk_call host (CtxRender None);
                             do _ <- readFrameBuffer host (Some (frameKey host v0));
                             updateFromFrame host (frameKey host v0) w h) v1 with
                      | (Ret a, x) => (Ret a, x)
                      | (Throw e, x) => catch_to_error e x
                      end))).
      { unfold bind at 1, sdk_call at 1.
        destruct (ask host sdkThrows (log (CtxRender None) v1)).
        - apply only_calls_catch_to_error.
        - refine (only_calls_try_catch _ _ catch_to_error _ _ (log (CtxRender None) v1));
            [|intros; apply only_calls_catch_to_error].
          apply only_calls_bind.
          + intros x. apply (continues_weaken _ is_frame_read); [reflexivity|].
            apply readFrameBuffer_calls.
          + intros _ x. apply (continues_weaken _ is_texture_write); [reflexivity|].
            apply updateFromFrame_calls. }
      destruct Hrest as (rest & Hcalls & _). exists rest.
      apply calls_since_app. rewrite Hcalls. cbn [calls log set_calls v1 v0].
      rewrite <- List.app_assoc. reflexivity.
    - destruct (renderCached_hit v Hres) as (write & Hcalls & Hwrite & _).
      exists write. split; [|exact Hwrite]. apply calls_since_app. exact Hcalls. }
  split.
  { destruct (requiresResize w h (frameKey host v) v).
    - destruct Hnew as (rest & ->). reflexivity.
    - destruct Hnew as (write & -> & Hwrite). destruct write; cbn in *; congruence. }
  split; [exact Hnew|]. split; [apply returns_try_catch|].
  assert (Hkept : m_pixelsUpdated (snd (renderCached host w h v)) = false
                  /\ m_pixels (snd (renderCached host w h v)) = m_pixels v).
  { rewrite renderCached_eq. set (v0 := set_m_pixelsUpdated false v).
    unfold try_catch. rewrite renderCached_try_eq. cbv zeta.
    set (key := frameKey host v0). set (v1 := set_m_textureCache _ v0).
    assert (H1 : m_pixelsUpdated v1 = false /\ m_pixels v1 = m_pixels v) by (split; reflexivity).
    destruct (requiresResize w h key v0);
      match goal with
      | |- context [match ?c v1 with _ => _ end] =>
          refine (preserves_try_catch
                    (fun x => m_pixelsUpdated x = false /\ m_pixels x = m_pixels v)
                    c catch_to_error _ _ v1 H1)
      end; try (intros e; apply preserves_catch_to_error; intros; assumption).
    - apply preserves_bind; [apply preserves_sdk_call; intros; assumption|]. intros _.
      apply preserves_bind;
        [apply preserves_readFrameBuffer_stored; intros; assumption|].
      intros _. apply preserves_updateFromFrame; intros; assumption.
    - apply preserves_updateFromFrame; intros; assumption. }
  exact Hkept.
Qed.

End RenderCached.

Section ServeCached.

Variables w h : Z.




End ServeCached.

(** ** doSetup with the animation cache *)


Section DoSetupCached.

Variable limit : Z.
Variable host : Host.











End DoSetupCached.



(** Playback on a running 4 x 2 viewport: the loop is waited for, the
    frame is rendered into the cache and read back, the texture written. *)
Example doSetup_cached_trace :
  let host := scripted_host true false false true (kSuccess, (4, 2)) 7 None never_throws in
  let v := sample_viewport true false StateRendering 4 2 in
  fst (doSetup 2048 host v) = Ret kSuccess
  /\ List.filter (fun e => negb (is_texture_write e)) (calls (snd (doSetup 2048 host v)))
     = [CtxUpdateLimits true; RunItemsQueuedForTheMainThread; SleepFor 10; CtxRender None;
        CtxReadFrameBuffer (ToStoredFrame "modelPanel4;7") 4 2 (mkRegion 0 3 0 1) false]
  /\ m_isRunning (snd (doSetup 2048 host v)) = false
  /\ state (m_context (snd (doSetup 2048 host v))) = StateExiting.
Proof. cbv zeta. vm_compute. repeat split; reflexivity. Qed.

(** Three requests for the same frame: only the first one renders. *)
Example serveCached_trace :
  let host := scripted_host true false false true (kSuccess, (4, 2)) 7 None never_throws in
  fst (serveCached 4 2 [host; host; host] (sample_viewport false false StateRendering 4 2))
  = [("modelPanel4;7", true); ("modelPanel4;7", false); ("modelPanel4;7", false)].
Proof. cbv zeta. vm_compute. reflexivity. Qed.

(** ** InstancerMASH *)

Section Freshen.

Import InstancerMASH.

Variable double : Type.
Variables d_zero d_one : double.
Variable deg2rad : double -> double.
Variable MMatrix : Type.
Variable mmul : MMatrix -> MMatrix -> MMatrix.
Variable asMatrix : MTransformationMatrix double -> MMatrix.

Local Abbreviation Freshen := (Freshen double d_zero d_one deg2rad MMatrix mmul asMatrix).
Local Abbreviation placement := (placement double d_zero d_one deg2rad MMatrix mmul asMatrix).
Local Abbreviation transformFromMASH := (transformFromMASH double d_zero d_one deg2rad).
Local Abbreviation GetTransformMatrices :=
  (GetTransformMatrices double d_zero d_one deg2rad MMatrix asMatrix).
Local Abbreviation targetNodeMatrix := (targetNodeMatrix double d_zero).

(** The loop visits every index once and touches no other instance. *)
Lemma freshenLoop_places (target instancer : MMatrix) (ms : list MMatrix)
    (todo : list nat) (objs : gmap nat (Instance MMatrix)) :
  NoDup todo ->
  (forall i, i ∈ todo -> is_Some (ms !! i) /\ is_Some (objs !! i)) ->
  exists objs',
    freshenLoop MMatrix mmul target instancer ms todo objs = (objs', None)
    /\ (forall i, i ∈ todo ->
          exists m o, ms !! i = Some m /\ objs !! i = Some o
                      /\ objs' !! i = Some (place MMatrix (mmul (mmul target m) instancer) o))
    /\ (forall j, j ∉ todo -> objs' !! j = objs !! j).
Proof.
  revert objs. induction todo as [|i todo IH]; intros objs Hdup Hin.
  - exists objs. split; [reflexivity|]. split; [intros i Hi; inversion Hi|reflexivity].
  - apply NoDup_cons in Hdup as [Hi Hdup].
    destruct (Hin i ltac:(left)) as [[m Hm] [o Ho]].
    cbn [freshenLoop]. rewrite Hm, Ho.
    set (objs1 := <[i := place MMatrix (mmul (mmul target m) instancer) o]> objs).
    destruct (IH objs1 Hdup) as (objs' & Hrun & Hplaced & Hother).
    { intros j Hj. destruct (Hin j ltac:(right; exact Hj)) as [Hmj Hoj].
      split; [exact Hmj|]. unfold objs1.
      rewrite lookup_insert_ne by (intros ->; contradiction). exact Hoj. }
    exists objs'. split; [exact Hrun|]. split.
    + intros j Hj. apply elem_of_cons in Hj as [->|Hj].
      * exists m, o. split; [exact Hm|]. split; [exact Ho|].
        rewrite (Hother i Hi). unfold objs1. apply lookup_insert_eq.
      * destruct (Hplaced j Hj) as (mj & oj & Hmj & Hoj & Hres).
        exists mj, oj. split; [exact Hmj|]. split; [|exact Hres].
        unfold objs1 in Hoj. rewrite lookup_insert_ne in Hoj by (intros ->; contradiction).
        exact Hoj.
    + intros j Hj. apply not_elem_of_cons in Hj as [Hne Hj].
      rewrite (Hother j Hj). unfold objs1. apply lookup_insert_ne. congruence.
Qed.

(** [GenerateInstances] fills every index below the count. *)
Lemma generated_instances (first : MObject) (n : nat) (objs : gmap nat (Instance MMatrix)) (i : nat) :
  (i < n)%nat ->
  is_Some (foldl (fun m j => <[j := newInstance MMatrix first]> m) objs (seq 0 n) !! i).
Proof.
  induction n as [|n IH]; intros Hi; [lia|].
  rewrite seq_S, foldl_app. cbn [foldl Nat.add].
  destruct (decide (i = n)) as [->|Hne].
  - rewrite lookup_insert_eq. eauto.
  - rewrite lookup_insert_ne by congruence. apply IH. lia.
Qed.

Variable scene : Scene double.

Lemma GetInstanceCount_range : 0 <= GetInstanceCount double scene < 2 ^ 64.
Proof. unfold GetInstanceCount, u64. apply Z.mod_pos_bound. lia. Qed.

Lemma GetTransformMatrices_lookup (i : nat) :
  GetInstanceCount double scene < 2 ^ 32 ->
  (i < Z.to_nat (GetInstanceCount double scene))%nat ->
  GetTransformMatrices scene !! i = Some (asMatrix (transformFromMASH scene i)).
Proof.
  intros Hsmall Hi. unfold InstancerMASH.GetTransformMatrices.
  rewrite list_lookup_fmap.
  rewrite u32_small by (pose proof GetInstanceCount_range; lia).
  rewrite lookup_seq_lt by exact Hi. reflexivity.
Qed.

(** C5, amended. With no target object [Freshen] returns at once and
    changes nothing.  Otherwise, the instance count being below 2^32 and
    every instance being in place (or none, in which case they are
    generated first), each instance [i] below the instance count gets the transform targetNodeMatrix * mashMatrix(i) *
    instancerMatrix and is rebuilt and marked dirty; targetNodeMatrix is
    the transform of the target mesh's parent with its translation zeroed,
    so moving that parent changes nothing; mashMatrix(i) carries the MASH
    scale, the MASH rotation turned into radians in XYZ order, and the
    MASH position. *)
Theorem Freshen_places_instances (st : Instancer MMatrix) :
  let count := GetInstanceCount double scene in
  let zero := mkVector double d_zero d_zero d_zero in
  (GetTargetObjects double scene = [] -> Freshen scene st = (st, None))
  /\ (forall first rest,
        GetTargetObjects double scene = first :: rest ->
        count < 2 ^ 32 ->
        (m_instancedObjects MMatrix st = ∅
         \/ forall i, (i < Z.to_nat count)%nat -> is_Some (m_instancedObjects MMatrix st !! i)) ->
        exists objs,
          Freshen scene st = (mkInstancer MMatrix objs count, None)
          /\ forall i, (i < Z.to_nat count)%nat ->
               exists o, objs !! i = Some o
                         /\ selfTransform MMatrix o = Some (placement scene first i)
                         /\ dirty MMatrix o = true)
  /\ (forall first i,
        placement scene first i =
          mmul (mmul (asMatrix (targetNodeMatrix scene first))
                     (asMatrix (transformFromMASH scene i)))
               (asMatrix (instancerTransformation double scene))
        /\ targetNodeMatrix scene first =
             setTranslation double zero (parentTransformation double scene first)
        /\ transformFromMASH scene i =
             mkTransform double
               (scaleData double scene i) (tm_shear double (identity double d_zero d_one))
               (mkVector double (deg2rad (vx double (rotationData double scene i)))
                                (deg2rad (vy double (rotationData double scene i)))
                                (deg2rad (vz double (rotationData double scene i))))
               kXYZ
               (positionData double scene i))
  /\ (forall by_ : MObject -> MVector double,
        Freshen (translateParents double scene by_) st = Freshen scene st).
Proof.
  cbv zeta. split; [|split; [|split]].
  - intros Hnone. unfold InstancerMASH.Freshen. rewrite Hnone. reflexivity.
  - intros first rest Htargets Hsmall Hobjs.
    unfold InstancerMASH.Freshen. rewrite Htargets.
    set (n := Z.to_nat (GetInstanceCount double scene)).
    assert (Hready : exists st1,
               (if bool_decide (m_instancedObjects MMatrix st = ∅)
                then GenerateInstances double MMatrix scene st else (st, None)) = (st1, None)
               /\ forall i, (i < n)%nat -> is_Some (m_instancedObjects MMatrix st1 !! i)).
    { destruct (bool_decide (m_instancedObjects MMatrix st = ∅)) eqn:Hempty.
      - unfold GenerateInstances. rewrite Htargets. eexists. split; [reflexivity|].
        intros i Hi. cbn [m_instancedObjects]. apply generated_instances. exact Hi.
      - exists st. split; [reflexivity|].
        apply bool_decide_eq_false in Hempty.
        destruct Hobjs as [Hobjs|Hobjs]; [contradiction|exact Hobjs]. }
    destruct Hready as (st1 & -> & Hpresent).
    destruct (freshenLoop_places
                (asMatrix (targetNodeMatrix scene first))
                (asMatrix (instancerTransformation double scene))
                (GetTransformMatrices scene) (seq 0 n) (m_instancedObjects MMatrix st1))
      as (objs & Hrun & Hplaced & _).
    { apply NoDup_seq. }
    { intros i Hi. apply elem_of_seq in Hi. split.
      - rewrite GetTransformMatrices_lookup by (unfold n in *; lia). eauto.
      - apply Hpresent. lia. }
    fold n. rewrite Hrun. exists objs. split; [reflexivity|].
    intros i Hi. destruct (Hplaced i) as (m & o & Hm & Ho & Hres).
    { apply elem_of_seq. lia. }
    rewrite GetTransformMatrices_lookup in Hm by (unfold n in *; lia).
    inversion Hm; subst m. eexists. split; [exact Hres|]. split; reflexivity.
  - intros first i. repeat split; reflexivity.
  - intros by_. reflexivity.
Qed.

End Freshen.

(** C5 does not hold as stated: an instancer built and freshened while
    the count was 1 holds one instance; once the count is 2, [Freshen]
    places instance 0 and throws at [m_instancedObjects.at(1)]. *)
Lemma Freshen_after_growth_throws :
  let Freshen :=
    InstancerMASH.Freshen InstancerMASH.Number (InstancerMASH.Lit 0) (InstancerMASH.Lit 1)
      InstancerMASH.Deg2Rad InstancerMASH.Matrix InstancerMASH.Times InstancerMASH.AsMatrix in
  let built :=
    InstancerMASHMore.constructor InstancerMASH.Number InstancerMASH.Matrix
      InstancerMASH.single_scene in
  let freshened := Freshen InstancerMASH.single_scene (fst built) in
  let grown := Freshen InstancerMASH.sample_scene (fst freshened) in
  snd built = None
  /\ snd freshened = None
  /\ InstancerMASH.GetTargetObjects InstancerMASH.Number InstancerMASH.sample_scene
     = [7%positive]
  /\ InstancerMASH.GetInstanceCount InstancerMASH.Number InstancerMASH.sample_scene = 2
  /\ snd grown = Some InstancerMASH.out_of_range
  /\ InstancerMASH.m_instancedObjects InstancerMASH.Matrix (fst grown) !! 1%nat = None.
Proof. cbv zeta. vm_compute. repeat split; reflexivity. Qed.

(** Two instances generated and placed in the sample scene. *)
Lemma Freshen_places_instances_witness :
  exists objs,
    InstancerMASH.Freshen InstancerMASH.Number (InstancerMASH.Lit 0) (InstancerMASH.Lit 1)
      InstancerMASH.Deg2Rad InstancerMASH.Matrix InstancerMASH.Times InstancerMASH.AsMatrix
      InstancerMASH.sample_scene InstancerMASH.sample_instancer
    = (InstancerMASH.mkInstancer InstancerMASH.Matrix objs 2, None)
    /\ forall i, (i < 2)%nat ->
         exists o, objs !! i = Some o
           /\ InstancerMASH.selfTransform InstancerMASH.Matrix o
              = Some (InstancerMASH.placement InstancerMASH.Number (InstancerMASH.Lit 0)
                        (InstancerMASH.Lit 1) InstancerMASH.Deg2Rad InstancerMASH.Matrix
                        InstancerMASH.Times InstancerMASH.AsMatrix
                        InstancerMASH.sample_scene 7%positive i)
           /\ InstancerMASH.dirty InstancerMASH.Matrix o = true.
Proof.
  destruct (Freshen_places_instances InstancerMASH.Number (InstancerMASH.Lit 0)
              (InstancerMASH.Lit 1) InstancerMASH.Deg2Rad InstancerMASH.Matrix
              InstancerMASH.Times InstancerMASH.AsMatrix
              InstancerMASH.sample_scene InstancerMASH.sample_instancer) as (_ & Hplace & _).
  exact (Hplace 7%positive [] eq_refl ltac:(vm_compute; reflexivity) (or_introl eq_refl)).
Defined.

(** ** ToonMaterial *)

Section GetShader.

Import ToonMaterial.

Variable node : Node.

Lemma SetValue_keeps_kind (i : MaterialInput) (x : Value) (s : Shader) :
  is_blend (SetValue i x s) = is_blend s.
Proof. destruct s; reflexivity. Qed.

Lemma toonShader_is_node : exists inputs, toonShader node = ShaderNode ShaderTypeToon inputs.
Proof.
  unfold toonShader. destruct (showAdvanced node), (normalNodeType node);
    cbn [SetValue]; eexists; reflexivity.
Qed.

Lemma toonShader_has_no_light : binds RPR_MATERIAL_INPUT_LIGHT (toonShader node) = false.
Proof.
  unfold toonShader. destruct (showAdvanced node), (normalNodeType node); reflexivity.
Qed.

Lemma linkLight_keeps_kind (s : Shader) : is_blend (fst (linkLight node s)) = is_blend s.
Proof.
  unfold linkLight.
  destruct (renderType node); try reflexivity;
    destruct (linkedLightNode node) as [light|]; try reflexivity;
    destruct (GetRprLightFromNode node light); try reflexivity;
    apply SetValue_keeps_kind.
Qed.

(** C6. [GetShader] returns a blend exactly when the transparencyEnable
    plug is set.  The blend is that of the toon shader with a transparent
    shader, weighted by the transparencyLevel plug; it is returned before
    the light-linking step: no light is looked up and none is bound,
    whatever enableLightLinking says.  With transparency off the result is
    the toon shader itself, light-linked if enableLightLinking is set. *)
Theorem GetShader_blend_skips_light_linking :
  let '(shader, events) := GetShader node in
  is_blend shader = transparencyEnable node
  /\ (if transparencyEnable node
      then shader = ShaderBlend (toonShader node) (ShaderNode ShaderTypeTransparent [])
                                (FromPlug transparencyLevel)
           /\ events = []
           /\ binds RPR_MATERIAL_INPUT_LIGHT shader = false
      else (shader, events) =
           (if enableLightLinking node then linkLight node (toonShader node)
            else (toonShader node, []))).
Proof.
  unfold GetShader. destruct (transparencyEnable node).
  - split; [reflexivity|]. split; [reflexivity|]. split; [reflexivity|].
    cbn [binds]. rewrite toonShader_has_no_light. reflexivity.
  - destruct (enableLightLinking node).
    + pose proof (linkLight_keeps_kind (toonShader node)) as Hkind.
      destruct (linkLight node (toonShader node)) as [shader events]. cbn [fst] in Hkind.
      split; [|reflexivity]. rewrite Hkind.
      destruct toonShader_is_node as [inputs ->]. reflexivity.
    + split; [|reflexivity]. destruct toonShader_is_node as [inputs ->]. reflexivity.
Qed.

End GetShader.

(** With transparency on, the enabled light link leaves no trace; with
    transparency off, the same node gets its light. *)
Example GetShader_sample :
  ToonMaterial.binds ToonMaterial.RPR_MATERIAL_INPUT_LIGHT
    (fst (ToonMaterial.GetShader (ToonMaterial.sample_node true true))) = false
  /\ snd (ToonMaterial.GetShader (ToonMaterial.sample_node true true)) = []
  /\ ToonMaterial.binds ToonMaterial.RPR_MATERIAL_INPUT_LIGHT
       (fst (ToonMaterial.GetShader (ToonMaterial.sample_node false true))) = true
  /\ snd (ToonMaterial.GetShader (ToonMaterial.sample_node false true))
     = [ToonMaterial.GetLinkedLightAttr].
Proof. repeat split; reflexivity. Qed.

(** * Further properties *)

Import ViewportMore.

(** ** The size clamp *)

Section ClampSize.

Variable limit : Z.

(** X1. Clamping never enlarges a side, and a clamped size is left alone
    by a second clamp. *)
Theorem clampSize_shrinks_and_settles (w h : Z) :
  is_u32 limit -> is_u32 w -> is_u32 h ->
  let '(w', h') := clampSize limit w h in
  0 <= w' <= w /\ 0 <= h' <= h /\ clampSize limit w' h' = (w', h').
Proof.
  unfold is_u32. intros Hl Hw Hh.
  assert (Hq1 : limit < w -> 0 <= u32 (h * limit) / w <= h).
  { intros. split; [apply Z.div_pos; [apply u32_nonneg|lia]|].
    apply Z.div_le_upper_bound; [lia|].
    pose proof (u32_le (h * limit) ltac:(nia)). nia. }
  assert (Hq2 : limit < h -> 0 <= u32 (w * limit) / h <= w).
  { intros. split; [apply Z.div_pos; [apply u32_nonneg|lia]|].
    apply Z.div_le_upper_bound; [lia|].
    pose proof (u32_le (w * limit) ltac:(nia)). nia. }
  assert (Hs1 : h < w -> u32 (h * limit) / w <= limit) by (intros; apply scaled_side_le; lia).
  assert (Hs2 : w <= h -> 0 < h -> u32 (w * limit) / h <= limit)
    by (intros; apply scaled_side_le; lia).
  unfold clampSize at 1.
  destruct (Z.ltb_spec h w) as [Hhw|Hhw]; destruct (Z.ltb_spec limit w) as [Hlw|Hlw];
    cbn [andb]; try destruct (Z.ltb_spec limit h) as [Hlh|Hlh];
    (split; [try lia; try (apply Hq2; lia)|]); (split; [try lia; try (apply Hq1; lia)|]);
    unfold clampSize.
  all: repeat match goal with
         | |- context [?a <? ?b] =>
             let H := fresh in destruct (Z.ltb_spec a b) as [H|H]
         end; cbn [andb]; try reflexivity;
       try (specialize (Hs1 ltac:(lia))); try (specialize (Hs2 ltac:(lia) ltac:(lia)));
       try (specialize (Hq1 ltac:(lia))); try (specialize (Hq2 ltac:(lia))); lia.
Qed.

(** X2. With products that fit 32 bits, a side of a non-empty size
    collapses to zero exactly when the other side is more than [limit]
    times as long. *)
Theorem clampSize_collapses (w h : Z) :
  0 < limit -> 0 < w -> 0 < h -> w * limit < 2 ^ 32 -> h * limit < 2 ^ 32 ->
  (snd (clampSize limit w h) = 0 <-> h * limit < w)
  /\ (fst (clampSize limit w h) = 0 <-> w * limit < h).
Proof.
  intros Hl Hw Hh Hwl Hhl. unfold clampSize.
  rewrite !u32_small by nia.
  assert (Hd1 : (h * limit) / w = 0 <-> h * limit < w).
  { rewrite Z.div_small_iff by lia. nia. }
  assert (Hd2 : (w * limit) / h = 0 <-> w * limit < h).
  { rewrite Z.div_small_iff by lia. nia. }
  destruct (Z.ltb_spec h w); destruct (Z.ltb_spec limit w); cbn [andb fst snd];
    try destruct (Z.ltb_spec limit h); cbn [fst snd]; split; try tauto; split; intros; nia.
Qed.

End ClampSize.

(** A 4096 x 1 strip under a limit of 2048 loses its height. *)
Lemma clampSize_collapses_witness :
  clampSize 2048 4096 1 = (2048, 0).
Proof.
  pose proof (clampSize_collapses 2048 4096 1 ltac:(lia) ltac:(lia) ltac:(lia) ltac:(lia)
                ltac:(lia)) as [Hsnd _].
  rewrite (surjective_pairing (clampSize 2048 4096 1)).
  rewrite (proj2 Hsnd) by lia. reflexivity.
Defined.

Lemma clampSize_shrinks_and_settles_witness :
  clampSize 2048 (fst (clampSize 2048 4096 1024)) (snd (clampSize 2048 4096 1024))
  = clampSize 2048 4096 1024.
Proof.
  pose proof (clampSize_shrinks_and_settles 2048 4096 1024 ltac:(unfold is_u32; lia)
                ltac:(unfold is_u32; lia) ltac:(unfold is_u32; lia)) as H.
  destruct (clampSize 2048 4096 1024) as [w' h']. apply H.
Defined.

(** ** updateTexture *)

Section UpdateTexture.

Variable host : Host.

Lemma updateTexture_create_calls (data : list RV_PIXEL) (w h : Z) (v : Viewport) :
  m_texture v = None ->
  exists desc, calls (snd (updateTexture host data w h v)) = calls v ++ [TexAcquire desc data].
Proof.
  intros Htex. unfold updateTexture. rewrite Htex. cbv zeta. cbn [snd].
  eexists.
  match goal with
  | |- context [ask host acquireTexture ?x] => destruct (ask host acquireTexture x)
  end; reflexivity.
Qed.

(** X3. With no texture yet, [updateTexture] asks the texture manager for
    one, described as [w] x [h] pixels of 16 bytes, keeps whatever it is
    handed (a null pointer included), raises the changed flag and reports
    success all the same; after a refusal the next call asks again.  With
    a texture in place it only passes the data on and reports what the
    texture's update reports. *)
Theorem updateTexture_creates_or_updates (data : list RV_PIXEL) (w h : Z) (v : Viewport) :
  is_u32 w -> is_u32 h -> 16 * w < 2 ^ 32 -> 16 * w * h < 2 ^ 32 ->
  let '(status, v') := updateTexture host data w h v in
  match m_texture v with
  | None =>
      let request := TexAcquire (mkDesc w h 1 (16 * w) (16 * w * h) kR32G32B32A32_FLOAT) data in
      status = kSuccess
      /\ calls v' = calls v ++ [request]
      /\ m_texture v' = acquireTexture host (calls v ++ [request])
      /\ m_textureChanged v' = true
      /\ (m_texture v' = None ->
          forall data',
            exists desc',
              calls (snd (updateTexture host data' w h v'))
              = calls v' ++ [TexAcquire desc' data'])
  | Some tex =>
      calls v' = calls v ++ [TexUpdate tex data]
      /\ status = textureUpdate host (calls v ++ [TexUpdate tex data])
      /\ m_texture v' = Some tex
      /\ m_textureChanged v' = m_textureChanged v
      /\ m_textureDesc v' = m_textureDesc v
  end.
Proof.
  unfold is_u32. intros Hw Hh Hrow Hslice.
  destruct (updateTexture host data w h v) as [status v'] eqn:Hrun.
  unfold updateTexture in Hrun.
  destruct (m_texture v) as [tex|] eqn:Htex.
  - inversion Hrun; subst. fields. rewrite Htex. repeat split; reflexivity.
  - replace (u32 (4 * 4 * w)) with (16 * w) in Hrun by (rewrite u32_small; lia).
    replace (u32 (16 * w * h)) with (16 * w * h) in Hrun by (rewrite u32_small; nia).
    cbv zeta in Hrun. unfold ask in Hrun. revert Hrun. fields.
    set (request := TexAcquire _ data).
    destruct (acquireTexture host (calls v ++ [request])) as [tex|] eqn:Hacq;
      intros Hrun; inversion Hrun; subst; fields;
      (split; [reflexivity|]); (split; [reflexivity|]); (split; [reflexivity|]);
      (split; [reflexivity|]); intros Hnull; [discriminate|].
    intros data'. apply updateTexture_create_calls. reflexivity.
Qed.

End UpdateTexture.

(** A texture manager that hands out nothing: success is reported, the
    texture stays null and the flag is raised. *)
Lemma updateTexture_creates_or_updates_witness :
  let host := scripted_host false false false false (kSuccess, (4, 2)) 0 None never_throws in
  let v := sample_viewport false false StateRendering 4 2 in
  fst (updateTexture host (m_pixels v) 4 2 v) = kSuccess
  /\ m_texture (snd (updateTexture host (m_pixels v) 4 2 v)) = None
  /\ m_textureChanged (snd (updateTexture host (m_pixels v) 4 2 v)) = true.
Proof.
  cbv zeta.
  pose proof (updateTexture_creates_or_updates
                (scripted_host false false false false (kSuccess, (4, 2)) 0 None never_throws)
                (m_pixels (sample_viewport false false StateRendering 4 2)) 4 2
                (sample_viewport false false StateRendering 4 2)
                ltac:(unfold is_u32; lia) ltac:(unfold is_u32; lia) ltac:(lia) ltac:(lia)) as H.
  destruct (updateTexture _ _ 4 2 _) as [status v']. cbv beta iota zeta in H.
  cbn [m_texture sample_viewport] in H.
  destruct H as (Hstatus & _ & Htex & Hflag & _).
  split; [exact Hstatus|]. split; [exact Htex|exact Hflag].
Defined.

(** ** What sizes the pixel buffer *)

Lemma length_fill (buf src : list RV_PIXEL) : length (fill buf src) = length buf.
Proof. unfold fill. rewrite length_app, length_take, length_drop. lia. Qed.

Section Shape.

Variable host : Host.
Variable s : nat * Z * Z * bool.

Let keeps (v : Viewport) : Prop := shape v = s.

Ltac framed := intros; unfold keeps in *; assumption.

Lemma shape_sdk_call (e : Event) : preserves keeps (sdk_call host e).
Proof. apply preserves_sdk_call. framed. Qed.

Lemma shape_readFrameBuffer (storedFrame : option string) :
  preserves keeps (readFrameBuffer host storedFrame).
Proof.
  destruct storedFrame as [key|]; [apply preserves_readFrameBuffer_stored; framed|].
  intros v Hv. unfold readFrameBuffer. destruct (isGLInteropActive (m_context v)).
  - apply shape_sdk_call, Hv.
  - set (read := CtxReadFrameBuffer _ _ _ _ _).
    refine (preserves_bind keeps (sdk_call host read) _ _ _ v Hv); [apply shape_sdk_call|].
    intros _. apply preserves_bind; [|intros _; apply preserves_lift; framed].
    apply preserves_lift. intros x Hx. unfold keeps, shape in *.
    cbn [m_pixels set_m_pixels m_context]. rewrite length_fill. exact Hx.
Qed.

Lemma shape_updateTexture (data : list RV_PIXEL) (w h : Z) (v : Viewport) :
  keeps v -> keeps (snd (updateTexture host data w h v)).
Proof. apply preserves_updateTexture; framed. Qed.

Lemma shape_catch_to_error (e : Exn) : preserves keeps (catch_to_error e).
Proof. apply preserves_catch_to_error. framed. Qed.

Lemma shape_refreshContext : preserves keeps (refreshContext host).
Proof.
  intros v. unfold refreshContext. destruct (negb _); [apply preserves_ret|].
  apply preserves_try_catch; [|apply shape_catch_to_error].
  apply preserves_bind; [apply shape_sdk_call|intros; apply preserves_ret].
Qed.

Lemma shape_renderCached (w h : Z) : preserves keeps (renderCached host w h).
Proof.
  unfold renderCached. apply preserves_bind; [apply preserves_lift; framed|intros _].
  apply preserves_try_catch; [|apply shape_catch_to_error].
  intros v Hv. unfold renderCached_try.
  destruct (cache_get _ _) as [frame cache]. destruct (Resize frame w h) as [resized frame'].
  set (v1 := set_m_textureCache _ v).
  assert (H1 : keeps v1) by framed.
  destruct resized.
  - revert v1 H1. apply preserves_bind; [apply shape_sdk_call|intros _].
    apply preserves_bind; [apply shape_readFrameBuffer|intros _].
    apply preserves_updateFromFrame; framed.
  - revert v1 H1. apply preserves_updateFromFrame; framed.
Qed.

Lemma shape_RunOnViewportThread : preserves keeps (RunOnViewportThread host).
Proof.
  intros v Hv. unfold RunOnViewportThread.
  assert (Hsleep : forall ms, keeps (snd ((do _ <- lift (log (SleepFor ms)); ret true) v)))
    by (intros; exact Hv).
  destruct (state (m_context v)); try apply Hsleep; [exact Hv|].
  destruct (renderRequired host v); [|apply Hsleep].
  revert v Hv Hsleep. intros v Hv _. revert v Hv.
  apply preserves_bind; [|intros _; apply preserves_bind;
                            [apply preserves_lift; framed|intros; apply preserves_ret]].
  apply preserves_try_catch.
  - unfold renderIteration.
    apply preserves_bind; [apply shape_sdk_call|intros _].
    apply preserves_bind; [apply preserves_lift; framed|intros _].
    apply preserves_bind; [apply shape_readFrameBuffer|intros _].
    apply preserves_lift. intros v Hv. destruct (0 <? _); framed.
  - intros e. unfold renderFailed.
    apply preserves_bind; [apply preserves_lift; framed|intros _].
    apply preserves_bind; [apply preserves_lift; framed|intros _].
    apply preserves_bind; [apply preserves_lift; framed|intros _].
    apply preserves_bind; [intros v Hv; exact Hv|intros n].
    destruct (3 <? n); intros v Hv; exact Hv.
Qed.

Lemma shape_stop (v : Viewport) : keeps v -> keeps (snd (stop host v)).
Proof.
  intros Hv. destruct (stop_effect host v) as (_ & Hw & Hh & Hgl & _ & _ & _).
  cbv zeta in *. unfold keeps, shape in *. rewrite Hw, Hh, Hgl.
  assert (Hpix : m_pixels (snd (stop host v)) = m_pixels v).
  { unfold stop. cbv zeta. unfold ask.
    destruct (m_isRunning v && IsThreadRunning host (calls v)).
    - rewrite stop_spins. destruct (_ && _); reflexivity.
    - destruct (_ && _); reflexivity. }
  rewrite Hpix. exact Hv.
Qed.

Lemma shape_start (v : Viewport) : keeps v -> keeps (snd (start host v)).
Proof.
  intros Hv. unfold start.
  assert (H1 : keeps (if m_isRunning v then snd (stop host v) else v))
    by (destruct (m_isRunning v); [apply shape_stop|]; exact Hv).
  destruct (_ || _); cbn [snd]; framed.
Qed.

Lemma shape_cleanUp (v : Viewport) : keeps v -> keeps (cleanUp host v).
Proof.
  intros Hv. unfold cleanUp. cbv zeta. cbn [m_texture log set_calls].
  destruct (m_texture v); [destruct (negb _)|]; framed.
Qed.

End Shape.

(** ** Properties that only the catch blocks can break *)

Section Flags.

Variable host : Host.
Variable I : Viewport -> Prop.

Hypothesis I_log : forall e v, I v -> I (log e v).
Hypothesis I_texture : forall x v, I v -> I (set_m_texture x v).
Hypothesis I_textureDesc : forall x v, I v -> I (set_m_textureDesc x v).
Hypothesis I_textureChanged : forall x v, I v -> I (set_m_textureChanged x v).
Hypothesis I_pixels : forall x v, I v -> I (set_m_pixels x v).
Hypothesis I_pixelsUpdated : forall x v, I v -> I (set_m_pixelsUpdated x v).
Hypothesis I_closeDialogNeeded : forall x v, I v -> I (set_m_closeDialogNeeded x v).
Hypothesis I_showDialogNeeded : forall x v, I v -> I (set_m_showDialogNeeded x v).
Hypothesis I_context : forall x v, I v -> I (set_m_context x v).

Lemma flag_readFrameBuffer_pixels : preserves I (readFrameBuffer host None).
Proof.
  intros v Hv. unfold readFrameBuffer. destruct (isGLInteropActive (m_context v)).
  - apply preserves_sdk_call; assumption.
  - set (read := CtxReadFrameBuffer _ _ _ _ _).
    refine (preserves_bind I (sdk_call host read) _ _ _ v Hv);
      [apply preserves_sdk_call; assumption|].
    intros _. apply preserves_bind; apply preserves_lift || intros _.
    + intros x Hx. apply I_pixels, Hx.
    + apply preserves_lift. intros x Hx. apply I_pixelsUpdated, Hx.
Qed.

Lemma flag_updateTexture (data : list RV_PIXEL) (w h : Z) (v : Viewport) :
  I v -> I (snd (updateTexture host data w h v)).
Proof. apply preserves_updateTexture; assumption. Qed.

Lemma flag_resizeFrameBufferStandard (w h : Z) :
  preserves I (resizeFrameBufferStandard host w h).
Proof.
  unfold resizeFrameBufferStandard.
  apply preserves_bind; [apply preserves_sdk_call; assumption|intros _].
  apply preserves_bind; [apply preserves_lift; intros v Hv; apply I_context, Hv|intros _].
  apply preserves_bind; [apply preserves_resizePixels; exact I_pixels|intros _].
  apply preserves_bind; [apply flag_readFrameBuffer_pixels|intros _].
  apply preserves_lift. intros v Hv. apply flag_updateTexture, Hv.
Qed.

Lemma flag_resizeFrameBufferGLInterop (w h : Z) :
  preserves I (resizeFrameBufferGLInterop host w h).
Proof.
  unfold resizeFrameBufferGLInterop.
  apply preserves_bind; [apply preserves_resizePixels; exact I_pixels|intros _].
  apply preserves_bind; [apply preserves_lift; intros v Hv; apply I_pixels, Hv|intros _].
  apply preserves_bind;
    [apply preserves_lift; intros v Hv; apply flag_updateTexture, Hv|intros _].
  intros v Hv. destruct (m_texture v); [|exact Hv].
  revert v Hv. apply preserves_bind; [apply preserves_sdk_call; assumption|intros _].
  apply preserves_lift. intros v Hv. apply I_context, Hv.
Qed.

(** The part of [resize_try] after the cache has been cleared. *)
Lemma flag_resize_rest (w h : Z) (v : Viewport) :
  I (set_m_textureCache ∅ v) -> I (snd (resize_try host w h v)).
Proof.
  intros Hv. unfold resize_try. unfold bind at 1, lift at 1. revert Hv.
  generalize (set_m_textureCache ∅ v). clear v.
  apply preserves_bind.
  { apply preserves_lift. intros v Hv. unfold releaseTexture.
    destruct (m_texture v); [apply I_texture, I_log, Hv|exact Hv]. }
  intros _. apply preserves_bind.
  { apply preserves_lift. intros v Hv.
    destruct (ask host isFirstIterationAndShadersNOTCached v); [|exact Hv].
    apply I_showDialogNeeded, I_closeDialogNeeded, Hv. }
  intros _. apply preserves_bind.
  { intros v Hv. destruct (isGLInteropActive (m_context v));
      [apply flag_resizeFrameBufferGLInterop|apply flag_resizeFrameBufferStandard]; exact Hv. }
  intros _. apply preserves_bind; [intros v Hv; exact Hv|intros status].
  destruct (failed status); [apply preserves_ret|].
  apply preserves_bind; [intros v Hv; exact Hv|intros status'].
  destruct (failed status'); [apply preserves_ret|].
  apply preserves_bind; [intros v Hv; exact Hv|intros valid].
  apply preserves_bind;
    [destruct valid; [apply preserves_sdk_call; assumption|apply preserves_ret]|intros _].
  apply preserves_bind; [|intros; apply preserves_ret].
  apply preserves_lift. intros v Hv. apply I_log, Hv.
Qed.

Hypothesis I_textureCache : forall x v, I v -> I (set_m_textureCache x v).

Lemma flag_resize_try (w h : Z) : preserves I (resize_try host w h).
Proof. intros v Hv. apply flag_resize_rest, I_textureCache, Hv. Qed.

Lemma flag_refresh_try :
  preserves I (do _ <- sdk_call host (CtxFreshen true); ret kSuccess).
Proof. apply preserves_bind; [apply preserves_sdk_call; assumption|intros; apply preserves_ret]. Qed.

Lemma flag_renderCached_try (w h : Z) : preserves I (renderCached_try host w h).
Proof.
  intros v Hv. unfold renderCached_try.
  destruct (cache_get _ _) as [frame cache]. destruct (Resize frame w h) as [resized frame'].
  set (v1 := set_m_textureCache _ v).
  assert (H1 : I v1) by (apply I_textureCache, Hv).
  destruct resized; revert v1 H1.
  - apply preserves_bind; [apply preserves_sdk_call; assumption|intros _].
    apply preserves_bind;
      [apply preserves_readFrameBuffer_stored; try assumption;
       intros; apply I_textureCache; assumption|intros _].
    apply preserves_updateFromFrame; assumption.
  - apply preserves_updateFromFrame; assumption.
Qed.

Hypothesis I_isRunning : forall x v, I v -> I (set_m_isRunning x v).
Hypothesis I_renderingErrors : forall x v, I v -> I (set_m_renderingErrors x v).

Lemma flag_stop (v : Viewport) : I v -> I (snd (stop host v)).
Proof.
  intros Hv. unfold stop. cbv zeta.
  assert (Hspin : forall n x, I x -> I (Nat.iter n stop_spin x)).
  { induction n as [|n IH]; intros x Hx; [exact Hx|].
    rewrite Nat.iter_succ. unfold stop_spin. cbv zeta.
    apply I_log, I_context, I_log, IH, Hx. }
  destruct (m_isRunning v && ask host IsThreadRunning v).
  - set (v' := Nat.iter _ stop_spin v).
    assert (Hv' : I v') by (apply Hspin, Hv). clearbody v'.
    match goal with
    | |- context [if ?c then _ else _] => destruct c
    end; cbn [snd]; repeat first [apply I_log | apply I_isRunning]; exact Hv'.
  - match goal with
    | |- context [if ?c then _ else _] => destruct c
    end; cbn [snd]; repeat apply I_log; exact Hv.
Qed.

Lemma flag_start (v : Viewport) : I v -> I (snd (start host v)).
Proof.
  intros Hv. unfold start.
  assert (H1 : I (if m_isRunning v then snd (stop host v) else v))
    by (destruct (m_isRunning v); [apply flag_stop|]; exact Hv).
  destruct (_ || _); cbn [snd]; [exact H1|].
  apply I_log, I_renderingErrors, I_isRunning, I_context, H1.
Qed.


End Flags.

(** ** The buffer's shape *)

Section ShapeTheorems.

Variable host : Host.

Lemma shape_threadStep (v : Viewport) : shape (snd (threadStep host v)) = shape v.
Proof.
  unfold threadStep.
  pose proof (shape_RunOnViewportThread host (shape v) v eq_refl) as H.
  destruct (RunOnViewportThread host v) as [[running|e] v']; exact H.
Qed.

Lemma shape_cameraChanged (v : Viewport) : shape (snd (cameraChanged host v)) = shape v.
Proof.
  revert v.
  assert (H : forall s, preserves (fun x => shape x = s) (cameraChanged host)).
  { intros s. unfold cameraChanged.
    apply preserves_try_catch; [|apply shape_catch_to_error].
    apply preserves_bind; [apply shape_sdk_call|intros _].
    apply preserves_bind; [apply preserves_lift; intros; assumption|].
    intros; apply preserves_ret. }
  intros v. apply (H (shape v)). reflexivity.
Qed.

(** X4. Rendering, reading the frame buffer back, serving a cached frame,
    refreshing, changing the camera, starting, stopping and cleaning up
    never resize the pixel buffer or the context, and never switch the GL
    interop mode: only [resize] does. *)
Theorem only_resize_reshapes (v : Viewport) (storedFrame : option string) (w h : Z) :
  shape (snd (RunOnViewportThread host v)) = shape v
  /\ shape (snd (threadStep host v)) = shape v
  /\ shape (snd (readFrameBuffer host storedFrame v)) = shape v
  /\ shape (snd (renderCached host w h v)) = shape v
  /\ shape (snd (refreshContext host v)) = shape v
  /\ shape (snd (cameraChanged host v)) = shape v
  /\ shape (snd (refresh host v)) = shape v
  /\ shape (snd (stop host v)) = shape v
  /\ shape (snd (start host v)) = shape v
  /\ shape (cleanUp host v) = shape v
  /\ shape (destructor host v) = shape v.
Proof.
  split; [apply (shape_RunOnViewportThread host (shape v)); reflexivity|].
  split; [apply shape_threadStep|].
  split; [apply (shape_readFrameBuffer host (shape v)); reflexivity|].
  split; [apply (shape_renderCached host (shape v)); reflexivity|].
  split; [apply (shape_refreshContext host (shape v)); reflexivity|].
  split; [apply shape_cameraChanged|].
  split.
  { unfold refresh. cbv zeta. cbn [snd].
    destruct (_ && _); [reflexivity|]. destruct (m_showDialogNeeded v); reflexivity. }
  split; [apply (shape_stop host (shape v)); reflexivity|].
  split; [apply (shape_start host (shape v)); reflexivity|].
  split; [apply (shape_cleanUp host (shape v)); reflexivity|].
  unfold destructor. apply (shape_cleanUp host (shape v)).
  apply (shape_stop host (shape v)). reflexivity.
Qed.

End ShapeTheorems.

(** ** resize *)

Section Resize.

Variable host : Host.
Variables w h : Z.

Lemma guarded_try_catch (c : M MStatus) :
  preserves sound c ->
  forall v, sound v ->
    fails_on_error (fst (try_catch c catch_to_error v)) (snd (try_catch c catch_to_error v)).
Proof.
  intros Hc v Hv. unfold try_catch. specialize (Hc v Hv).
  destruct (c v) as [[status|e] v1]; cbn [fst snd] in *.
  - exists status. split; [reflexivity|]. left. exact Hc.
  - exists kFailure. split; [reflexivity|]. right. reflexivity.
Qed.

Lemma sound_resize_try : preserves sound (resize_try host w h).
Proof. apply flag_resize_try; intros; assumption. Qed.

Lemma resize_cache_empty (v : Viewport) : m_textureCache (snd (resize host w h v)) = ∅.
Proof.
  unfold resize.
  assert (Hbody : m_textureCache (snd (resize_try host w h v)) = ∅)
    by (apply (flag_resize_rest host (fun x => m_textureCache x = ∅));
        intros; try assumption; reflexivity).
  unfold try_catch. destruct (resize_try host w h v) as [[status|e] v1]; exact Hbody.
Qed.

(** With no texture to release, [resize] releases none. *)
Lemma resize_try_releases_nothing (v : Viewport) :
  m_texture v = None ->
  continues (fun e => negb (is_texture_release e)) v (snd (resize_try host w h v)).
Proof.
  intros Htex. unfold resize_try. unfold bind at 1, lift at 1.
  unfold bind at 1, lift at 1. unfold releaseTexture.
  cbn [m_texture set_m_textureCache]. rewrite Htex.
  apply (continues_trans _ v (set_m_textureCache ∅ v)); [apply continues_same; reflexivity|].
  generalize (set_m_textureCache ∅ v). clear v Htex.
  apply only_calls_bind.
  { apply only_calls_lift. intros v.
    destruct (ask host isFirstIterationAndShadersNOTCached v);
      apply continues_same; reflexivity. }
  intros _. apply only_calls_bind.
  { intros v. destruct (isGLInteropActive (m_context v)).
    - unfold resizeFrameBufferGLInterop.
      apply only_calls_bind;
        [apply only_calls_resizePixels|intros _].
      apply only_calls_bind;
        [apply only_calls_lift; intros x; apply continues_same; reflexivity|intros _].
      apply only_calls_bind.
      { apply only_calls_lift. intros x.
        apply (continues_weaken _ is_texture_write); [intros []; cbn; congruence|].
        apply updateTexture_calls. }
      intros _ x. destruct (m_texture x); [|apply only_calls_ret].
      apply only_calls_bind; [apply only_calls_sdk_call; reflexivity|intros _].
      apply only_calls_lift. intros y. apply continues_same. reflexivity.
    - unfold resizeFrameBufferStandard.
      apply only_calls_bind; [apply only_calls_sdk_call; reflexivity|intros _].
      apply only_calls_bind;
        [apply only_calls_lift; intros x; apply continues_same; reflexivity|intros _].
      apply only_calls_bind;
        [apply only_calls_resizePixels|intros _].
      apply only_calls_bind.
      { intros x. apply (continues_weaken _ is_frame_read); [intros []; cbn; congruence|].
        apply readFrameBuffer_calls. }
      intros _. apply only_calls_lift. intros x.
      apply (continues_weaken _ is_texture_write); [intros []; cbn; congruence|].
      apply updateTexture_calls. }
  intros _. apply only_calls_bind; [apply only_calls_get|intros status].
  destruct (failed status); [apply only_calls_ret|].
  apply only_calls_bind; [apply only_calls_get|intros status'].
  destruct (failed status'); [apply only_calls_ret|].
  apply only_calls_bind; [apply only_calls_get|intros valid].
  apply only_calls_bind;
    [destruct valid; [apply only_calls_sdk_call; reflexivity|apply only_calls_ret]|intros _].
  apply only_calls_bind; [|intros; apply only_calls_ret].
  apply only_calls_lift. intros v. apply continues_log. reflexivity.
Qed.

(** Releasing first and resizing is resizing. *)
Lemma resize_try_after_release (tex : MTexture) (v : Viewport) :
  m_texture v = Some tex ->
  resize_try host w h v = resize_try host w h (set_m_texture None (log (TexRelease tex) v)).
Proof.
  intros Htex.
  assert (Hstate : releaseTexture (set_m_textureCache ∅ v)
                   = releaseTexture (set_m_textureCache ∅
                                       (set_m_texture None (log (TexRelease tex) v)))).
  { destruct v. cbn in Htex. subst. reflexivity. }
  set (rhs := resize_try host w h (set_m_texture None (log (TexRelease tex) v))).
  unfold resize_try. unfold bind at 1. unfold lift at 1. unfold bind at 1. unfold lift at 1.
  rewrite Hstate. reflexivity.
Qed.

Lemma filter_continues (P : Event -> bool) (v v' : Viewport) :
  continues (fun e => negb (P e)) v v' ->
  List.filter P (calls_since (length (calls v)) v') = [].
Proof.
  intros (evs & Hcalls & Hall). rewrite (calls_since_app _ _ _ Hcalls). clear Hcalls.
  induction evs as [|e evs IH]; [reflexivity|].
  cbn in *. apply andb_prop in Hall as [He Hevs].
  destruct (P e); [discriminate|]. apply IH, Hevs.
Qed.

(** X5. [resize] never throws; it always leaves the texture cache empty;
    it releases the texture it finds, once, and no other; and when an SDK
    call fails under it, it records the error and returns [kFailure]. *)
Theorem resize_clears_releases_and_recovers (v : Viewport) :
  let '(result, v') := resize host w h v in
  (exists status, result = Ret status /\ (m_error v = None -> m_error v' = None \/ status = kFailure))
  /\ m_textureCache v' = ∅
  /\ List.filter is_texture_release (calls_since (length (calls v)) v')
     = match m_texture v with
       | Some tex => [TexRelease tex]
       | None => []
       end.
Proof.
  pose proof (resize_cache_empty v) as Hcache.
  assert (Hguard : exists status, fst (resize host w h v) = Ret status
                     /\ (m_error v = None ->
                         m_error (snd (resize host w h v)) = None \/ status = kFailure)).
  { destruct (m_error v) eqn:Herr.
    - destruct (returns_try_catch (resize_try host w h) v) as [status Hs].
      exists status. split; [exact Hs|discriminate].
    - destruct (guarded_try_catch (resize_try host w h) sound_resize_try v Herr)
        as (status & Hs & Hor).
      exists status. split; [exact Hs|]. intros _. exact Hor. }
  assert (Hrel : List.filter is_texture_release
                   (calls_since (length (calls v)) (snd (resize host w h v)))
                 = match m_texture v with Some tex => [TexRelease tex] | None => [] end).
  { assert (Hcatch : forall x, calls (snd (try_catch (resize_try host w h) catch_to_error x))
                               = calls (snd (resize_try host w h x))).
    { intros x. unfold try_catch. destruct (resize_try host w h x) as [[a|e] x1]; reflexivity. }
    unfold resize, calls_since. rewrite Hcatch.
    destruct (m_texture v) as [tex|] eqn:Htex.
    - rewrite (resize_try_after_release tex v Htex).
      set (v0 := set_m_texture None (log (TexRelease tex) v)).
      destruct (resize_try_releases_nothing v0 eq_refl) as (evs & Hcalls & Hall).
      rewrite Hcalls. cbn [calls v0 set_m_texture log set_calls].
      rewrite <- List.app_assoc, drop_app_length. cbn [app List.filter is_texture_release].
      f_equal. clear Hcalls. induction evs as [|e evs IH]; [reflexivity|].
      cbn in *. apply andb_prop in Hall as [He Hevs].
      destruct (is_texture_release e); [discriminate|]. apply IH, Hevs.
    - apply (filter_continues is_texture_release). apply resize_try_releases_nothing, Htex. }
  destruct (resize host w h v) as [result v']. cbn [fst snd] in *.
  split; [exact Hguard|]. split; [exact Hcache|exact Hrel].
Qed.

End Resize.

(** ** Exception safety of the main-thread entry points *)

Section Recovery.

Variable FRMAYA_GL_MAX_TEXTURE_SIZE : Z.
Variable host : Host.

Lemma fails_kFailure (v : Viewport) : fails_on_error (Ret kFailure) v.
Proof. exists kFailure. split; [reflexivity|right; reflexivity]. Qed.

Lemma recovers_ret (status : MStatus) : recovers (ret status).
Proof. intros v Hv. exists status. split; [reflexivity|left; exact Hv]. Qed.

Lemma recovers_try_catch (c : M MStatus) :
  preserves sound c -> recovers (try_catch c catch_to_error).
Proof. intros Hc v Hv. apply guarded_try_catch; assumption. Qed.

(** A status that may be [kFailure] with the error recorded is passed on
    to a continuation that returns it when it is a failure. *)
Lemma recovers_bind (c : M MStatus) (k : MStatus -> M MStatus) :
  recovers c ->
  (forall status, recovers (k status)) ->
  (forall v, fails_on_error (fst (k kFailure v)) (snd (k kFailure v))) ->
  recovers (bind c k).
Proof.
  intros Hc Hk Hfail v Hv. unfold bind. destruct (Hc v Hv) as (status & Hs & Hor).
  destruct (c v) as [r v1]. cbn [fst snd] in *. subst r.
  destruct Hor as [Hv1| ->]; [apply Hk, Hv1|apply Hfail].
Qed.

Lemma recovers_seq {A} (c : M A) (k : A -> M MStatus) :
  returns c -> preserves sound c -> (forall a, recovers (k a)) -> recovers (bind c k).
Proof.
  intros Hret Hc Hk v Hv. unfold bind. destruct (Hret v) as [a Ha]. specialize (Hc v Hv).
  destruct (c v) as [r v1]. cbn [fst snd] in *. subst r. apply Hk, Hc.
Qed.

Lemma recovers_resize (w h : Z) : recovers (resize host w h).
Proof. apply recovers_try_catch, sound_resize_try. Qed.

Lemma recovers_refreshContext : recovers (refreshContext host).
Proof.
  intros v Hv. unfold refreshContext. destruct (negb _); [apply recovers_ret, Hv|].
  apply recovers_try_catch; [|exact Hv].
  apply flag_refresh_try. intros; assumption.
Qed.

Lemma recovers_renderCached (w h : Z) : recovers (renderCached host w h).
Proof.
  unfold renderCached. apply recovers_seq.
  - intros v. exists tt. reflexivity.
  - apply preserves_lift. intros; assumption.
  - intros _. apply recovers_try_catch. apply flag_renderCached_try; intros; assumption.
Qed.

Lemma sound_of_check (v : Viewport) : error_check v = false -> sound v.
Proof.
  unfold error_check, sound. intros H. apply bool_decide_eq_false in H.
  destruct (m_error v); [exfalso; apply H; eauto|reflexivity].
Qed.

Lemma doSetup_recovers (v : Viewport) :
  fails_on_error (fst (doSetup FRMAYA_GL_MAX_TEXTURE_SIZE host v))
                 (snd (doSetup FRMAYA_GL_MAX_TEXTURE_SIZE host v)).
Proof.
  unfold doSetup. destruct (error_check v) eqn:Herr; [apply fails_kFailure|].
  apply sound_of_check in Herr.
  destruct (getSize FRMAYA_GL_MAX_TEXTURE_SIZE host v) as [status [w h]].
  destruct (failed status); [apply recovers_ret, Herr|]. cbv zeta.
  generalize (animating host v && m_useAnimationCache (log (CtxUpdateLimits (animating host v)) v)
              && negb (isGLInteropActive (m_context (log (CtxUpdateLimits (animating host v)) v)))).
  intros useCache.
  set (v1 := log _ v). assert (H1 : sound v1) by exact Herr.
  set (v2 := if (_ : bool) then snd (stop host v1) else v1).
  assert (H2 : sound v2).
  { subst v2. destruct (_ && _); [|exact H1]. apply flag_stop; try (intros; assumption). }
  revert H2. generalize v2. clear.
  apply recovers_bind.
  { intros x Hx. destruct (_ || _); [apply recovers_resize|apply recovers_ret]; exact Hx. }
  2: { intros x. apply fails_kFailure. }
  intros status. destruct (failed status); [apply recovers_ret|].
  apply recovers_bind; [apply recovers_refreshContext| |intros x; apply fails_kFailure].
  intros status'. destruct (failed status'); [apply recovers_ret|].
  apply recovers_seq; [intros x; eexists; reflexivity|intros x Hx; exact Hx|].
  intros err. destruct err; [apply recovers_ret|].
  destruct useCache.
  - apply recovers_bind; [apply recovers_renderCached| |intros x; apply fails_kFailure].
    intros status''. destruct (failed status''); apply recovers_ret.
  - apply recovers_seq; [| |intros; apply recovers_ret].
    + intros x. destruct (negb _); eexists; reflexivity.
    + intros x Hx. destruct (negb _); [|exact Hx].
      apply (flag_start host sound); try (intros; assumption).
Qed.

(** X8. [doSetup] and [setup] never let an exception out: they answer a
    status, and whenever an error is recorded when they are done (one
    found on entry, or one caught from the SDK under [resize],
    [refreshContext] or [renderCached]), the status is [kFailure]. *)
Theorem setup_recovers (v : Viewport) :
  fails_on_error (fst (doSetup FRMAYA_GL_MAX_TEXTURE_SIZE host v))
                 (snd (doSetup FRMAYA_GL_MAX_TEXTURE_SIZE host v))
  /\ fails_on_error (fst (setup FRMAYA_GL_MAX_TEXTURE_SIZE host v))
                    (snd (setup FRMAYA_GL_MAX_TEXTURE_SIZE host v)).
Proof. split; [apply doSetup_recovers|]. unfold setup. cbv zeta. apply doSetup_recovers. Qed.

End Recovery.

(** ** Hoare triples *)

Section Triples.

Variable host : Host.

Lemma triple_ret {A} (a : A) (post : A -> Viewport -> Prop) (thrown : Exn -> Viewport -> Prop) :
  triple (post a) (ret a) post thrown.
Proof. intros v Hv. exact Hv. Qed.

Lemma triple_lift (f : Viewport -> Viewport) (pre : Viewport -> Prop)
    (post : unit -> Viewport -> Prop) (thrown : Exn -> Viewport -> Prop) :
  (forall v, pre v -> post tt (f v)) -> triple pre (lift f) post thrown.
Proof. intros Hf v Hv. apply Hf, Hv. Qed.

Lemma triple_get {A} (f : Viewport -> A) (pre : Viewport -> Prop)
    (post : A -> Viewport -> Prop) (thrown : Exn -> Viewport -> Prop) :
  (forall v, pre v -> post (f v) v) -> triple pre (get f) post thrown.
Proof. intros Hf v Hv. apply Hf, Hv. Qed.

Lemma triple_bind {A B} (c : M A) (k : A -> M B) (pre : Viewport -> Prop)
    (mid : A -> Viewport -> Prop) (post : B -> Viewport -> Prop)
    (thrown : Exn -> Viewport -> Prop) :
  triple pre c mid thrown ->
  (forall a, triple (mid a) (k a) post thrown) ->
  triple pre (bind c k) post thrown.
Proof.
  intros Hc Hk v Hv. unfold bind. specialize (Hc v Hv).
  destruct (c v) as [[a|e] v1]; [apply Hk, Hc|exact Hc].
Qed.


Lemma triple_sdk_call (e : Event) (pre : Viewport -> Prop)
    (post : unit -> Viewport -> Prop) (thrown : Exn -> Viewport -> Prop) :
  (forall v, pre v -> ask host sdkThrows (log e v) = None -> post tt (log e v)) ->
  (forall v ex, pre v -> ask host sdkThrows (log e v) = Some ex -> thrown ex (log e v)) ->
  triple pre (sdk_call host e) post thrown.
Proof.
  intros Hpost Hthrown v Hv. unfold sdk_call. cbv zeta.
  destruct (ask host sdkThrows (log e v)) as [ex|] eqn:Hex;
    [apply Hthrown|apply Hpost]; assumption.
Qed.

Lemma triple_consequence {A} (c : M A) (pre pre' : Viewport -> Prop)
    (post post' : A -> Viewport -> Prop) (thrown thrown' : Exn -> Viewport -> Prop) :
  triple pre' c post' thrown' ->
  (forall v, pre v -> pre' v) ->
  (forall a v, post' a v -> post a v) ->
  (forall e v, thrown' e v -> thrown e v) ->
  triple pre c post thrown.
Proof.
  intros Hc Hpre Hpost Hthrown v Hv. specialize (Hc v (Hpre v Hv)).
  destruct (c v) as [[a|e] v1]; auto.
Qed.

Lemma triple_preserves {A} (I : Viewport -> Prop) (c : M A) :
  preserves I c -> triple I c (fun _ => I) (fun _ => I).
Proof.
  intros Hc v Hv. specialize (Hc v Hv). destruct (c v) as [[a|e] v1]; exact Hc.
Qed.

(** The camera part of [resize_try] only logs calls; [resize_try] is the
    clearing of the cache and of the texture, the dialog flags, the resize
    of the frame buffer, and that part. *)
Lemma triple_resize_try (w h : Z) (pre : Viewport -> Prop) (post thrown : Viewport -> Prop) :
  (forall e v, post v -> post (log e v)) ->
  (forall v, post v -> thrown v) ->
  triple pre
         (fun v => if isGLInteropActive (m_context v)
                   then resizeFrameBufferGLInterop host w h v
                   else resizeFrameBufferStandard host w h v)
         (fun _ => post) (fun _ => thrown) ->
  triple (fun v => pre (if ask host isFirstIterationAndShadersNOTCached
                             (releaseTexture (set_m_textureCache ∅ v))
                        then set_m_showDialogNeeded true
                               (set_m_closeDialogNeeded false
                                  (releaseTexture (set_m_textureCache ∅ v)))
                        else releaseTexture (set_m_textureCache ∅ v)))
         (resize_try host w h) (fun _ => post) (fun _ => thrown).
Proof.
  intros Hlog Hthrown Hfb v Hv. unfold resize_try.
  unfold bind at 1, lift at 1. unfold bind at 1, lift at 1. unfold bind at 1, lift at 1.
  revert Hv. match goal with |- pre ?x -> _ => generalize x end. clear v.
  change (triple pre
    (do _ <- (fun v => if isGLInteropActive (m_context v)
                       then resizeFrameBufferGLInterop host w h v
                       else resizeFrameBufferStandard host w h v);
     do status <- get (ask host getM3dViewFromModelPanel);
     if failed status then ret status else
     do status <- get (ask host getCamera);
     if failed status then ret status else
     do valid <- get (ask host cameraPathIsValid);
     do _ <- (if valid then sdk_call host CtxSetCamera else ret tt);
     do _ <- lift (log CtxSetDirty);
     ret kSuccess) (fun _ => post) (fun _ => thrown)).
  apply (triple_bind _ _ _ (fun _ => post)); [exact Hfb|intros _].
  apply (triple_bind _ _ _ (fun _ => post)); [apply triple_get; auto|intros status].
  destruct (failed status); [apply (triple_ret status (fun _ => post))|].
  apply (triple_bind _ _ _ (fun _ => post)); [apply triple_get; auto|intros status'].
  destruct (failed status'); [apply (triple_ret status' (fun _ => post))|].
  apply (triple_bind _ _ _ (fun _ => post)); [apply triple_get; auto|intros valid].
  apply (triple_bind _ _ _ (fun _ => post)).
  { destruct valid; [apply triple_sdk_call; auto|apply (triple_ret tt (fun _ => post))]. }
  intros _. apply (triple_bind _ _ _ (fun _ => post)); [apply triple_lift; auto|intros _].
  apply (triple_ret kSuccess (fun _ => post)).
Qed.

End Triples.

(** ** A standard resize *)

Section StandardResize.

Variable host : Host.
Variables w h : Z.

Lemma triple_resizeFrameBufferStandard (n : nat) (w0 h0 : Z) :
  triple (fun v => shape v = (n, w0, h0, false))
         (resizeFrameBufferStandard host w h)
         (fun _ v => shape v = resized_shape w h)
         (fun _ v => (length (m_pixels v) = n /\ isGLInteropActive (m_context v) = false)
                     \/ shape v = resized_shape w h).
Proof.
  unfold resizeFrameBufferStandard.
  apply (triple_bind _ _ _ (fun _ v => shape v = (n, w0, h0, false))).
  { apply triple_sdk_call.
    - intros v Hv _. exact Hv.
    - intros v ex Hv _. left. unfold shape in Hv. injection Hv as Hn _ _ Hgl.
      split; assumption. }
  intros _. apply (triple_bind _ _ _ (fun _ v => shape v = (n, w, h, false))).
  { apply triple_lift. intros v Hv. unfold shape in *. injection Hv as Hn _ _ Hgl.
    cbn [contextResized set_size set_m_context m_pixels m_context width height
         isGLInteropActive].
    rewrite Hn, Hgl. reflexivity. }
  intros _. apply (triple_bind _ _ _ (fun _ v => shape v = resized_shape w h)).
  { intros v Hv. unfold resizePixels. unfold shape in Hv. injection Hv as Hn Hw Hh Hgl.
    destruct (ask host pixelsResizeThrows v).
    - left. split; assumption.
    - unfold shape, resized_shape. cbn [set_m_pixels m_pixels m_context].
      rewrite length_resize, Hw, Hh, Hgl. reflexivity. }
  intros _. apply (triple_bind _ _ _ (fun _ v => shape v = resized_shape w h)).
  { apply (triple_consequence _ _ _ _ _ _ _
             (triple_preserves _ _ (shape_readFrameBuffer host (resized_shape w h) None)));
      [intros v Hv; exact Hv|intros _ v Hv; exact Hv|intros _ v Hv; right; exact Hv]. }
  intros _. apply triple_lift. intros v Hv.
  apply (shape_updateTexture host (resized_shape w h)), Hv.
Qed.

Lemma triple_resize_try_standard (n : nat) (w0 h0 : Z) :
  triple (fun v => shape v = (n, w0, h0, false))
         (resize_try host w h)
         (fun _ v => shape v = resized_shape w h)
         (fun _ v => (length (m_pixels v) = n /\ isGLInteropActive (m_context v) = false)
                     \/ shape v = resized_shape w h).
Proof.
  pose (pre := fun v => shape v = (n, w0, h0, false)).
  pose (post := fun v => shape v = resized_shape w h).
  pose (thrown := fun v => (length (m_pixels v) = n /\ isGLInteropActive (m_context v) = false)
                           \/ shape v = resized_shape w h).
  assert (Hlog : forall e v, post v -> post (log e v)) by (intros e v H; exact H).
  assert (Hweak : forall v, post v -> thrown v) by (intros v H; right; exact H).
  assert (Hfb : triple pre
                  (fun v => if isGLInteropActive (m_context v)
                            then resizeFrameBufferGLInterop host w h v
                            else resizeFrameBufferStandard host w h v)
                  (fun _ => post) (fun _ => thrown)).
  { intros v Hv. assert (Hgl : isGLInteropActive (m_context v) = false)
      by (unfold pre, shape in Hv; congruence).
    rewrite Hgl. apply (triple_resizeFrameBufferStandard n w0 h0 v Hv). }
  pose proof (triple_resize_try host w h pre post thrown Hlog Hweak Hfb) as Htry.
  intros v Hv. apply Htry.
  assert (Hrel : pre (releaseTexture (set_m_textureCache ∅ v))).
  { unfold pre, releaseTexture. cbn [m_texture set_m_textureCache].
    destruct (m_texture v); exact Hv. }
  destruct (ask host isFirstIterationAndShadersNOTCached _); exact Hrel.
Qed.

(** What a standard [resize] leaves: both sizes new, or the buffer as it
    was and a recorded failure. *)
Lemma resize_standard_cases (v : Viewport) :
  isGLInteropActive (m_context v) = false ->
  shape (snd (resize host w h v)) = resized_shape w h
  \/ (length (m_pixels (snd (resize host w h v))) = length (m_pixels v)
      /\ isGLInteropActive (m_context (snd (resize host w h v))) = false
      /\ fst (resize host w h v) = Ret kFailure
      /\ is_Some (m_error (snd (resize host w h v)))).
Proof.
  intros Hgl.
  pose proof (triple_resize_try_standard (length (m_pixels v)) (width (m_context v))
                (height (m_context v)) v) as H.
  unfold resize, try_catch.
  destruct (resize_try host w h v) as [[status|e] v1].
  - left. apply H. unfold shape. rewrite Hgl. reflexivity.
  - destruct H as [[Hlen Hgl1]|Hnew]; [unfold shape; rewrite Hgl; reflexivity| |].
    + right. split; [exact Hlen|]. split; [exact Hgl1|]. split; [reflexivity|].
      cbn. eauto.
    + left. exact Hnew.
Qed.

(** X6. Without GL interop, [resize] either brings both the context and
    the pixel buffer to the new size, or leaves the buffer with the length
    it had, records the error and answers [kFailure].  So a [resize] that
    leaves no error recorded has resized both. *)
Theorem resize_standard_resizes_or_fails (v : Viewport) :
  isGLInteropActive (m_context v) = false ->
  let '(result, v') := resize host w h v in
  ((length (m_pixels v') = Z.to_nat (u32 (w * h))
    /\ width (m_context v') = w /\ height (m_context v') = h)
   \/ (length (m_pixels v') = length (m_pixels v)
       /\ result = Ret kFailure /\ is_Some (m_error v')))
  /\ (m_error v' = None ->
      length (m_pixels v') = Z.to_nat (u32 (w * h))
      /\ width (m_context v') = w /\ height (m_context v') = h).
Proof.
  intros Hgl. pose proof (resize_standard_cases v Hgl) as H.
  destruct (resize host w h v) as [result v']. cbn [fst snd] in H.
  unfold shape, resized_shape in H.
  destruct H as [H|(Hlen & _ & Hr & He)].
  - injection H as Hn Hw Hh _. split; [left|]; auto.
  - split; [right; auto|]. intros Hnone. rewrite Hnone in He.
    destruct He as [e He]. discriminate.
Qed.

End StandardResize.

(** A buffer that cannot grow: the context is resized, the buffer is
    not, and the failure is recorded. *)
Lemma resize_standard_resizes_or_fails_witness :
  let host :=
    {| isPlaying := fun _ => false; isScrubbing := fun _ => false;
       gExitingMaya := fun _ => false; dialogShown := fun _ => false;
       outputTargetSize := fun _ => (kSuccess, (8, 8));
       acquireTexture := fun _ => None;
       textureDescription := fun _ => mkDesc 8 8 1 128 1024 kR32G32B32A32_FLOAT;
       textureUpdate := fun _ => kSuccess;
       cameraAttributeChanged := fun _ => false; needsRedraw := fun _ => false;
       keepRenderRunning := fun _ => false;
       isFirstIterationAndShadersNOTCached := fun _ => false;
       isDirty := fun _ => false; GetStateHash := fun _ => 0%N;
       sdkThrows := never_throws;
       frameBufferPixels := fun _ => [];
       getM3dViewFromModelPanel := fun _ => kSuccess; getCamera := fun _ => kSuccess;
       cameraPathIsValid := fun _ => true; IsThreadRunning := fun _ => false;
       waitSpins := fun _ => 0%nat; isRunningAfterWait := fun _ => false;
       pixelsResizeThrows := fun _ => Some (Exception "bad_alloc") |} in
  let v := sample_viewport false false StateRendering 4 2 in
  fst (resize host 8 8 v) = Ret kFailure
  /\ length (m_pixels (snd (resize host 8 8 v))) = 8%nat
  /\ width (m_context (snd (resize host 8 8 v))) = 8
  /\ is_Some (m_error (snd (resize host 8 8 v))).
Proof.
  cbv zeta.
  match goal with
  | |- fst (resize ?host 8 8 ?v) = _ /\ _ =>
      pose proof (resize_standard_resizes_or_fails host 8 8 v eq_refl) as H;
      destruct (resize host 8 8 v) as [result v'] eqn:Hrun
  end.
  cbn [fst snd]. destruct H as [[(Hlen & _)|(Hlen & Hr & He)] _].
  - exfalso. apply (f_equal (fun r => length (m_pixels (snd r)))) in Hrun.
    cbn [snd] in Hrun. rewrite Hlen in Hrun. vm_compute in Hrun. discriminate.
  - split; [exact Hr|]. split; [exact Hlen|]. split; [|exact He].
    apply (f_equal (fun r => width (m_context (snd r)))) in Hrun.
    cbn [snd] in Hrun. rewrite <- Hrun. reflexivity.
Defined.

(** ** The buffer fits the context *)

Section Steps.

Variable FRMAYA_GL_MAX_TEXTURE_SIZE : Z.
Variable host : Host.
Variable I : Viewport -> Prop.

(** What [doSetup] and [setup] keep, given that their steps keep it. *)
Hypothesis I_limits : forall animating v, I v -> I (log (CtxUpdateLimits animating) v).
Hypothesis I_stop : forall v, I v -> I (snd (stop host v)).
Hypothesis I_start : forall v, I v -> I (snd (start host v)).
Hypothesis I_resize : forall w h, preserves I (resize host w h).
Hypothesis I_refreshContext : preserves I (refreshContext host).
Hypothesis I_renderCached : forall w h, preserves I (renderCached host w h).


Hypothesis I_updateTexture : forall data w h v, I v -> I (snd (updateTexture host data w h v)).


End Steps.

Section BufferFits.

Variable FRMAYA_GL_MAX_TEXTURE_SIZE : Z.
Variable host : Host.









End BufferFits.


(** ** resize with GL interop *)

Section GLResize.

Variable host : Host.
Variables w h : Z.

Let black : list RV_PIXEL := replicate (Z.to_nat (u32 (w * h))) opaque_black.

Lemma updateTexture_fresh (data : list RV_PIXEL) (v : Viewport) :
  m_texture v = None ->
  m_textureChanged (snd (updateTexture host data w h v)) = true.
Proof. intros Htex. unfold updateTexture. rewrite Htex. reflexivity. Qed.

Lemma updateTexture_frame (data : list RV_PIXEL) (v : Viewport) :
  m_pixels (snd (updateTexture host data w h v)) = m_pixels v
  /\ m_context (snd (updateTexture host data w h v)) = m_context v.
Proof.
  apply (preserves_updateTexture
           (fun x => m_pixels x = m_pixels v /\ m_context x = m_context v));
    try (intros; assumption). auto.
Qed.

Lemma clearPixels_black (v : Viewport) :
  length (m_pixels v) = Z.to_nat (u32 (w * h)) -> m_pixels (clearPixels v) = black.
Proof.
  intros Hlen. unfold clearPixels, black, opaque_black.
  cbn [m_pixels set_m_pixels]. rewrite Hlen. reflexivity.
Qed.

Section From.

(** The pixels and the size [resize] starts from. *)
Variable p0 : list RV_PIXEL.
Variable s0 : Z * Z.

(** The buffer could not grow: nothing of the frame has changed. *)
Let refused (v : Viewport) : Prop :=
  m_pixels v = p0 /\ frame_size v = s0 /\ m_texture v = None.

(** The buffer is cleared; the context has the new size only with a
    texture. *)
Let cleared (v : Viewport) : Prop :=
  m_pixels v = black /\ m_textureChanged v = true
  /\ ((frame_size v = (w, h) /\ is_Some (m_texture v))
      \/ (frame_size v = s0 /\ m_texture v = None)).

(** ... or an exception has cut the resize short. *)
Let interrupted (v : Viewport) : Prop :=
  m_pixels v = black /\ m_textureChanged v = true
  /\ ((frame_size v = (w, h) /\ is_Some (m_texture v)) \/ frame_size v = s0).

Lemma triple_resizeFrameBufferGLInterop :
  triple refused (resizeFrameBufferGLInterop host w h)
         (fun _ => cleared) (fun _ v => refused v \/ interrupted v).
Proof.
  unfold resizeFrameBufferGLInterop.
  apply (triple_bind _ _ _
           (fun _ v => length (m_pixels v) = Z.to_nat (u32 (w * h))
                       /\ frame_size v = s0 /\ m_texture v = None)).
  { intros v (Hp & Hs & Htex). unfold resizePixels.
    destruct (ask host pixelsResizeThrows v).
    - left. repeat split; assumption.
    - cbn [set_m_pixels m_pixels]. rewrite length_resize. repeat split; assumption. }
  intros _ v (Hlen & Hs & Htex).
  unfold bind at 1, lift at 1. unfold bind at 1, lift at 1.
  set (v5 := clearPixels v).
  assert (H5 : m_texture v5 = None) by exact Htex.
  destruct (updateTexture_frame (m_pixels v5) v5) as [Hpx Hctx].
  pose proof (updateTexture_fresh (m_pixels v5) v5 H5) as Hchanged.
  assert (Hsize : frame_size (snd (updateTexture host (m_pixels v5) w h v5)) = s0)
    by (unfold frame_size; rewrite Hctx; exact Hs).
  assert (Hblack : m_pixels (snd (updateTexture host (m_pixels v5) w h v5)) = black)
    by (rewrite Hpx; apply clearPixels_black, Hlen).
  clear Hpx Hctx. revert Hblack Hchanged Hsize.
  generalize (snd (updateTexture host (m_pixels v5) w h v5)). clear.
  intros v Hblack Hchanged Hsize. destruct (m_texture v) as [tex|] eqn:Htex.
  - unfold bind, sdk_call, lift. cbv zeta.
    destruct (ask host sdkThrows (log (CtxResize w h (Some tex)) v)) as [ex|].
    + right. split; [exact Hblack|]. split; [exact Hchanged|]. right. exact Hsize.
    + split; [exact Hblack|]. split; [exact Hchanged|]. left.
      split; [reflexivity|]. cbn. rewrite Htex. eauto.
  - split; [exact Hblack|]. split; [exact Hchanged|]. right. auto.
Qed.

Lemma triple_resize_try_gl :
  triple (fun v => isGLInteropActive (m_context v) = true
                   /\ m_pixels v = p0 /\ frame_size v = s0)
         (resize_try host w h)
         (fun _ => cleared) (fun _ v => refused v \/ interrupted v).
Proof.
  pose (pre := fun v => isGLInteropActive (m_context v) = true /\ refused v).
  assert (Hweak : forall v, cleared v -> refused v \/ interrupted v).
  { intros v (Hb & Hc & Hor). right. split; [exact Hb|]. split; [exact Hc|].
    destruct Hor as [Hnew|[Hold Htex]]; auto. }
  assert (Hlog : forall e v, cleared v -> cleared (log e v)) by (intros e v H; exact H).
  assert (Hfb : triple pre
                  (fun v => if isGLInteropActive (m_context v)
                            then resizeFrameBufferGLInterop host w h v
                            else resizeFrameBufferStandard host w h v)
                  (fun _ => cleared) (fun _ v => refused v \/ interrupted v)).
  { intros v [Hgl Hv]. rewrite Hgl. apply (triple_resizeFrameBufferGLInterop v Hv). }
  pose proof (triple_resize_try host w h pre cleared (fun v => refused v \/ interrupted v)
                Hlog Hweak Hfb) as Htry.
  intros v (Hgl & Hp & Hs). apply Htry.
  assert (Hrel : pre (releaseTexture (set_m_textureCache ∅ v))).
  { unfold pre, refused, releaseTexture. cbn [m_texture set_m_textureCache].
    destruct (m_texture v) eqn:Htex; auto. }
  destruct (ask host isFirstIterationAndShadersNOTCached _); exact Hrel.
Qed.

End From.

(** X9. With GL interop, [resize] never throws.  Either the buffer and
    the size of the context are as they were, no texture is held and the
    failure is recorded (the buffer could not be allocated); or the
    buffer is [u32 (w * h)] opaque black pixels and the texture is marked
    as changed: the context then has the new size and a texture is held,
    or it has its old size and either no texture is held or the failure
    is recorded. *)
Theorem resize_gl_interop (v : Viewport) :
  isGLInteropActive (m_context v) = true ->
  let '(result, v') := resize host w h v in
  exists status,
    result = Ret status
    /\ ((m_pixels v' = m_pixels v /\ frame_size v' = frame_size v /\ m_texture v' = None
         /\ status = kFailure /\ is_Some (m_error v'))
        \/ (m_pixels v' = replicate (Z.to_nat (u32 (w * h))) opaque_black
            /\ m_textureChanged v' = true
            /\ ((frame_size v' = (w, h) /\ is_Some (m_texture v'))
                \/ (frame_size v' = frame_size v
                    /\ (m_texture v' = None
                        \/ (status = kFailure /\ is_Some (m_error v'))))))).
Proof.
  intros Hgl.
  pose proof (triple_resize_try_gl (m_pixels v) (frame_size v) v
                (conj Hgl (conj eq_refl eq_refl))) as H.
  unfold resize, try_catch.
  destruct (resize_try host w h v) as [[status|e] v1].
  - exists status. split; [reflexivity|]. right.
    destruct H as (Hb & Hc & Hor). split; [exact Hb|]. split; [exact Hc|].
    destruct Hor as [Hnew|[Hold Htex]]; auto.
  - exists kFailure. split; [reflexivity|].
    assert (Herr : is_Some (m_error (snd (catch_to_error e v1)))) by (cbn; eauto).
    destruct H as [(Hp & Hs & Htex)|(Hb & Hc & Hor)].
    + left. repeat split; assumption.
    + right. split; [exact Hb|]. split; [exact Hc|].
      destruct Hor as [Hnew|Hold]; [left; exact Hnew|right].
      split; [exact Hold|]. right. split; [reflexivity|exact Herr].
Qed.

End GLResize.

Lemma resize_gl_interop_witness :
  let '(result, v') :=
    resize (scripted_host false false false false (kSuccess, (2, 2)) 0 (Some 1%positive)
                          never_throws) 2 2
           (sample_viewport false true StateRendering 4 2) in
  exists status,
    result = Ret status
    /\ ((m_pixels v' = m_pixels (sample_viewport false true StateRendering 4 2)
         /\ frame_size v' = frame_size (sample_viewport false true StateRendering 4 2)
         /\ m_texture v' = None
         /\ status = kFailure /\ is_Some (m_error v'))
        \/ (m_pixels v' = replicate (Z.to_nat (u32 (2 * 2))) opaque_black
            /\ m_textureChanged v' = true
            /\ ((frame_size v' = (2, 2) /\ is_Some (m_texture v'))
                \/ (frame_size v' = frame_size (sample_viewport false true StateRendering 4 2)
                    /\ (m_texture v' = None
                        \/ (status = kFailure /\ is_Some (m_error v'))))))).
Proof.
  apply (resize_gl_interop
           (scripted_host false false false false (kSuccess, (2, 2)) 0 (Some 1%positive)
                          never_throws) 2 2
           (sample_viewport false true StateRendering 4 2)).
  reflexivity.
Defined.

(** ** One turn of the render thread *)

Section ThreadStep.

Variable host : Host.
Variable v0 : Viewport.

Hypothesis budget : 0 <= m_renderingErrors v0 <= 3.







End ThreadStep.



(** ** The shader-cache warning dialog *)

Section Dialog.

Variable host : Host.
Variables w h : Z.

Lemma resize_dialog_flags (show close : bool) (v : Viewport) :
  let v1 := releaseTexture (set_m_textureCache ∅ v) in
  (if ask host isFirstIterationAndShadersNOTCached v1
   then show = true /\ close = false
   else show = m_showDialogNeeded v /\ close = m_closeDialogNeeded v) ->
  m_showDialogNeeded (snd (resize host w h v)) = show
  /\ m_closeDialogNeeded (snd (resize host w h v)) = close.
Proof.
  cbv zeta. intros Hfirst.
  pose (J := fun x => m_showDialogNeeded x = show /\ m_closeDialogNeeded x = close).
  assert (Hlog : forall e x, J x -> J (log e x)) by (intros e x H; exact H).
  assert (Hfb : triple J
                  (fun v => if isGLInteropActive (m_context v)
                            then resizeFrameBufferGLInterop host w h v
                            else resizeFrameBufferStandard host w h v)
                  (fun _ => J) (fun _ => J)).
  { apply triple_preserves. intros x Hx. destruct (isGLInteropActive (m_context x)).
    - apply flag_resizeFrameBufferGLInterop; try (intros; assumption).
    - apply flag_resizeFrameBufferStandard; try (intros; assumption). }
  pose proof (triple_resize_try host w h J J J Hlog (fun x H => H) Hfb v) as Htry.
  unfold resize, try_catch.
  assert (H : match resize_try host w h v with (_, v') => J v' end).
  { destruct (resize_try host w h v) as [[status|e] v1]; apply Htry.
    all: destruct (ask host isFirstIterationAndShadersNOTCached _);
      destruct Hfirst as [-> ->]; unfold J, releaseTexture;
      cbn [m_texture set_m_textureCache]; destruct (m_texture v); split; reflexivity. }
  destruct (resize_try host w h v) as [[status|e] v1]; exact H.
Qed.

Lemma refresh_shows (any : Host) (x : Viewport) :
  m_showDialogNeeded x = true -> m_closeDialogNeeded x = false ->
  snd (refresh any x) = log DialogShow (set_m_showDialogNeeded false x).
Proof.
  intros Hshow Hclose. unfold refresh. cbv zeta. rewrite Hshow, Hclose, andb_false_r.
  reflexivity.
Qed.

Lemma refresh_quiet (any : Host) (x : Viewport) :
  m_showDialogNeeded x = false -> m_closeDialogNeeded x = false ->
  snd (refresh any x) = x.
Proof.
  intros Hshow Hclose. unfold refresh. cbv zeta. rewrite Hshow, Hclose, andb_false_r.
  reflexivity.
Qed.

(** X11. When [resize] finds the first iteration pending with no shader
    cache, it requests the warning dialog and withdraws any request to
    close it, whatever happens to the frame buffer afterwards; the next
    [refresh] then shows the dialog, once: a second [refresh] makes no
    call.  Otherwise [resize] leaves both requests as they were. *)
Theorem resize_requests_dialog_once (host' host'' : Host) (v : Viewport) :
  let v1 := snd (resize host w h v) in
  let v2 := snd (refresh host' v1) in
  let v3 := snd (refresh host'' v2) in
  if ask host isFirstIterationAndShadersNOTCached (releaseTexture (set_m_textureCache ∅ v))
  then m_showDialogNeeded v1 = true /\ m_closeDialogNeeded v1 = false
       /\ calls v2 = calls v1 ++ [DialogShow]
       /\ m_showDialogNeeded v2 = false
       /\ calls v3 = calls v2
  else m_showDialogNeeded v1 = m_showDialogNeeded v
       /\ m_closeDialogNeeded v1 = m_closeDialogNeeded v.
Proof.
  cbv zeta.
  destruct (ask host isFirstIterationAndShadersNOTCached _) eqn:Hfirst.
  - destruct (resize_dialog_flags true false v) as [Hshow Hclose].
    { cbv zeta. rewrite Hfirst. auto. }
    split; [exact Hshow|]. split; [exact Hclose|].
    rewrite (refresh_shows host' _ Hshow Hclose).
    split; [reflexivity|]. split; [reflexivity|].
    rewrite refresh_quiet; [reflexivity|reflexivity|exact Hclose].
  - apply resize_dialog_flags. cbv zeta. rewrite Hfirst. auto.
Qed.

End Dialog.

(** ** The wrappers of one SDK call *)

Section Wrappers.

Variable host : Host.

(** X12. [cameraChanged] and [refreshContext] never throw.  The camera
    change marks the context dirty only if [setCamera] has returned; the
    context is refreshed only if it is dirty; and when the SDK call
    throws, the exception it threw is recorded and the answer is
    [kFailure]. *)
Theorem wrappers_record_the_exception (v : Viewport) :
  (let '(result, v') := cameraChanged host v in
   match sdkThrows host (calls v ++ [CtxSetCamera]) with
   | None => result = Ret kSuccess
             /\ calls v' = calls v ++ [CtxSetCamera; CtxSetDirty]
             /\ m_error v' = m_error v
   | Some e => result = Ret kFailure
               /\ calls v' = calls v ++ [CtxSetCamera]
               /\ m_error v' = Some e
   end)
  /\ (let '(result, v') := refreshContext host v in
      if isDirty host (calls v) then
        match sdkThrows host (calls v ++ [CtxFreshen true]) with
        | None => result = Ret kSuccess
                  /\ calls v' = calls v ++ [CtxFreshen true]
                  /\ m_error v' = m_error v
        | Some e => result = Ret kFailure
                    /\ calls v' = calls v ++ [CtxFreshen true]
                    /\ m_error v' = Some e
        end
      else result = Ret kSuccess /\ v' = v).
Proof.
  split.
  - unfold cameraChanged, try_catch, bind, sdk_call, ask. cbv zeta.
    cbn [calls log set_calls].
    destruct (sdkThrows host (calls v ++ [CtxSetCamera])) as [e|].
    + cbn. auto.
    + cbn. rewrite <- List.app_assoc. auto.
  - unfold refreshContext, ask. destruct (isDirty host (calls v)); cbn [negb].
    + unfold try_catch, bind, sdk_call, ask. cbv zeta. cbn [calls log set_calls].
      destruct (sdkThrows host (calls v ++ [CtxFreshen true])) as [e|]; cbn; auto.
    + cbn. auto.
Qed.

End Wrappers.

(** ** The updated flag *)

Section PixelsUpdated.

Variable FRMAYA_GL_MAX_TEXTURE_SIZE : Z.
Variable host : Host.

Lemma renderCached_clears_updated (w h : Z) (v : Viewport) :
  m_pixelsUpdated (snd (renderCached host w h v)) = false.
Proof.
  unfold renderCached. unfold bind at 1, lift at 1.
  assert (H : m_pixelsUpdated (set_m_pixelsUpdated false v) = false) by reflexivity.
  revert H. generalize (set_m_pixelsUpdated false v).
  apply (preserves_try_catch (fun x => m_pixelsUpdated x = false)).
  - apply flag_renderCached_try; intros; assumption.
  - apply preserves_catch_to_error. intros; assumption.
Qed.

(** X14. [renderCached] clears the flag that says the render thread has
    delivered pixels, also when it fails; so the [setup] that follows a
    frame served from the cache does not upload the pixel buffer over
    it: it is [doSetup] alone. *)
Theorem cached_frame_is_not_overwritten (host' : Host) (w h : Z) (v : Viewport) :
  let v' := snd (renderCached host w h v) in
  m_pixelsUpdated v' = false
  /\ setup FRMAYA_GL_MAX_TEXTURE_SIZE host' v' = doSetup FRMAYA_GL_MAX_TEXTURE_SIZE host' v'.
Proof.
  cbv zeta. pose proof (renderCached_clears_updated w h v) as H.
  split; [exact H|]. unfold setup. cbv zeta. rewrite H, andb_false_r. reflexivity.
Qed.

End PixelsUpdated.

(** ** Who holds the texture *)

Section Owned.

Variable FRMAYA_GL_MAX_TEXTURE_SIZE : Z.
Variable host : Host.
Variable I : Viewport -> Prop.

(** [I] looks at the texture member and at the texture calls only. *)
Hypothesis I_quiet : forall e v,
  is_texture_write e = false -> is_texture_release e = false -> I v -> I (log e v).
Hypothesis I_isRunning : forall x v, I v -> I (set_m_isRunning x v).
Hypothesis I_useAnimationCache : forall x v, I v -> I (set_m_useAnimationCache x v).
Hypothesis I_pixelsUpdated : forall x v, I v -> I (set_m_pixelsUpdated x v).
Hypothesis I_textureChanged : forall x v, I v -> I (set_m_textureChanged x v).
Hypothesis I_showDialogNeeded : forall x v, I v -> I (set_m_showDialogNeeded x v).
Hypothesis I_closeDialogNeeded : forall x v, I v -> I (set_m_closeDialogNeeded x v).
Hypothesis I_error : forall x v, I v -> I (set_m_error x v).
Hypothesis I_renderingErrors : forall x v, I v -> I (set_m_renderingErrors x v).
Hypothesis I_pixels : forall x v, I v -> I (set_m_pixels x v).
Hypothesis I_textureCache : forall x v, I v -> I (set_m_textureCache x v).
Hypothesis I_context : forall x v, I v -> I (set_m_context x v).
Hypothesis I_updateTexture : forall data w h v,
  I v -> I (snd (updateTexture host data w h v)).
Hypothesis I_releaseTexture : forall v, I v -> I (releaseTexture v).

Ltac quiet := intros; apply I_quiet; [reflexivity|reflexivity|assumption].

Lemma owned_sdk_call (e : Event) :
  is_texture_write e = false -> is_texture_release e = false ->
  preserves I (sdk_call host e).
Proof.
  intros Hw Hr v Hv. unfold sdk_call. cbv zeta.
  destruct (ask host sdkThrows (log e v)); apply I_quiet; assumption.
Qed.

Lemma owned_catch_to_error (e : Exn) : preserves I (catch_to_error e).
Proof.
  unfold catch_to_error. apply preserves_bind; [|intros; apply preserves_ret].
  apply preserves_lift. intros v. apply I_error.
Qed.

Lemma owned_readFrameBuffer (storedFrame : option string) :
  preserves I (readFrameBuffer host storedFrame).
Proof.
  intros v Hv. unfold readFrameBuffer. destruct (isGLInteropActive (m_context v)).
  - apply owned_sdk_call; [reflexivity|reflexivity|exact Hv].
  - destruct storedFrame as [key|]; revert v Hv.
    + apply preserves_bind; [intros v; apply owned_sdk_call; reflexivity|intros _].
      apply preserves_lift. intros x Hx. apply I_textureCache, Hx.
    + apply preserves_bind; [intros v; apply owned_sdk_call; reflexivity|intros _].
      apply preserves_bind; [apply preserves_lift; intros x Hx; apply I_pixels, Hx|].
      intros _. apply preserves_lift. intros x Hx. apply I_pixelsUpdated, Hx.
Qed.

Lemma owned_RunOnViewportThread : preserves I (RunOnViewportThread host).
Proof.
  intros v Hv. unfold RunOnViewportThread.
  assert (Hsleep : forall n, I (snd ((do _ <- lift (log (SleepFor n)); ret true) v))).
  { intros n. apply I_quiet; [reflexivity|reflexivity|exact Hv]. }
  destruct (state (m_context v)); try apply Hsleep; [exact Hv|].
  destruct (renderRequired host v); [|apply Hsleep]. clear Hsleep. revert v Hv.
  apply preserves_bind; [|intros _].
  - apply preserves_try_catch.
    + unfold renderIteration.
      apply preserves_bind; [apply owned_sdk_call; reflexivity|intros _].
      apply preserves_bind;
        [apply preserves_lift; intros x Hx; apply I_closeDialogNeeded, Hx|intros _].
      apply preserves_bind; [apply owned_readFrameBuffer|intros _].
      apply preserves_lift. intros x Hx.
      destruct (0 <? _); [apply I_renderingErrors|]; exact Hx.
    + intros e. unfold renderFailed.
      apply preserves_bind; [apply preserves_lift; quiet|intros _].
      apply preserves_bind;
        [apply preserves_lift; intros x Hx; apply I_renderingErrors, Hx|intros _].
      apply preserves_bind; [apply preserves_lift; quiet|intros _].
      apply preserves_bind; [intros x Hx; exact Hx|intros n].
      destruct (3 <? n); intros x Hx; exact Hx.
  - apply preserves_bind; [apply preserves_lift; quiet|intros; apply preserves_ret].
Qed.

Lemma owned_threadStep (v : Viewport) : I v -> I (snd (threadStep host v)).
Proof.
  intros Hv. unfold threadStep. pose proof (owned_RunOnViewportThread v Hv) as H.
  destruct (RunOnViewportThread host v) as [[running|e] v']; cbn [snd] in *.
  - apply I_isRunning, H.
  - apply I_error, I_isRunning, H.
Qed.

Lemma owned_stop (v : Viewport) : I v -> I (snd (stop host v)).
Proof.
  intros Hv. unfold stop. cbv zeta.
  assert (Hspin : forall n x, I x -> I (Nat.iter n stop_spin x)).
  { induction n as [|n IH]; intros x Hx; [exact Hx|].
    rewrite Nat.iter_succ. unfold stop_spin. cbv zeta.
    apply I_quiet; [reflexivity|reflexivity|]. apply I_context.
    apply I_quiet; [reflexivity|reflexivity|]. apply IH, Hx. }
  assert (H1 : I (if m_isRunning v && ask host IsThreadRunning v
                  then set_m_isRunning
                         (ask host isRunningAfterWait
                            (Nat.iter (S (ask host waitSpins v)) stop_spin v))
                         (Nat.iter (S (ask host waitSpins v)) stop_spin v)
                  else v)).
  { destruct (_ && _); [|exact Hv]. apply I_isRunning, Hspin, Hv. }
  revert H1. match goal with |- I ?x -> _ => generalize x end. intros x Hx.
  cbn [snd]. destruct (_ && _); [|exact Hx]. apply I_quiet; [reflexivity|reflexivity|exact Hx].
Qed.

Lemma owned_start (v : Viewport) : I v -> I (snd (start host v)).
Proof.
  intros Hv. unfold start.
  assert (H1 : I (if m_isRunning v then snd (stop host v) else v))
    by (destruct (m_isRunning v); [apply owned_stop|]; exact Hv).
  destruct (_ || _); cbn [snd]; [exact H1|].
  apply I_quiet; [reflexivity|reflexivity|].
  apply I_renderingErrors, I_isRunning, I_context, H1.
Qed.

Lemma owned_cleanUp (v : Viewport) : I v -> I (cleanUp host v).
Proof.
  intros Hv. unfold cleanUp. cbv zeta.
  assert (H1 : I (log CtxCleanScene v)) by (apply I_quiet; [reflexivity|reflexivity|exact Hv]).
  pose proof (I_releaseTexture _ H1) as H2. unfold releaseTexture in H2.
  destruct (m_texture (log CtxCleanScene v)); [|exact H1].
  destruct (negb _); [exact H2|exact H1].
Qed.

Lemma owned_resize (w h : Z) : preserves I (resize host w h).
Proof.
  unfold resize. apply preserves_try_catch; [|apply owned_catch_to_error].
  unfold resize_try.
  apply preserves_bind;
    [apply preserves_lift; intros x Hx; apply I_textureCache, Hx|intros _].
  apply preserves_bind; [apply preserves_lift; exact I_releaseTexture|intros _].
  apply preserves_bind.
  { apply preserves_lift. intros x Hx.
    destruct (ask host isFirstIterationAndShadersNOTCached x); [|exact Hx].
    apply I_showDialogNeeded, I_closeDialogNeeded, Hx. }
  intros _. apply preserves_bind.
  { intros x Hx. destruct (isGLInteropActive (m_context x)); revert x Hx.
    - unfold resizeFrameBufferGLInterop.
      apply preserves_bind; [apply preserves_resizePixels; exact I_pixels|intros _].
      apply preserves_bind; [apply preserves_lift; intros x Hx; apply I_pixels, Hx|intros _].
      apply preserves_bind;
        [apply preserves_lift; intros x Hx; apply I_updateTexture, Hx|intros _].
      intros x Hx. destruct (m_texture x); [|exact Hx]. revert x Hx.
      apply preserves_bind; [apply owned_sdk_call; reflexivity|intros _].
      apply preserves_lift. intros x Hx. apply I_context, Hx.
    - unfold resizeFrameBufferStandard.
      apply preserves_bind; [apply owned_sdk_call; reflexivity|intros _].
      apply preserves_bind; [apply preserves_lift; intros x Hx; apply I_context, Hx|intros _].
      apply preserves_bind; [apply preserves_resizePixels; exact I_pixels|intros _].
      apply preserves_bind; [apply owned_readFrameBuffer|intros _].
      apply preserves_lift. intros x Hx. apply I_updateTexture, Hx. }
  intros _. apply preserves_bind; [intros x Hx; exact Hx|intros status].
  destruct (failed status); [apply preserves_ret|].
  apply preserves_bind; [intros x Hx; exact Hx|intros status'].
  destruct (failed status'); [apply preserves_ret|].
  apply preserves_bind; [intros x Hx; exact Hx|intros valid].
  apply preserves_bind;
    [destruct valid; [apply owned_sdk_call; reflexivity|apply preserves_ret]|intros _].
  apply preserves_bind; [apply preserves_lift; quiet|intros; apply preserves_ret].
Qed.

Lemma owned_refreshContext : preserves I (refreshContext host).
Proof.
  intros v. unfold refreshContext. destruct (negb _); [apply preserves_ret|].
  apply preserves_try_catch; [|apply owned_catch_to_error].
  apply preserves_bind; [apply owned_sdk_call; reflexivity|intros; apply preserves_ret].
Qed.

Lemma owned_cameraChanged : preserves I (cameraChanged host).
Proof.
  unfold cameraChanged. apply preserves_try_catch; [|apply owned_catch_to_error].
  apply preserves_bind; [apply owned_sdk_call; reflexivity|intros _].
  apply preserves_bind; [apply preserves_lift; quiet|intros; apply preserves_ret].
Qed.

Lemma owned_renderCached (w h : Z) : preserves I (renderCached host w h).
Proof.
  unfold renderCached.
  apply preserves_bind;
    [apply preserves_lift; intros x Hx; apply I_pixelsUpdated, Hx|intros _].
  apply preserves_try_catch; [|apply owned_catch_to_error].
  intros v Hv. unfold renderCached_try.
  destruct (cache_get _ _) as [frame cache]. destruct (Resize frame w h) as [resized frame'].
  set (v1 := set_m_textureCache _ v).
  assert (H1 : I v1) by (apply I_textureCache, Hv).
  assert (Hupdate : forall key, preserves I (updateFromFrame host key w h)).
  { intros key x Hx. unfold updateFromFrame.
    pose proof (I_updateTexture (frameData key x) w h x Hx) as H.
    destruct (updateTexture host (frameData key x) w h x). exact H. }
  destruct resized; revert H1; generalize v1.
  - apply preserves_bind; [apply owned_sdk_call; reflexivity|intros _].
    apply preserves_bind; [apply owned_readFrameBuffer|intros _]. apply Hupdate.
  - apply Hupdate.
Qed.

Lemma owned_doSetup : preserves I (doSetup FRMAYA_GL_MAX_TEXTURE_SIZE host).
Proof.
  intros v Hv. unfold doSetup. destruct (error_check v); [exact Hv|].
  destruct (getSize FRMAYA_GL_MAX_TEXTURE_SIZE host v) as [status0 [w h]].
  destruct (failed status0); [exact Hv|]. cbv zeta.
  generalize (animating host v && m_useAnimationCache (log (CtxUpdateLimits (animating host v)) v)
              && negb (isGLInteropActive (m_context (log (CtxUpdateLimits (animating host v)) v)))).
  intros useCache.
  set (v1 := log _ v).
  assert (H1 : I v1) by (apply I_quiet; [reflexivity|reflexivity|exact Hv]).
  set (v2 := if (_ : bool) then snd (stop host v1) else v1).
  assert (H2 : I v2) by (subst v2; destruct (_ && _); [apply owned_stop|]; exact H1).
  revert H2. generalize v2. clear v Hv v1 H1 v2.
  apply preserves_bind.
  { intros x Hx. destruct (_ || _); [apply owned_resize|]; exact Hx. }
  intros status. destruct (failed status); [apply preserves_ret|].
  apply preserves_bind; [apply owned_refreshContext|].
  intros status'. destruct (failed status'); [apply preserves_ret|].
  apply preserves_bind; [intros x Hx; exact Hx|intros err].
  destruct err; [apply preserves_ret|]. destruct useCache.
  - apply preserves_bind; [apply owned_renderCached|].
    intros status''. destruct (failed status''); apply preserves_ret.
  - apply preserves_bind; [|intros; apply preserves_ret].
    intros x Hx. destruct (negb _); [apply owned_start|]; exact Hx.
Qed.

Lemma owned_setup : preserves I (setup FRMAYA_GL_MAX_TEXTURE_SIZE host).
Proof.
  intros v Hv. unfold setup. cbv zeta. apply owned_doSetup.
  destruct (_ && _); [apply I_updateTexture|]; exact Hv.
Qed.

Lemma owned_refresh (v : Viewport) : I v -> I (snd (refresh host v)).
Proof.
  intros Hv. unfold refresh. cbv zeta. cbn [snd].
  destruct (_ && _); [apply I_quiet; [reflexivity|reflexivity|exact Hv]|].
  destruct (m_showDialogNeeded v); [|exact Hv].
  apply I_quiet; [reflexivity|reflexivity|]. apply I_showDialogNeeded, Hv.
Qed.

End Owned.

Section Discipline.

Variable FRMAYA_GL_MAX_TEXTURE_SIZE : Z.
Variable host : Host.

Lemma replay_app (past a b : list Event) (owner : option MTexture) :
  replay host past (a ++ b) owner =
  match replay host past a owner with
  | Some owner' => replay host (past ++ a) b owner'
  | None => None
  end.
Proof.
  revert past owner. induction a as [|e a IH]; intros past owner.
  - cbn [app replay]. rewrite List.app_nil_r. reflexivity.
  - assert (Hpast : forall o, replay host (past ++ [e]) (a ++ b) o =
                              match replay host (past ++ [e]) a o with
                              | Some owner' => replay host (past ++ e :: a) b owner'
                              | None => None
                              end).
    { intros o. rewrite IH, <- List.app_assoc. reflexivity. }
    cbn [app replay]. destruct e; try apply Hpast.
    + destruct owner; [reflexivity|apply Hpast].
    + destruct (bool_decide _); [apply Hpast|reflexivity].
    + destruct (bool_decide _); [apply Hpast|reflexivity].
Qed.

Lemma disciplined_quiet (e : Event) (v : Viewport) :
  is_texture_write e = false -> is_texture_release e = false ->
  disciplined host v -> disciplined host (log e v).
Proof.
  unfold disciplined. intros Hw Hr Hv. cbn [log set_calls calls m_texture].
  rewrite replay_app, Hv. destruct e; try discriminate; reflexivity.
Qed.

Lemma disciplined_updateTexture (data : list RV_PIXEL) (w h : Z) (v : Viewport) :
  disciplined host v -> disciplined host (snd (updateTexture host data w h v)).
Proof.
  unfold disciplined, updateTexture. intros Hv. destruct (m_texture v) as [tex|] eqn:Htex.
  - cbn [snd log set_calls calls m_texture]. rewrite replay_app, Hv, Htex.
    cbn [replay]. rewrite bool_decide_eq_true_2 by reflexivity. reflexivity.
  - cbv zeta. cbn [snd]. unfold ask.
    match goal with
    | |- context [match ?t with Some _ => _ | None => _ end] => destruct t eqn:Hacq
    end; cbn [log set_calls calls m_texture set_m_texture set_m_textureDesc
              set_m_textureChanged] in *;
      rewrite replay_app, Hv; cbn [replay app]; rewrite Hacq; reflexivity.
Qed.

Lemma disciplined_releaseTexture (v : Viewport) :
  disciplined host v -> disciplined host (releaseTexture v).
Proof.
  unfold disciplined, releaseTexture. intros Hv. destruct (m_texture v) as [tex|] eqn:Htex.
  - cbn [log set_calls calls m_texture set_m_texture]. rewrite replay_app, Hv.
    cbn [replay]. rewrite bool_decide_eq_true_2 by reflexivity. reflexivity.
  - rewrite Htex. exact Hv.
Qed.

End Discipline.

Section DisciplineTheorem.

Variable FRMAYA_GL_MAX_TEXTURE_SIZE : Z.
Variable host : Host.

Ltac in_order :=
  first [ exact (disciplined_quiet host)
        | exact (disciplined_updateTexture host)
        | exact (disciplined_releaseTexture host)
        | intros; assumption ].

(** X13. Every method keeps the texture calls in order and the texture
    member in step with them: a texture is acquired only while none is
    held, so none is leaked; only the held texture is updated or released,
    so none is released twice or used after its release; and the member
    is the texture the last acquisition answered, or null after a
    release. *)
Theorem texture_discipline (v : Viewport) (data : list RV_PIXEL) (w h : Z)
    (storedFrame : option string) (value : bool) :
  disciplined host v ->
  disciplined host (snd (setup FRMAYA_GL_MAX_TEXTURE_SIZE host v))
  /\ disciplined host (snd (doSetup FRMAYA_GL_MAX_TEXTURE_SIZE host v))
  /\ disciplined host (snd (resize host w h v))
  /\ disciplined host (snd (renderCached host w h v))
  /\ disciplined host (snd (refreshContext host v))
  /\ disciplined host (snd (cameraChanged host v))
  /\ disciplined host (snd (refresh host v))
  /\ disciplined host (snd (readFrameBuffer host storedFrame v))
  /\ disciplined host (snd (updateTexture host data w h v))
  /\ disciplined host (snd (hasTextureChanged v))
  /\ disciplined host (snd (RunOnViewportThread host v))
  /\ disciplined host (snd (threadStep host v))
  /\ disciplined host (snd (start host v))
  /\ disciplined host (snd (stop host v))
  /\ disciplined host (setUseAnimationCache value v)
  /\ disciplined host (clearTextureCache v)
  /\ disciplined host (cleanUp host v)
  /\ disciplined host (destructor host v).
Proof.
  intros Hv.
  split; [apply owned_setup; in_order|].
  split; [apply owned_doSetup; in_order|].
  split; [apply owned_resize; in_order|].
  split; [apply owned_renderCached; in_order|].
  split; [apply owned_refreshContext; in_order|].
  split; [apply owned_cameraChanged; in_order|].
  split; [apply owned_refresh; in_order|].
  split; [apply owned_readFrameBuffer; in_order|].
  split; [apply disciplined_updateTexture, Hv|].
  split; [exact Hv|].
  split; [apply owned_RunOnViewportThread; in_order|].
  split; [apply owned_threadStep; in_order|].
  split; [apply owned_start; in_order|].
  split; [apply owned_stop; in_order|].
  split; [apply disciplined_quiet; [reflexivity|reflexivity|exact Hv]|].
  split; [apply disciplined_quiet; [reflexivity|reflexivity|exact Hv]|].
  split; [apply owned_cleanUp; in_order|].
  unfold destructor. apply owned_cleanUp; try in_order. apply owned_stop; in_order.
Qed.

End DisciplineTheorem.

(** A release that follows a release is out of order, whatever the host. *)
Example second_release_is_out_of_order (host : Host) (tex : MTexture)
    (desc : MTextureDescription) (data : list RV_PIXEL) :
  replay host [] [TexAcquire desc data; TexRelease tex; TexRelease tex] None = None.
Proof.
  cbn [replay app]. destruct (bool_decide _); reflexivity.
Qed.

Lemma texture_discipline_witness :
  let host := scripted_host true false false false (kSuccess, (2, 2)) 7 (Some 1%positive)
                            never_throws in
  let v := sample_viewport false false StateRendering 4 2 in
  disciplined host (snd (setup 16384 host v))
  /\ disciplined host (snd (doSetup 16384 host v))
  /\ disciplined host (snd (resize host 2 2 v))
  /\ disciplined host (snd (renderCached host 2 2 v))
  /\ disciplined host (snd (refreshContext host v))
  /\ disciplined host (snd (cameraChanged host v))
  /\ disciplined host (snd (refresh host v))
  /\ disciplined host (snd (readFrameBuffer host None v))
  /\ disciplined host (snd (updateTexture host [] 2 2 v))
  /\ disciplined host (snd (hasTextureChanged v))
  /\ disciplined host (snd (RunOnViewportThread host v))
  /\ disciplined host (snd (threadStep host v))
  /\ disciplined host (snd (start host v))
  /\ disciplined host (snd (stop host v))
  /\ disciplined host (setUseAnimationCache true v)
  /\ disciplined host (clearTextureCache v)
  /\ disciplined host (cleanUp host v)
  /\ disciplined host (destructor host v).
Proof.
  cbv zeta.
  apply (texture_discipline 16384
           (scripted_host true false false false (kSuccess, (2, 2)) 7 (Some 1%positive)
                          never_throws)
           (sample_viewport false false StateRendering 4 2) [] 2 2 None true).
  reflexivity.
Defined.

(** ** The life of the instances *)

Section InstancerLife.

Import InstancerMASH.
Import InstancerMASHMore.

Variable double : Type.
Variables d_zero d_one : double.
Variable deg2rad : double -> double.
Variable MMatrix : Type.
Variable mmul : MMatrix -> MMatrix -> MMatrix.
Variable asMatrix : MTransformationMatrix double -> MMatrix.
Variable scene : Scene double.

Local Abbreviation Freshen :=
  (Freshen double d_zero d_one deg2rad MMatrix mmul asMatrix scene).
Local Abbreviation placement :=
  (placement double d_zero d_one deg2rad MMatrix mmul asMatrix scene).
Local Abbreviation GetTransformMatrices :=
  (GetTransformMatrices double d_zero d_one deg2rad MMatrix asMatrix scene).
Local Abbreviation count := (GetInstanceCount double scene).
Local Abbreviation targets := (GetTargetObjects double scene).
Local Abbreviation objects := (m_instancedObjects MMatrix).
Local Abbreviation cachedSize := (m_instancedObjectsCachedSize MMatrix).
Local Abbreviation OnPlugDirty := (OnPlugDirty double MMatrix scene).
Local Abbreviation ShouldBeRecreated := (ShouldBeRecreated double MMatrix scene).
Local Abbreviation generate :=
  (fun first objs => foldl (fun m j => <[j := newInstance MMatrix first]> m) objs
                           (seq 0 (Z.to_nat count))).

(** [GenerateInstances] writes a fresh instance at every index below the
    count and leaves the others alone. *)
Lemma generated_lookup (first : MObject) (n : nat) (objs : gmap nat (Instance MMatrix))
    (i : nat) :
  foldl (fun m j => <[j := newInstance MMatrix first]> m) objs (seq 0 n) !! i
  = if decide (i < n)%nat then Some (newInstance MMatrix first) else objs !! i.
Proof.
  induction n as [|n IH]; [reflexivity|].
  rewrite seq_S, foldl_app. cbn [foldl Nat.add].
  destruct (decide (i = n)) as [->|Hne].
  - rewrite lookup_insert_eq. destruct (decide (n < S n)%nat); [reflexivity|lia].
  - rewrite lookup_insert_ne by congruence. rewrite IH.
    destruct (decide (i < n)%nat), (decide (i < S n)%nat); try reflexivity; lia.
Qed.

(** With every instance in place, or none, [Freshen] places the
    instances below the count and touches no other. *)
Lemma Freshen_ready (st : Instancer MMatrix) (first : MObject) (rest : list MObject) :
  targets = first :: rest ->
  count < 2 ^ 32 ->
  objects st = ∅ \/ filled MMatrix count st ->
  exists base objs,
    base = (if bool_decide (objects st = ∅) then generate first (objects st) else objects st)
    /\ Freshen st = (mkInstancer MMatrix objs count, None)
    /\ (forall i, (i < Z.to_nat count)%nat ->
          exists o, base !! i = Some o
                    /\ objs !! i = Some (place MMatrix (placement first i) o))
    /\ (forall j, ~ (j < Z.to_nat count)%nat -> objs !! j = base !! j).
Proof.
  intros Htargets Hsmall Hobjs.
  unfold InstancerMASH.Freshen. rewrite Htargets.
  set (n := Z.to_nat count).
  set (base := if bool_decide (objects st = ∅) then generate first (objects st)
               else objects st).
  assert (Hstep : (if bool_decide (objects st = ∅)
                   then GenerateInstances double MMatrix scene st
                   else (st, None))
                  = (mkInstancer MMatrix base (cachedSize st), @None Exn)).
  { unfold base, GenerateInstances. rewrite Htargets.
    destruct (bool_decide (objects st = ∅)); [reflexivity|].
    destruct st; reflexivity. }
  rewrite Hstep. cbn [m_instancedObjects m_instancedObjectsCachedSize].
  assert (Hpresent : forall i, (i < n)%nat -> is_Some (base !! i)).
  { intros i Hi. unfold base. destruct (bool_decide (objects st = ∅)) eqn:Hempty.
    - apply generated_instances. exact Hi.
    - apply bool_decide_eq_false in Hempty.
      destruct Hobjs as [Hobjs|Hobjs]; [contradiction|apply Hobjs, Hi]. }
  destruct (freshenLoop_places MMatrix mmul
              (asMatrix (targetNodeMatrix double d_zero scene first))
              (asMatrix (instancerTransformation double scene))
              GetTransformMatrices (seq 0 n) base)
    as (objs & Hrun & Hplaced & Hother).
  { apply NoDup_seq. }
  { intros i Hi. apply elem_of_seq in Hi. split.
    - rewrite GetTransformMatrices_lookup by (unfold n in *; lia). eauto.
    - apply Hpresent. lia. }
  rewrite Hrun. exists base, objs. split; [reflexivity|]. split; [reflexivity|]. split.
  - intros i Hi. destruct (Hplaced i) as (m & o & Hm & Ho & Hres).
    { apply elem_of_seq. lia. }
    rewrite GetTransformMatrices_lookup in Hm by (unfold n in *; lia).
    inversion Hm; subst m. exists o. split; [exact Ho|exact Hres].
  - intros j Hj. apply Hother. intros Hin. apply elem_of_seq in Hin. lia.
Qed.

Lemma Freshen_ready_filled (st : Instancer MMatrix) (first : MObject) (rest : list MObject) :
  targets = first :: rest ->
  count < 2 ^ 32 ->
  objects st = ∅ \/ filled MMatrix count st ->
  exists st', Freshen st = (st', None) /\ cachedSize st' = count /\ filled MMatrix count st'.
Proof.
  intros Htargets Hsmall Hobjs.
  destruct (Freshen_ready st first rest Htargets Hsmall Hobjs)
    as (base & objs & _ & Hrun & Hplaced & _).
  eexists. split; [exact Hrun|]. split; [reflexivity|].
  intros i Hi. destruct (Hplaced i Hi) as (o & _ & Ho). cbn [m_instancedObjects].
  rewrite Ho. eauto.
Qed.

Lemma ShouldBeRecreated_false (st : Instancer MMatrix) :
  ShouldBeRecreated st = false -> count = cachedSize st /\ targets <> [].
Proof.
  unfold InstancerMASHMore.ShouldBeRecreated. intros H.
  apply orb_false_iff in H as [Hcount Htargets].
  apply negb_false_iff, bool_decide_eq_true in Hcount.
  apply bool_decide_eq_false in Htargets. auto.
Qed.

(** X16. Between plug-dirty callbacks and [Freshen], the instances are
    either all gone or all there for the remembered count.  From such a
    state, and with a count that fits 32 bits, [OnPlugDirty] followed by
    [Freshen] in the same scene never throws, and with a target object it
    leaves an instance at every index below the count, which it
    remembers. *)
Theorem Freshen_after_OnPlugDirty (st : Instancer MMatrix) :
  count < 2 ^ 32 ->
  consistent MMatrix st ->
  let '(st1, _, dirty) := OnPlugDirty st in
  dirty = true
  /\ consistent MMatrix st1
  /\ exists st2,
       Freshen st1 = (st2, None)
       /\ consistent MMatrix st2
       /\ (targets <> [] -> cachedSize st2 = count /\ filled MMatrix count st2).
Proof.
  intros Hsmall Hst. unfold InstancerMASHMore.OnPlugDirty.
  assert (Hgo : forall st1, consistent MMatrix st1 ->
            (objects st1 = ∅ \/ (targets <> [] -> filled MMatrix count st1)) ->
            exists st2, Freshen st1 = (st2, None)
                        /\ consistent MMatrix st2
                        /\ (targets <> [] -> cachedSize st2 = count
                                             /\ filled MMatrix count st2)).
  { intros st1 Hcons Hready. destruct targets as [|first rest] eqn:Htargets.
    - exists st1. unfold InstancerMASH.Freshen. rewrite Htargets.
      split; [reflexivity|]. split; [exact Hcons|]. intros H. contradiction.
    - destruct (Freshen_ready_filled st1 first rest Htargets Hsmall)
        as (st2 & Hrun & Hsize & Hfilled).
      { destruct Hready as [Hempty|Hfilled]; [left; exact Hempty|].
        right. apply Hfilled. discriminate. }
      exists st2. split; [exact Hrun|]. split; [|auto].
      right. rewrite Hsize. exact Hfilled. }
  destruct (ShouldBeRecreated st) eqn:Hre.
  - split; [reflexivity|]. split; [left; reflexivity|].
    apply Hgo; left; reflexivity.
  - split; [reflexivity|]. split; [exact Hst|].
    apply ShouldBeRecreated_false in Hre as [Hcount Htargets].
    apply Hgo; [exact Hst|]. destruct Hst as [Hempty|Hfilled]; [left; exact Hempty|].
    right. intros _. rewrite Hcount. exact Hfilled.
Qed.

(** X17. [OnPlugDirty] always marks the node dirty and never forgets the
    remembered count.  Each instance is either kept, or dropped and
    hidden: none is dropped while visible.  A second callback in the same
    scene changes nothing and hides nothing. *)
Theorem OnPlugDirty_hides_what_it_drops (st : Instancer MMatrix) :
  let '(st1, hidden, dirty) := OnPlugDirty st in
  dirty = true
  /\ cachedSize st1 = cachedSize st
  /\ (forall i,
        (objects st1 !! i = objects st !! i /\ hidden !! i = None)
        \/ (objects st1 !! i = None
            /\ hidden !! i = hide MMatrix <$> objects st !! i
            /\ (forall o, hidden !! i = Some o -> visible MMatrix o = false)))
  /\ OnPlugDirty st1 = (st1, ∅, true).
Proof.
  unfold InstancerMASHMore.OnPlugDirty. destruct (ShouldBeRecreated st) eqn:Hre.
  - split; [reflexivity|]. split; [reflexivity|]. split.
    + intros i. right. cbn [m_instancedObjects]. rewrite lookup_empty, lookup_fmap.
      split; [reflexivity|]. split; [reflexivity|].
      intros o Ho. destruct (objects st !! i); inversion Ho. reflexivity.
    + assert (Hsame : ShouldBeRecreated (mkInstancer MMatrix ∅ (cachedSize st)) = true)
        by exact Hre.
      rewrite Hsame. cbn [m_instancedObjects m_instancedObjectsCachedSize].
      rewrite fmap_empty. reflexivity.
  - split; [reflexivity|]. split; [reflexivity|]. split.
    + intros i. left. split; [reflexivity|apply lookup_empty].
    + rewrite Hre. reflexivity.
Qed.

(** X19. [Freshen] settles: after a [Freshen] that found every instance
    in place (or none), a plug-dirty callback in the same scene drops
    nothing, and a second [Freshen] gives every instance the transform it
    already has and rebuilds it once more. *)
Theorem Freshen_settles (st : Instancer MMatrix) (first : MObject) (rest : list MObject) :
  targets = first :: rest ->
  count < 2 ^ 32 ->
  objects st = ∅ \/ filled MMatrix count st ->
  exists st1 st2,
    Freshen st = (st1, None)
    /\ OnPlugDirty st1 = (st1, ∅, true)
    /\ Freshen st1 = (st2, None)
    /\ cachedSize st2 = count
    /\ forall i, (i < Z.to_nat count)%nat ->
         exists o1 o2,
           objects st1 !! i = Some o1 /\ objects st2 !! i = Some o2
           /\ selfTransform MMatrix o1 = Some (placement first i)
           /\ selfTransform MMatrix o2 = selfTransform MMatrix o1
           /\ rebuilds MMatrix o2 = S (rebuilds MMatrix o1)
           /\ source MMatrix o2 = source MMatrix o1.
Proof.
  intros Htargets Hsmall Hobjs.
  destruct (Freshen_ready st first rest Htargets Hsmall Hobjs)
    as (base & objs1 & _ & Hrun1 & Hplaced1 & _).
  set (st1 := mkInstancer MMatrix objs1 count) in *.
  assert (Hfilled : filled MMatrix count st1).
  { intros i Hi. destruct (Hplaced1 i Hi) as (o & _ & Ho). cbn [st1 m_instancedObjects].
    rewrite Ho. eauto. }
  destruct (Freshen_ready st1 first rest Htargets Hsmall (or_intror Hfilled))
    as (base2 & objs2 & Hbase2 & Hrun2 & Hplaced2 & _).
  exists st1, (mkInstancer MMatrix objs2 count).
  split; [exact Hrun1|]. split.
  { unfold InstancerMASHMore.OnPlugDirty, InstancerMASHMore.ShouldBeRecreated.
    cbn [st1 m_instancedObjectsCachedSize]. rewrite Htargets.
    rewrite bool_decide_eq_true_2 by reflexivity.
    rewrite bool_decide_eq_false_2 by discriminate. reflexivity. }
  split; [exact Hrun2|]. split; [reflexivity|].
  intros i Hi. destruct (Hplaced1 i Hi) as (o & _ & Ho1).
  destruct (Hplaced2 i Hi) as (o' & Hb & Ho2).
  assert (Hbase : base2 !! i = objs1 !! i).
  { rewrite Hbase2. cbn [st1 m_instancedObjects].
    destruct (bool_decide (objs1 = ∅)) eqn:Hempty; [|reflexivity].
    apply bool_decide_eq_true in Hempty. rewrite Hempty, lookup_empty in Ho1. discriminate. }
  rewrite Hbase, Ho1 in Hb. inversion Hb; subst o'.
  eexists _, _. cbn [st1 m_instancedObjects]. split; [exact Ho1|]. split; [exact Ho2|].
  repeat split; reflexivity.
Qed.

(** X20. The constructor throws when the instancer has no target object.
    Otherwise it makes a fresh instance for every index below the count
    and no other, and remembers a count of zero: so unless the count is
    zero, the first plug-dirty callback hides and drops them all. *)
Theorem constructor_instances_are_dropped :
  match targets with
  | [] => constructor double MMatrix scene = (mkInstancer MMatrix ∅ 0, Some out_of_range)
  | first :: _ =>
      exists objs,
        constructor double MMatrix scene = (mkInstancer MMatrix objs 0, None)
        /\ (forall i, objs !! i = if decide (i < Z.to_nat count)%nat
                                  then Some (newInstance MMatrix first) else None)
        /\ OnPlugDirty (mkInstancer MMatrix objs 0)
           = if bool_decide (count = 0)
             then (mkInstancer MMatrix objs 0, ∅, true)
             else (mkInstancer MMatrix ∅ 0, hide MMatrix <$> objs, true)
  end.
Proof.
  unfold constructor, GenerateInstances,
    InstancerMASHMore.OnPlugDirty, InstancerMASHMore.ShouldBeRecreated.
  destruct targets as [|first rest]; [reflexivity|].
  eexists. split; [reflexivity|]. split.
  - intros i. cbn [m_instancedObjects]. rewrite generated_lookup, lookup_empty. reflexivity.
  - cbn [m_instancedObjects m_instancedObjectsCachedSize].
    rewrite (bool_decide_eq_false_2 (first :: rest = [])) by discriminate.
    rewrite orb_false_r. destruct (bool_decide (count = 0)); reflexivity.
Qed.

End InstancerLife.

Lemma Freshen_after_OnPlugDirty_witness :
  let '(st1, _, dirty) :=
    InstancerMASHMore.OnPlugDirty InstancerMASH.Number InstancerMASH.Matrix
      InstancerMASH.sample_scene InstancerMASH.sample_instancer in
  dirty = true
  /\ InstancerMASHMore.consistent InstancerMASH.Matrix st1
  /\ exists st2,
       InstancerMASH.Freshen InstancerMASH.Number (InstancerMASH.Lit 0) (InstancerMASH.Lit 1)
         InstancerMASH.Deg2Rad InstancerMASH.Matrix InstancerMASH.Times InstancerMASH.AsMatrix
         InstancerMASH.sample_scene st1 = (st2, None)
       /\ InstancerMASHMore.consistent InstancerMASH.Matrix st2
       /\ (InstancerMASH.GetTargetObjects InstancerMASH.Number InstancerMASH.sample_scene <> [] ->
           InstancerMASH.m_instancedObjectsCachedSize InstancerMASH.Matrix st2
           = InstancerMASH.GetInstanceCount InstancerMASH.Number InstancerMASH.sample_scene
           /\ InstancerMASHMore.filled InstancerMASH.Matrix
                (InstancerMASH.GetInstanceCount InstancerMASH.Number InstancerMASH.sample_scene)
                st2).
Proof.
  apply (Freshen_after_OnPlugDirty InstancerMASH.Number (InstancerMASH.Lit 0)
           (InstancerMASH.Lit 1) InstancerMASH.Deg2Rad InstancerMASH.Matrix
           InstancerMASH.Times InstancerMASH.AsMatrix
           InstancerMASH.sample_scene InstancerMASH.sample_instancer).
  - vm_compute. reflexivity.
  - left. reflexivity.
Defined.

Lemma Freshen_settles_witness :
  exists st1 st2,
    InstancerMASH.Freshen InstancerMASH.Number (InstancerMASH.Lit 0) (InstancerMASH.Lit 1)
      InstancerMASH.Deg2Rad InstancerMASH.Matrix InstancerMASH.Times InstancerMASH.AsMatrix
      InstancerMASH.sample_scene InstancerMASH.sample_instancer = (st1, None)
    /\ InstancerMASHMore.OnPlugDirty InstancerMASH.Number InstancerMASH.Matrix
         InstancerMASH.sample_scene st1 = (st1, ∅, true)
    /\ InstancerMASH.Freshen InstancerMASH.Number (InstancerMASH.Lit 0) (InstancerMASH.Lit 1)
         InstancerMASH.Deg2Rad InstancerMASH.Matrix InstancerMASH.Times InstancerMASH.AsMatrix
         InstancerMASH.sample_scene st1 = (st2, None)
    /\ InstancerMASH.m_instancedObjectsCachedSize InstancerMASH.Matrix st2
       = InstancerMASH.GetInstanceCount InstancerMASH.Number InstancerMASH.sample_scene
    /\ forall i,
         (i < Z.to_nat (InstancerMASH.GetInstanceCount InstancerMASH.Number
                          InstancerMASH.sample_scene))%nat ->
         exists o1 o2,
           InstancerMASH.m_instancedObjects InstancerMASH.Matrix st1 !! i = Some o1
           /\ InstancerMASH.m_instancedObjects InstancerMASH.Matrix st2 !! i = Some o2
           /\ InstancerMASH.selfTransform InstancerMASH.Matrix o1
              = Some (InstancerMASH.placement InstancerMASH.Number (InstancerMASH.Lit 0)
                        (InstancerMASH.Lit 1) InstancerMASH.Deg2Rad InstancerMASH.Matrix
                        InstancerMASH.Times InstancerMASH.AsMatrix
                        InstancerMASH.sample_scene 7%positive i)
           /\ InstancerMASH.selfTransform InstancerMASH.Matrix o2
              = InstancerMASH.selfTransform InstancerMASH.Matrix o1
           /\ InstancerMASH.rebuilds InstancerMASH.Matrix o2
              = S (InstancerMASH.rebuilds InstancerMASH.Matrix o1)
           /\ InstancerMASH.source InstancerMASH.Matrix o2
              = InstancerMASH.source InstancerMASH.Matrix o1.
Proof.
  apply (Freshen_settles InstancerMASH.Number (InstancerMASH.Lit 0) (InstancerMASH.Lit 1)
           InstancerMASH.Deg2Rad InstancerMASH.Matrix InstancerMASH.Times
           InstancerMASH.AsMatrix InstancerMASH.sample_scene InstancerMASH.sample_instancer
           7%positive []).
  - reflexivity.
  - vm_compute. reflexivity.
  - left. reflexivity.
Defined.

(** ** What the toon shader binds *)

Section ToonInputs.

Import ToonMaterial.
Import ToonMaterialMore.

Variable node : Node.

Lemma toonRamp_inputs :
  ramp_inputs_of (toonRamp node)
  = [RPR_MATERIAL_INPUT_TOON_5_COLORS; RPR_MATERIAL_INPUT_HIGHLIGHT2;
     RPR_MATERIAL_INPUT_HIGHLIGHT; RPR_MATERIAL_INPUT_MID; RPR_MATERIAL_INPUT_SHADOW;
     RPR_MATERIAL_INPUT_SHADOW2; RPR_MATERIAL_INPUT_POSITION_SHADOW;
     RPR_MATERIAL_INPUT_POSITION1; RPR_MATERIAL_INPUT_POSITION2;
     RPR_MATERIAL_INPUT_POSITION_HIGHLIGHT; RPR_MATERIAL_INPUT_INTERPOLATION]
    ++ (if showMixLevels node
        then [RPR_MATERIAL_INPUT_RANGE_SHADOW; RPR_MATERIAL_INPUT_RANGE1;
              RPR_MATERIAL_INPUT_RANGE2; RPR_MATERIAL_INPUT_RANGE_HIGHLIGHT]
        else []).
Proof. unfold toonRamp. destruct (showMixLevels node); reflexivity. Qed.

Lemma toonShader_inputs :
  inputs_of (toonShader node)
  = [RPR_MATERIAL_INPUT_COLOR]
    ++ (if showAdvanced node then [RPR_MATERIAL_INPUT_DIFFUSE_RAMP] else [])
    ++ [RPR_MATERIAL_INPUT_ROUGHNESS]
    ++ (match normalNodeType node with
        | ValueTypeOther => []
        | _ => [RPR_MATERIAL_INPUT_NORMAL]
        end).
Proof.
  unfold toonShader. destruct (showAdvanced node), (normalNodeType node); reflexivity.
Qed.

Lemma linkLight_cases (s : Shader) :
  linkLight node s =
  match renderType node with
  | Thumbnail | Undefined => (s, [])
  | _ => match resolved_light node with
         | Some light => (SetValue RPR_MATERIAL_INPUT_LIGHT (Light light) s, [GetLinkedLightAttr])
         | None => (s, [GetLinkedLightAttr; DisplayError])
         end
  end.
Proof.
  unfold linkLight, resolved_light.
  destruct (renderType node); try reflexivity;
    destruct (linkedLightNode node) as [light|]; try reflexivity;
    destruct (GetRprLightFromNode node light); reflexivity.
Qed.

(** X21. The node returned when transparency is off binds no material
    input twice, whatever the plugs say: the colour and the roughness
    always, the ramp in advanced mode only, the normal only for a normal
    or bump map, and the light last.  The ramp binds no input twice
    either; it always says how to interpolate, and gives the ranges only
    when levels are mixed. *)
Theorem GetShader_binds_each_input_once :
  transparencyEnable node = false ->
  NoDup (inputs_of (fst (GetShader node)))
  /\ NoDup (ramp_inputs_of (toonRamp node))
  /\ (exists light_input,
        inputs_of (fst (GetShader node)) = inputs_of (toonShader node) ++ light_input
        /\ light_input = (if binds RPR_MATERIAL_INPUT_LIGHT (fst (GetShader node))
                          then [RPR_MATERIAL_INPUT_LIGHT] else []))
  /\ (RPR_MATERIAL_INPUT_DIFFUSE_RAMP ∈ inputs_of (fst (GetShader node))
      <-> showAdvanced node = true)
  /\ (RPR_MATERIAL_INPUT_NORMAL ∈ inputs_of (fst (GetShader node))
      <-> normalNodeType node <> ValueTypeOther)
  /\ (RPR_MATERIAL_INPUT_RANGE1 ∈ ramp_inputs_of (toonRamp node)
      <-> showMixLevels node = true).
Proof.
  intros Hopaque.
  assert (Hinputs : exists light_input,
            inputs_of (fst (GetShader node)) = inputs_of (toonShader node) ++ light_input
            /\ light_input = (if binds RPR_MATERIAL_INPUT_LIGHT (fst (GetShader node))
                              then [RPR_MATERIAL_INPUT_LIGHT] else [])).
  { unfold GetShader. rewrite Hopaque. cbv zeta.
    pose proof (toonShader_has_no_light node) as Hnone.
    destruct (toonShader_is_node node) as [inputs Hnode].
    destruct (enableLightLinking node).
    - rewrite linkLight_cases.
      destruct (renderType node); cbn [fst];
        try (exists []; rewrite Hnone, List.app_nil_r; split; reflexivity);
        (destruct (resolved_light node) as [light|]; cbn [fst];
         [|exists []; rewrite Hnone, List.app_nil_r; split; reflexivity]);
        exists [RPR_MATERIAL_INPUT_LIGHT]; rewrite Hnode in *; cbn [SetValue inputs_of binds] in *;
        rewrite map_app, existsb_app, Hnone; cbn; split; reflexivity.
    - cbn [fst]. exists []. rewrite Hnone, List.app_nil_r. split; reflexivity. }
  destruct Hinputs as (light_input & Heq & Hlight).
  rewrite Heq, toonShader_inputs, toonRamp_inputs.
  split; [|split; [|split; [exists light_input; split; [reflexivity|exact Hlight]|]]].
  - subst light_input.
    destruct (showAdvanced node), (normalNodeType node), (binds _ _);
      apply (bool_decide_unpack _); vm_compute; exact I.
  - destruct (showMixLevels node); apply (bool_decide_unpack _); vm_compute; exact I.
  - subst light_input. split; [|split].
    + destruct (showAdvanced node), (normalNodeType node), (binds _ _); cbn;
        split; intros H; try reflexivity; try discriminate;
        try (apply (bool_decide_unpack _); vm_compute; exact I);
        exfalso; revert H; apply (bool_decide_unpack _); vm_compute; exact I.
    + destruct (showAdvanced node), (normalNodeType node), (binds _ _); cbn;
        split; intros H; try discriminate; try congruence;
        try (apply (bool_decide_unpack _); vm_compute; exact I);
        exfalso; revert H; apply (bool_decide_unpack _); vm_compute; exact I.
    + destruct (showMixLevels node); cbn;
        split; intros H; try reflexivity; try discriminate;
        try (apply (bool_decide_unpack _); vm_compute; exact I);
        exfalso; revert H; apply (bool_decide_unpack _); vm_compute; exact I.
Qed.

(** X22. [GetShader] reads the linked light with the MEL command exactly
    when transparency is off, light linking is on and the render is
    neither a thumbnail nor undefined.  It then binds the light if the
    name resolves to an RPR light, and otherwise displays an error and
    returns the shader without a light. *)
Theorem GetShader_links_the_resolved_light :
  let '(shader, events) := GetShader node in
  let wanted :=
    negb (transparencyEnable node) && enableLightLinking node
    && match renderType node with Thumbnail | Undefined => false | _ => true end in
  (if wanted then
     match resolved_light node with
     | Some light =>
         events = [GetLinkedLightAttr]
         /\ shader = SetValue RPR_MATERIAL_INPUT_LIGHT (Light light) (toonShader node)
         /\ binds RPR_MATERIAL_INPUT_LIGHT shader = true
     | None =>
         events = [GetLinkedLightAttr; DisplayError]
         /\ shader = toonShader node
     end
   else events = [])
  /\ (binds RPR_MATERIAL_INPUT_LIGHT shader = true
      <-> wanted = true /\ is_Some (resolved_light node)).
Proof.
  unfold GetShader. cbv zeta.
  pose proof (toonShader_has_no_light node) as Hnone.
  destruct (toonShader_is_node node) as [inputs Hnode].
  assert (Hbound : forall light,
            binds RPR_MATERIAL_INPUT_LIGHT
              (SetValue RPR_MATERIAL_INPUT_LIGHT (Light light) (toonShader node)) = true).
  { intros light. rewrite Hnode. cbn [SetValue binds]. rewrite existsb_app. cbn.
    apply orb_true_r. }
  destruct (transparencyEnable node); cbn [negb andb].
  { split; [reflexivity|]. cbn [binds]. rewrite Hnone. cbn.
    split; [discriminate|intros [H _]; discriminate]. }
  destruct (enableLightLinking node); cbn [andb].
  2: { split; [reflexivity|]. rewrite Hnone. split; [discriminate|intros [H _]; discriminate]. }
  rewrite linkLight_cases.
  destruct (renderType node);
    try (split; [reflexivity|]; rewrite Hnone;
         split; [discriminate|intros [H _]; discriminate]);
    (destruct (resolved_light node) as [light|];
     [ split; [split; [reflexivity|split; [reflexivity|apply Hbound]]|];
       rewrite Hbound; split; [intros _; split; [reflexivity|eauto]|reflexivity]
     | split; [split; reflexivity|]; rewrite Hnone;
       split; [discriminate|intros [_ [x Hx]]; discriminate] ]).
Qed.

End ToonInputs.

Lemma GetShader_binds_each_input_once_witness :
  NoDup (ToonMaterialMore.inputs_of (fst (ToonMaterial.GetShader (ToonMaterial.sample_node false true))))
  /\ NoDup (ToonMaterialMore.ramp_inputs_of (ToonMaterial.toonRamp (ToonMaterial.sample_node false true)))
  /\ (exists light_input,
        ToonMaterialMore.inputs_of (fst (ToonMaterial.GetShader (ToonMaterial.sample_node false true)))
        = ToonMaterialMore.inputs_of (ToonMaterial.toonShader (ToonMaterial.sample_node false true))
          ++ light_input
        /\ light_input
           = (if ToonMaterial.binds ToonMaterial.RPR_MATERIAL_INPUT_LIGHT
                   (fst (ToonMaterial.GetShader (ToonMaterial.sample_node false true)))
              then [ToonMaterial.RPR_MATERIAL_INPUT_LIGHT] else []))
  /\ (ToonMaterial.RPR_MATERIAL_INPUT_DIFFUSE_RAMP
        ∈ ToonMaterialMore.inputs_of (fst (ToonMaterial.GetShader (ToonMaterial.sample_node false true)))
      <-> ToonMaterial.showAdvanced (ToonMaterial.sample_node false true) = true)
  /\ (ToonMaterial.RPR_MATERIAL_INPUT_NORMAL
        ∈ ToonMaterialMore.inputs_of (fst (ToonMaterial.GetShader (ToonMaterial.sample_node false true)))
      <-> ToonMaterial.normalNodeType (ToonMaterial.sample_node false true)
          <> ToonMaterial.ValueTypeOther)
  /\ (ToonMaterial.RPR_MATERIAL_INPUT_RANGE1
        ∈ ToonMaterialMore.ramp_inputs_of (ToonMaterial.toonRamp (ToonMaterial.sample_node false true))
      <-> ToonMaterial.showMixLevels (ToonMaterial.sample_node false true) = true).
Proof.
  apply (GetShader_binds_each_input_once (ToonMaterial.sample_node false true)).
  reflexivity.
Defined.

(** ** Clearing the animation cache *)

Section CacheSwitches.

Variable host : Host.

Lemma requiresResize_empty (w h : Z) (k : string) (v : Viewport) :
  m_textureCache v = ∅ ->
  requiresResize w h k v = negb (bool_decide (w = 0) && bool_decide (h = 0)).
Proof.
  intros Hempty. unfold requiresResize, cachedFrame, Resize. rewrite Hempty, lookup_empty.
  cbn [default empty_frame sf_width sf_height].
  destruct (decide (w = 0)) as [->|Hw], (decide (h = 0)) as [->|Hh].
  - reflexivity.
  - rewrite (bool_decide_eq_false_2 (0 = h)), (bool_decide_eq_false_2 (h = 0)) by congruence.
    reflexivity.
  - rewrite (bool_decide_eq_false_2 (0 = w)), (bool_decide_eq_false_2 (w = 0)) by congruence.
    reflexivity.
  - rewrite (bool_decide_eq_false_2 (0 = w)), (bool_decide_eq_false_2 (w = 0)) by congruence.
    reflexivity.
Qed.

(** X15. Switching the animation cache on or off and clearing it both
    ask Maya for a refresh; the switch reads back as it was set.  Once
    the cache has been cleared, by [clearTextureCache] or by any [resize],
    the next cached request renders its frame again, unless the frame is
    empty. *)
Theorem cleared_cache_renders_again (host' : Host) (value : bool) (w0 h0 w h : Z)
    (v : Viewport) :
  let rendered (x : Viewport) :=
    existsb is_render (calls_since (length (calls x)) (snd (renderCached host' w h x))) in
  useAnimationCache (setUseAnimationCache value v) = value
  /\ calls (setUseAnimationCache value v) = calls v ++ [ViewScheduleRefresh]
  /\ calls (clearTextureCache v) = calls v ++ [ViewScheduleRefresh]
  /\ rendered (clearTextureCache v) = negb (bool_decide (w = 0) && bool_decide (h = 0))
  /\ rendered (snd (resize host w0 h0 v)) = negb (bool_decide (w = 0) && bool_decide (h = 0)).
Proof.
  cbv zeta. split; [reflexivity|]. split; [reflexivity|]. split; [reflexivity|].
  split.
  - destruct (renderCached_renders host' w h (clearTextureCache v)) as [Hrender _].
    cbv zeta in Hrender. rewrite Hrender. apply requiresResize_empty. reflexivity.
  - destruct (renderCached_renders host' w h (snd (resize host w0 h0 v))) as [Hrender _].
    cbv zeta in Hrender. rewrite Hrender. apply requiresResize_empty, resize_cache_empty.
Qed.

End CacheSwitches.

(** ** What the render thread touches *)

Section RenderThread.

Variable host : Host.




End RenderThread.

(** ** Who renders *)

Section Quiet.

Variable FRMAYA_GL_MAX_TEXTURE_SIZE : Z.
Variable host : Host.
Variable P : Event -> bool.

(** [P] lets through every call but, perhaps, a render call or the launch
    of the render loop. *)
Hypothesis P_quiet : forall e, is_render e = false -> is_keep_running e = false -> P e = true.

Lemma quiet_log (e : Event) (v : Viewport) :
  is_render e = false -> is_keep_running e = false -> continues P v (log e v).
Proof. intros Hr Hk. apply continues_log, P_quiet; assumption. Qed.

Lemma quiet_sdk_call (e : Event) :
  is_render e = false -> is_keep_running e = false -> only_calls P (sdk_call host e).
Proof. intros Hr Hk. apply only_calls_sdk_call, P_quiet; assumption. Qed.

Lemma quiet_updateTexture (data : list RV_PIXEL) (w h : Z) (v : Viewport) :
  continues P v (snd (updateTexture host data w h v)).
Proof.
  apply (continues_weaken _ is_texture_write);
    [intros [] H; try discriminate; apply P_quiet; reflexivity|].
  apply updateTexture_calls.
Qed.

Lemma quiet_readFrameBuffer (storedFrame : option string) :
  only_calls P (readFrameBuffer host storedFrame).
Proof.
  intros v. apply (continues_weaken _ is_frame_read);
    [intros [] H; try discriminate; apply P_quiet; reflexivity|].
  apply readFrameBuffer_calls.
Qed.

Lemma quiet_stop (v : Viewport) : continues P v (snd (stop host v)).
Proof.
  apply (continues_weaken _ waiting);
    [intros [] H; try discriminate; apply P_quiet; reflexivity|].
  apply stop_effect.
Qed.

Lemma quiet_resize (w h : Z) : only_calls P (resize host w h).
Proof.
  unfold resize. apply only_calls_try_catch; [|intros; apply only_calls_catch_to_error].
  unfold resize_try.
  apply only_calls_bind;
    [apply only_calls_lift; intros v; apply continues_same; reflexivity|intros _].
  apply only_calls_bind.
  { apply only_calls_lift. intros v. unfold releaseTexture.
    destruct (m_texture v); [|apply continues_refl].
    apply (continues_trans _ _ (log (TexRelease m) v));
      [apply quiet_log; reflexivity|apply continues_same; reflexivity]. }
  intros _. apply only_calls_bind.
  { apply only_calls_lift. intros v.
    destruct (ask host isFirstIterationAndShadersNOTCached v);
      apply continues_same; reflexivity. }
  intros _. apply only_calls_bind.
  { intros v. destruct (isGLInteropActive (m_context v)).
    - unfold resizeFrameBufferGLInterop.
      apply only_calls_bind;
        [apply only_calls_resizePixels|intros _].
      apply only_calls_bind;
        [apply only_calls_lift; intros x; apply continues_same; reflexivity|intros _].
      apply only_calls_bind;
        [apply only_calls_lift; intros x; apply quiet_updateTexture|intros _].
      intros x. destruct (m_texture x); [|apply only_calls_ret].
      apply only_calls_bind; [apply quiet_sdk_call; reflexivity|intros _].
      apply only_calls_lift. intros y. apply continues_same. reflexivity.
    - unfold resizeFrameBufferStandard.
      apply only_calls_bind; [apply quiet_sdk_call; reflexivity|intros _].
      apply only_calls_bind;
        [apply only_calls_lift; intros x; apply continues_same; reflexivity|intros _].
      apply only_calls_bind;
        [apply only_calls_resizePixels|intros _].
      apply only_calls_bind; [apply quiet_readFrameBuffer|intros _].
      apply only_calls_lift. intros x. apply quiet_updateTexture. }
  intros _. apply only_calls_bind; [apply only_calls_get|intros status].
  destruct (failed status); [apply only_calls_ret|].
  apply only_calls_bind; [apply only_calls_get|intros status'].
  destruct (failed status'); [apply only_calls_ret|].
  apply only_calls_bind; [apply only_calls_get|intros valid].
  apply only_calls_bind;
    [destruct valid; [apply quiet_sdk_call; reflexivity|apply only_calls_ret]|intros _].
  apply only_calls_bind; [|intros; apply only_calls_ret].
  apply only_calls_lift. intros v. apply quiet_log; reflexivity.
Qed.

Lemma quiet_renderCached (w h : Z) :
  P (CtxRender None) = true -> only_calls P (renderCached host w h).
Proof.
  intros Hrender v. rewrite renderCached_eq. set (v0 := set_m_pixelsUpdated false v).
  apply (continues_trans _ v v0); [apply continues_same; reflexivity|].
  unfold try_catch. rewrite renderCached_try_eq. cbv zeta.
  set (key := frameKey host v0). set (v1 := set_m_textureCache _ v0).
  apply (continues_trans _ v0 v1); [apply continues_same; reflexivity|].
  assert (Hupdate : only_calls P (updateFromFrame host key w h)).
  { intros x. unfold updateFromFrame.
    pose proof (quiet_updateTexture (frameData key x) w h x) as H.
    destruct (updateTexture host (frameData key x) w h x). exact H. }
  destruct (requiresResize w h key v0);
    match goal with
    | |- context [match ?c v1 with _ => _ end] =>
        refine (only_calls_try_catch P c catch_to_error _ _ v1)
    end; try (intros e; apply only_calls_catch_to_error); try exact Hupdate.
  apply only_calls_bind; [apply only_calls_sdk_call; exact Hrender|intros _].
  apply only_calls_bind; [apply quiet_readFrameBuffer|intros _]. exact Hupdate.
Qed.

Lemma quiet_start (v : Viewport) :
  P KeepRunning = true -> continues P v (snd (start host v)).
Proof.
  intros Hlaunch. apply (continues_weaken _ housekeeping); [|apply start_calls].
  intros [] H; try discriminate; try exact Hlaunch; apply P_quiet; reflexivity.
Qed.

Lemma quiet_doSetup (v : Viewport) :
  (if animating host v && m_useAnimationCache v && negb (isGLInteropActive (m_context v))
   then P (CtxRender None) = true else P KeepRunning = true) ->
  continues P v (snd (doSetup FRMAYA_GL_MAX_TEXTURE_SIZE host v)).
Proof.
  intros Hframe. unfold doSetup. destruct (error_check v); [apply continues_refl|].
  destruct (getSize FRMAYA_GL_MAX_TEXTURE_SIZE host v) as [status0 [w h]].
  destruct (failed status0); [apply continues_refl|]. cbv zeta.
  change (m_useAnimationCache (log (CtxUpdateLimits (animating host v)) v))
    with (m_useAnimationCache v).
  change (m_context (log (CtxUpdateLimits (animating host v)) v)) with (m_context v).
  revert Hframe.
  generalize (animating host v && m_useAnimationCache v
              && negb (isGLInteropActive (m_context v))).
  intros useCache Hframe.
  set (v1 := log _ v).
  assert (H1 : continues P v v1) by (apply quiet_log; reflexivity).
  set (v2 := if (_ : bool) then snd (stop host v1) else v1).
  assert (H2 : continues P v v2).
  { subst v2. destruct (_ && _); [|exact H1].
    apply (continues_trans _ _ v1); [exact H1|apply quiet_stop]. }
  apply (continues_trans _ _ v2); [exact H2|]. generalize v2. clear v v1 H1 v2 H2.
  apply only_calls_bind.
  { intros x. destruct (_ || _); [apply quiet_resize|apply only_calls_ret]. }
  intros status. destruct (failed status); [apply only_calls_ret|].
  apply only_calls_bind; [apply refreshContext_only, P_quiet; reflexivity|].
  intros status'. destruct (failed status'); [apply only_calls_ret|].
  apply only_calls_bind; [apply only_calls_get|intros err].
  destruct err; [apply only_calls_ret|]. destruct useCache.
  - apply only_calls_bind; [apply quiet_renderCached, Hframe|].
    intros status''. destruct (failed status''); apply only_calls_ret.
  - apply only_calls_bind; [|intros; apply only_calls_ret].
    intros x. destruct (negb _); [apply quiet_start, Hframe|apply continues_refl].
Qed.

End Quiet.

Section WhoRenders.

Variable FRMAYA_GL_MAX_TEXTURE_SIZE : Z.
Variable host : Host.

(** X24. [doSetup] either serves the frame from the animation cache or
    sees to it that the render loop runs, never both.  With the cache in
    use (animating, cache switched on, no GL interop) it never launches
    the loop, and the only render call it can make is the one-shot render
    of [renderCached]; otherwise it makes no render call at all, and
    leaves rendering to the thread. *)
Theorem doSetup_renders_only_from_cache (v : Viewport) :
  let new := calls_since (length (calls v))
                         (snd (doSetup FRMAYA_GL_MAX_TEXTURE_SIZE host v)) in
  if animating host v && m_useAnimationCache v && negb (isGLInteropActive (m_context v))
  then existsb is_keep_running new = false
       /\ existsb (fun e => match e with CtxRender (Some _) => true | _ => false end) new
          = false
  else existsb is_render new = false.
Proof.
  cbv zeta.
  destruct (animating host v && m_useAnimationCache v
            && negb (isGLInteropActive (m_context v))) eqn:Hcache.
  - pose (P := fun e => match e with
                        | CtxRender (Some _) | KeepRunning => false
                        | _ => true
                        end).
    assert (H : continues P v (snd (doSetup FRMAYA_GL_MAX_TEXTURE_SIZE host v))).
    { apply quiet_doSetup; [|rewrite Hcache; reflexivity].
      intros [] Hr Hk; try discriminate; reflexivity. }
    split; apply (continues_new P _ _ _ H); intros [| [[]|] | | | | | | | | | | | | | | | | |];
      cbn; congruence.
  - pose (P := fun e => negb (is_render e)).
    assert (H : continues P v (snd (doSetup FRMAYA_GL_MAX_TEXTURE_SIZE host v))).
    { apply quiet_doSetup; [|rewrite Hcache; reflexivity].
      intros e Hr _. unfold P. rewrite Hr. reflexivity. }
    apply (continues_new P _ _ _ H). intros e. unfold P. destruct (is_render e); cbn; congruence.
Qed.

End WhoRenders.

(** ** An empty frame *)

Section EmptyFrame.

Variable FRMAYA_GL_MAX_TEXTURE_SIZE : Z.
Variable host : Host.

Lemma start_empty (v : Viewport) :
  m_isRunning v = false ->
  width (m_context v) = 0 \/ height (m_context v) = 0 ->
  start host v = (false, v).
Proof.
  intros Hrun Hempty. unfold start. rewrite Hrun.
  destruct Hempty as [-> | ->]; rewrite ?orb_true_r; reflexivity.
Qed.

Lemma only_calls_preserves {A} (P : Event -> bool) (c : M A) (v : Viewport) :
  only_calls P c -> preserves (continues P v) c.
Proof. intros Hc x Hx. apply (continues_trans _ _ x); [exact Hx|apply Hc]. Qed.

(** X25. Without GL interop, [doSetup] never launches the render loop
    for an empty frame: when the size it gets has a zero width or a zero
    height, whether it has to resize to it or the context has it already,
    no call to [KeepRunning] is made. *)
Theorem doSetup_empty_frame_never_launches (v : Viewport) (w h : Z) :
  isGLInteropActive (m_context v) = false ->
  getSize FRMAYA_GL_MAX_TEXTURE_SIZE host v = (kSuccess, (w, h)) ->
  w = 0 \/ h = 0 ->
  existsb is_keep_running
    (calls_since (length (calls v)) (snd (doSetup FRMAYA_GL_MAX_TEXTURE_SIZE host v))) = false.
Proof.
  intros Hgl Hsize Hempty.
  apply (continues_new not_launch); [|intros [] H; cbn in *; congruence].
  destruct (animating host v && m_useAnimationCache v
            && negb (isGLInteropActive (m_context v))) eqn:Hcache.
  { apply quiet_doSetup; [|rewrite Hcache; reflexivity].
    intros [] Hr Hk; try discriminate; reflexivity. }
  unfold doSetup. destruct (error_check v); [apply continues_refl|].
  rewrite Hsize. change (failed kSuccess) with false. cbv iota zeta.
  change (m_useAnimationCache (log (CtxUpdateLimits (animating host v)) v))
    with (m_useAnimationCache v).
  change (m_context (log (CtxUpdateLimits (animating host v)) v)) with (m_context v).
  rewrite Hcache, andb_false_r.
  set (v1 := log _ v).
  assert (H1 : continues not_launch v v1) by (apply continues_log; reflexivity).
  assert (Hgl1 : isGLInteropActive (m_context v1) = false) by exact Hgl.
  revert H1 Hgl1. generalize v1. clear v1. intros v1 H1 Hgl1.
  unfold bind at 1.
  set (R := if negb (bool_decide (w = width (m_context v1)))
               || negb (bool_decide (h = height (m_context v1)))
            then resize host w h v1 else ret kSuccess v1).
  assert (HR : continues not_launch v (snd R)
               /\ exists status,
                    fst R = Ret status
                    /\ (failed status = false ->
                        width (m_context (snd R)) = 0 \/ height (m_context (snd R)) = 0)).
  { subst R. destruct (negb (bool_decide (w = width (m_context v1)))
                       || negb (bool_decide (h = height (m_context v1)))) eqn:Hdiff.
    - split; [apply (continues_trans _ _ v1); [exact H1|]; apply quiet_resize;
              intros [] Hr Hk; try discriminate; reflexivity|].
      destruct (returns_try_catch (resize_try host w h) v1) as [status Hs].
      exists status. split; [exact Hs|]. intros Hok.
      destruct (resize_standard_cases host w h v1 Hgl1) as [Hnew|(_ & _ & Hfail & _)].
      + unfold shape, resized_shape in Hnew. injection Hnew as _ Hw Hh _.
        rewrite Hw, Hh. exact Hempty.
      + unfold resize in Hfail. rewrite Hs in Hfail. injection Hfail as ->. discriminate.
    - split; [exact H1|]. exists kSuccess. split; [reflexivity|]. intros _.
      apply orb_false_iff in Hdiff as [Hw Hh].
      apply negb_false_iff, bool_decide_eq_true in Hw, Hh. cbn [snd ret].
      rewrite <- Hw, <- Hh. exact Hempty. }
  destruct HR as (HRcalls & status & HRs & HRempty).
  destruct R as [result x]. cbn [fst snd] in *. subst result.
  destruct (failed status); [exact HRcalls|]. specialize (HRempty eq_refl).
  pose (I := fun y => continues not_launch v y
                      /\ (width (m_context y) = 0 \/ height (m_context y) = 0)).
  assert (Hx : I x) by (split; assumption).
  enough (HI : I (snd ((do status <- refreshContext host;
                        if failed status then ret status else
                        do err <- get error_check;
                        if err then ret kFailure else
                        do _ <- (fun v' => if negb (m_isRunning v')
                                           then lift (fun x => snd (start host x)) v'
                                           else ret tt v');
                        ret kSuccess) x))) by apply HI.
  revert Hx. generalize x. clear.
  apply (preserves_bind I).
  { intros y [Hc He]. split.
    - revert Hc. apply only_calls_preserves, refreshContext_only. reflexivity.
    - assert (Hshape : shape (snd (refreshContext host y)) = shape y)
        by (apply (shape_refreshContext host (shape y)); reflexivity).
      unfold shape in Hshape. injection Hshape as _ -> -> _. exact He. }
  intros status. destruct (failed status); [apply preserves_ret|].
  apply preserves_bind; [intros y Hy; exact Hy|intros err].
  destruct err; [apply preserves_ret|].
  apply preserves_bind; [|intros; apply preserves_ret].
  intros y [Hc He]. destruct (negb (m_isRunning y)) eqn:Hrun; [|split; assumption].
  apply negb_true_iff in Hrun. unfold lift. cbn [snd].
  rewrite (start_empty y Hrun He). split; assumption.
Qed.

End EmptyFrame.

(** A viewport of 4 x 2 asked for 0 x 2. *)
Lemma doSetup_empty_frame_never_launches_witness :
  existsb is_keep_running
    (calls_since
       (length (calls (sample_viewport false false StateRendering 4 2)))
       (snd (doSetup 2048
               (scripted_host false false false false (kSuccess, (0, 2)) 0 None never_throws)
               (sample_viewport false false StateRendering 4 2)))) = false.
Proof.
  apply (doSetup_empty_frame_never_launches 2048
           (scripted_host false false false false (kSuccess, (0, 2)) 0 None never_throws)
           (sample_viewport false false StateRendering 4 2) 0 2).
  - reflexivity.
  - reflexivity.
  - left. reflexivity.
Defined.
